(** * Sephora advanced scraper: a shallow embedding of the extraction core

    The repository holds two pipelines that share no code: [main.py] with
    [parser/], [utils/] and the [*_extractor] modules, and [runner.py]
    with the [*_parser] modules of [extractors/]. Both are embedded here,
    function by function, and compared with the specification.

    Definitions, one module per source module:

    - [PyStr]         the [str] methods the code calls, on ASCII text;
    - [Py]            exceptions, binary64 floats with [float], [round] and
                      [int], and the values [json.loads] produces;
    - [JsonLd]        the two JSON-LD scanners and the two Product locators;
    - [UtilsFormat]   [clean_text], [parse_float], [parse_int],
                      [parse_number_with_suffix];
    - [Stats]         [build_statistics_from_reviews], [parse_statistics];
    - [Dates]         [datetime.strptime] for the three formats, and the two
                      date normalisers;
    - [Variants]      [parse_product_variants], [_build_variants];
    - [Info]          [extract_meta_tag], [_build_product_info];
    - [Urls]          [dedupe_urls] and the inline loop of [runner.py];
    - [Orchestrator]  the per-URL loops of [main.py] and [runner.py];
    - [Ids]           [infer_product_id_from_url];
    - [Request]       [RequestHelper.fetch_html] with its retries;
    - [Links]         [CategoryParser.extract_product_links],
                      [SimilarProductsParser.extract_similar_product_links],
                      [discover_product_urls_from_category];
    - [Reviews]       [extract_reviews] with its two tiers;
    - [Questions]     [extract_questions] with its two tiers;
    - [ProductRecord] [ProductParser.parse_product];
    - [ReviewsParser] [_parse_review_container], [parse_reviews];
    - [Inputs]        [load_input_payload], [load_inputs];
    - [InfoParser]    [parse_product_info];
    - [QuestionsParser] [_parse_answer], [_parse_question_block],
                      [parse_questions].

    [TextShapes], [Histogram], [Bookkeeping] and [VariantEntries] hold
    the predicates and readings the properties are stated with.

    The properties follow, one section per subject.

    What belongs to Python's library or to BeautifulSoup is either
    modelled on ASCII input ([str] methods, [float], [round], [strptime])
    or taken as a parameter ([json.loads], [repr], the network, the HTML
    parser, whose findings on a page are given as records). Text is ASCII:
    a [string] is a sequence of one-byte characters, so the Unicode-only
    members of [str.isspace] and of the regex classes are outside the
    model. Exhaustion of resources (memory, recursion depth) is not
    modelled. *)

From Stdlib Require Import ZArith String Ascii List Bool Lia SpecFloat.
From stdpp Require Import base gmap strings list.

Import ListNotations.
Local Open Scope string_scope.
Set Warnings "-register-all".

(* ===================================================================== *)
(** * Python [str] methods *)
(* ===================================================================== *)

Module PyStr.

(** [str.isspace] on one ASCII character: TAB, LF, VT, FF, CR, the four
    separators FS GS RS US, and the space. *)
Definition is_space (c : ascii) : bool :=
  let n := nat_of_ascii c in
  (((9 <=? n) && (n <=? 13)) || ((28 <=? n) && (n <=? 32)))%nat.

Definition chars (s : string) : list ascii := list_ascii_of_string s.
Definition text (l : list ascii) : string := string_of_list_ascii l.

Fixpoint lstrip_chars (l : list ascii) : list ascii :=
  match l with
  | c :: l' => if is_space c then lstrip_chars l' else l
  | [] => []
  end.

Definition rstrip_chars (l : list ascii) : list ascii :=
  rev (lstrip_chars (rev l)).

(** [s.strip()] *)
Definition strip (s : string) : string :=
  text (rstrip_chars (lstrip_chars (chars s))).

(** Truthiness of a [str]: non-empty. *)
Definition nonempty (s : string) : bool :=
  match s with EmptyString => false | String _ _ => true end.

(** C's [isspace], which [float(text)] strips by: TAB, LF, VT, FF, CR and
    the space, without the four separators. *)
Definition is_c_space (c : ascii) : bool :=
  let n := nat_of_ascii c in
  (((9 <=? n) && (n <=? 13)) || (n =? 32))%nat.

Fixpoint drop_while (p : ascii -> bool) (l : list ascii) : list ascii :=
  match l with
  | c :: l' => if p c then drop_while p l' else l
  | [] => []
  end.

Definition c_strip_chars (l : list ascii) : list ascii :=
  rev (drop_while is_c_space (rev (drop_while is_c_space l))).

Definition is_digit (c : ascii) : bool :=
  let n := nat_of_ascii c in ((48 <=? n) && (n <=? 57))%nat.

Definition digit_val (c : ascii) : Z := Z.of_nat (nat_of_ascii c) - 48.

Definition is_upper (c : ascii) : bool :=
  let n := nat_of_ascii c in ((65 <=? n) && (n <=? 90))%nat.

Definition lower_char (c : ascii) : ascii :=
  if is_upper c then ascii_of_nat (nat_of_ascii c + 32) else c.

(** [s.lower()] *)
Definition lower (s : string) : string := text (List.map lower_char (chars s)).

(** [s.replace(",", "")] *)
Definition remove_commas (s : string) : string :=
  text (List.filter (fun c => negb (Ascii.eqb c ",")) (chars s)).

Fixpoint starts_with (p l : list ascii) : bool :=
  match p, l with
  | [], _ => true
  | _ :: _, [] => false
  | a :: p', b :: l' => Ascii.eqb a b && starts_with p' l'
  end.

Fixpoint contains_chars (p l : list ascii) : bool :=
  starts_with p l ||
  match l with
  | [] => false
  | _ :: l' => contains_chars p l'
  end.

(** [sub in s] *)
Definition contains (sub s : string) : bool :=
  contains_chars (chars sub) (chars s).

(** [s.split()]: the maximal runs of non-space characters. [cur] holds the
    run being read, reversed. *)
Fixpoint split_ws (l cur : list ascii) : list (list ascii) :=
  match l with
  | [] => match cur with [] => [] | _ => [rev cur] end
  | c :: l' =>
      if is_space c
      then match cur with
           | [] => split_ws l' []
           | _ => rev cur :: split_ws l' []
           end
      else split_ws l' (c :: cur)
  end.

Fixpoint join_space (ws : list (list ascii)) : list ascii :=
  match ws with
  | [] => []
  | [w] => w
  | w :: ws' => w ++ " "%char :: join_space ws'
  end.

(** The decimal digit of a natural number below ten, and the decimal text
    of any integer ([str(n)], used by the f-string [f"variant-{idx}"]).
    [n + 1] turns are more than [n] has digits. *)
Definition digit_char (d : nat) : ascii := ascii_of_nat (48 + d).

Fixpoint decimal_chars (fuel : nat) (n : nat) (acc : list ascii) : list ascii :=
  match fuel with
  | O => acc
  | S fuel' =>
      let acc' := digit_char (n mod 10) :: acc in
      if (n <? 10)%nat then acc' else decimal_chars fuel' (n / 10) acc'
  end.

Definition str_of_nat (n : nat) : string := text (decimal_chars (S n) n []).

Definition str_of_Z (z : Z) : string :=
  match z with
  | Zneg _ => "-" ++ str_of_nat (Z.to_nat (- z))
  | _ => str_of_nat (Z.to_nat z)
  end.

End PyStr.

(* ===================================================================== *)
(** * Python values, exceptions and floats *)
(* ===================================================================== *)

Module Py.
Import PyStr.
Local Open Scope Z_scope.

(** The exceptions the modelled code can meet. *)
Inductive exn :=
  | ValueError
  | TypeError
  | OverflowError
  | AttributeError
  | IndexError.

(** A call either returns or raises. *)
Inductive result (A : Type) :=
  | Ok (a : A)
  | Raise (e : exn).
Arguments Ok {A} a.
Arguments Raise {A} e.

Definition bind {A B} (r : result A) (k : A -> result B) : result B :=
  match r with
  | Ok a => k a
  | Raise e => Raise e
  end.

(** [try: body  except (e1, ..): handler] *)
Definition try_except {A} (body : result A) (caught : exn -> bool)
    (handler : result A) : result A :=
  match body with
  | Ok a => Ok a
  | Raise e => if caught e then handler else Raise e
  end.

Definition is_ok {A} (r : result A) : bool :=
  match r with Ok _ => true | Raise _ => false end.

(** ** Floats: IEEE-754 binary64, as the kernel's [SpecFloat] defines it *)

Definition float := spec_float.
Definition prec : Z := 53.
Definition emax : Z := 1024.

Definition fadd : float -> float -> float := SFadd prec emax.
Definition fmul : float -> float -> float := SFmul prec emax.
Definition fdiv : float -> float -> float := SFdiv prec emax.

(** The double nearest (ties to even) to [num / den], for [0 <= num] and
    [0 < den]: the quotient is cut at the precision the format needs, and
    the remainder decides the rounding. *)
Definition float_of_ratio (neg : bool) (num den : Z) : float :=
  match num with
  | Z0 => S754_zero neg
  | _ =>
      let '(mz, ez, lz) := SFdiv_core_binary prec emax num 0 den 0 in
      binary_round_aux prec emax neg mz ez lz
  end.

(** The double nearest to [n * 10 ^ e10], which is what [float(text)] and
    the decimal-to-binary step of [round(x, 2)] compute. *)
Definition float_of_decimal (neg : bool) (n : Z) (e10 : Z) : float :=
  if (0 <=? e10)%Z then float_of_ratio neg (n * 10 ^ e10) 1
  else float_of_ratio neg n (10 ^ (- e10)).

Definition is_finite (x : float) : bool :=
  match x with
  | S754_zero _ | S754_finite _ _ _ => true
  | _ => false
  end.

(** [float(n)] for an [int]: correctly rounded, [OverflowError] when the
    integer is too large for a double. *)
Definition float_of_int (n : Z) : result float :=
  let x := float_of_ratio (n <? 0)%Z (Z.abs n) 1 in
  if is_finite x then Ok x else Raise OverflowError.

(** Nearest integer, ties to even, of [m * 2 ^ e] for [0 <= m]. *)
Definition round_half_even (m e : Z) : Z :=
  if (0 <=? e)%Z then m * 2 ^ e
  else
    let d := 2 ^ (- e) in
    let q := m / d in
    let r := m mod d in
    match (2 * r ?= d)%Z with
    | Lt => q
    | Gt => q + 1
    | Eq => if Z.even q then q else q + 1
    end.

(** [round(x)] for a float: an [int]. *)
Definition py_round (x : float) : result Z :=
  match x with
  | S754_zero _ => Ok 0%Z
  | S754_finite s m e =>
      let r := round_half_even (Zpos m) e in
      Ok (if s then - r else r)%Z
  | S754_infinity _ => Raise OverflowError
  | S754_nan => Raise ValueError
  end.

(** [round(x, 2)] for a float: the exact binary value is rounded (ties to
    even) to two decimals and the decimal converted back to a double. *)
Definition py_round2 (x : float) : float :=
  match x with
  | S754_finite s m e => float_of_decimal s (round_half_even (Zpos m * 100) e) (-2)
  | _ => x
  end.

(** [int(x)] for a float: truncation towards zero. *)
Definition int_of_float (x : float) : result Z :=
  match x with
  | S754_zero _ => Ok 0%Z
  | S754_finite s m e =>
      let t := if (0 <=? e)%Z then (Zpos m * 2 ^ e)%Z else (Zpos m / 2 ^ (- e))%Z in
      Ok (if s then - t else t)%Z
  | S754_infinity _ => Raise OverflowError
  | S754_nan => Raise ValueError
  end.

(** Truthiness of a float: everything but the two zeros. *)
Definition float_truthy (x : float) : bool :=
  match x with S754_zero _ => false | _ => true end.

Definition fzero : float := S754_zero false.

(** [sum(xs)] over floats: the additions left to right from the integer
    [0], each rounded (later CPython versions compensate the rounding
    errors; the two agree whenever the partial sums are exact). *)
Definition fsum (xs : list float) : float := fold_left fadd xs fzero.

(** ** Whole numbers held exactly

    The double that holds the positive integer [k] exactly, for [k] of at
    most 53 bits: the mantissa is [k] shifted up to 53 bits. *)
Definition mantissa_of (k : positive) : positive :=
  Z.to_pos (Zpos k * 2 ^ (53 - Zpos (digits2_pos k))).

Definition float_of_pos (k : positive) : float :=
  S754_finite false (mantissa_of k) (Zpos (digits2_pos k) - 53).

(** A shift record with nothing shifted out. *)
Definition exact_record (m : Z) : shr_record :=
  {| shr_m := m; shr_r := false; shr_s := false |}.

(** ** [float(text)]

    CPython's grammar on ASCII text: surrounding space (C's [isspace]) is
    stripped; then an optional sign; then [inf], [infinity] or [nan] in
    any letter case, or a decimal numeral with an optional fraction and an
    optional exponent. Digits may be grouped by single underscores. [None]
    is [ValueError]. *)

Fixpoint read_digits (l : list ascii) (n cnt : Z) : Z * Z * list ascii :=
  match l with
  | [] => (n, cnt, [])
  | c :: l' =>
      if is_digit c then read_digits l' (10 * n + digit_val c) (cnt + 1)
      else if Ascii.eqb c "_" && (0 <? cnt) then
        match l' with
        | d :: l'' =>
            if is_digit d then read_digits l'' (10 * n + digit_val d) (cnt + 1)
            else (n, cnt, l)
        | [] => (n, cnt, l)
        end
      else (n, cnt, l)
  end.

Definition read_sign (l : list ascii) : bool * list ascii :=
  match l with
  | "-"%char :: r => (true, r)
  | "+"%char :: r => (false, r)
  | _ => (false, l)
  end.

Definition read_exponent (l : list ascii) : option Z :=
  let '(neg, r) := read_sign l in
  let '(ex, cnt, rest) := read_digits r 0 0 in
  match rest with
  | [] => if (0 <? cnt) then Some (if neg then - ex else ex) else None
  | _ => None
  end.

Definition float_of_text (s : string) : option float :=
  let '(neg, r) := read_sign (c_strip_chars (chars s)) in
  let word := text (List.map lower_char r) in
  if String.eqb word "inf" || String.eqb word "infinity"
  then Some (S754_infinity neg)
  else if String.eqb word "nan" then Some S754_nan
  else
    let '(n1, c1, r1) := read_digits r 0 0 in
    let '(n2, c2, r2) :=
      match r1 with
      | "."%char :: r' => read_digits r' n1 0
      | _ => (n1, 0, r1)
      end in
    if (c1 + c2 =? 0) then None
    else
      match r2 with
      | [] => Some (float_of_decimal neg n2 (- c2))
      | c :: r3 =>
          if Ascii.eqb c "e" || Ascii.eqb c "E" then
            match read_exponent r3 with
            | Some ex => Some (float_of_decimal neg n2 (ex - c2))
            | None => None
            end
          else None
      end.

(** ** Values

    What [json.loads] returns, and what the extractors put in their
    records. A [dict] is the list of its items in insertion order. *)

Inductive value :=
  | VNone
  | VBool (b : bool)
  | VInt (n : Z)
  | VFloat (x : float)
  | VStr (s : string)
  | VList (items : list value)
  | VDict (items : list (string * value)).

Definition dict := list (string * value).

Fixpoint dict_lookup (d : dict) (k : string) : option value :=
  match d with
  | [] => None
  | (k', v) :: d' => if String.eqb k' k then Some v else dict_lookup d' k
  end.

(** [d.get(k)]: [None] when the key is missing. *)
Definition dict_get (d : dict) (k : string) : value :=
  match dict_lookup d k with
  | Some v => v
  | None => VNone
  end.

(** Truthiness, as [if v], [not v] and [v or w] test it. *)
Definition truthy (v : value) : bool :=
  match v with
  | VNone => false
  | VBool b => b
  | VInt n => negb (n =? 0)
  | VFloat x => float_truthy x
  | VStr s => nonempty s
  | VList l => match l with [] => false | _ => true end
  | VDict d => match d with [] => false | _ => true end
  end.

(** [a or b] *)
Definition py_or (a b : value) : value := if truthy a then a else b.

(** [v == "text"]: only a [str] equals a [str]. *)
Definition eq_str (v : value) (s : string) : bool :=
  match v with
  | VStr t => String.eqb t s
  | _ => false
  end.

(** ["text" in l] for a list [l]. *)
Definition str_in_list (s : string) (l : list value) : bool :=
  existsb (fun v => eq_str v s) l.

End Py.

(* ===================================================================== *)
(** * Structured-data locator ([utils/html_utils.py],
      [parser/product_parser.py], [extractors/product_parser.py]) *)
(* ===================================================================== *)

Module JsonLd.
Import PyStr Py.

Section Scanner.

(** [json.loads]: the parsed value, or [None] for [json.JSONDecodeError].
    The decoder belongs to Python's library and is a parameter here. *)
Variable json_loads : string -> option value.

(** What the scanners see of a page: for every
    [<script type="application/ld+json">] tag in document order, its
    [.string] ([None] when the tag does not hold exactly one text node). *)
Definition scripts := list (option string).

(** The items a decoded block contributes to [results] in
    [extract_json_ld_objects]: the [dict] members of a list, or the
    [dict] itself. *)
Definition dict_items (data : value) : list dict :=
  match data with
  | VList items =>
      flat_map (fun item => match item with VDict d => [d] | _ => [] end) items
  | VDict d => [d]
  | _ => []
  end.

(** One turn of the loop of [extract_json_ld_objects]: what the tag adds
    to [results]. *)
Definition scan_script (script_string : option string) : list dict :=
  match script_string with
  | None => []
  | Some str =>
      if negb (nonempty str) then []
      else
        let raw := strip str in
        if negb (nonempty raw) then []
        else
          match json_loads raw with
          | Some data => dict_items data
          | None =>
              let fixed := "[" ++ raw ++ "]" in
              match json_loads fixed with
              | Some data => dict_items data
              | None => []
              end
          end
  end.

(** [extract_json_ld_objects(soup)] of [utils/html_utils.py]. *)
Definition extract_json_ld_objects (page : scripts) : list dict :=
  flat_map scan_script page.

(** One turn of the loop of [_extract_ld_json_blocks]: the text is decoded
    as it stands, once. *)
Definition scan_block (script_string : option string) : list value :=
  match script_string with
  | None => []
  | Some str =>
      if negb (nonempty str) then []
      else
        match json_loads str with
        | Some data => [data]
        | None => []
        end
  end.

(** [_extract_ld_json_blocks(soup)] of [extractors/product_parser.py]. *)
Definition _extract_ld_json_blocks (page : scripts) : list value :=
  flat_map scan_block page.

End Scanner.

(** [ProductParser._find_product_json(json_ld_objects)] *)
Fixpoint _find_product_json (json_ld_objects : list dict) : option dict :=
  match json_ld_objects with
  | [] => None
  | obj :: rest =>
      let t := dict_get obj "@type" in
      match t with
      | VList l =>
          if str_in_list "Product" l then Some obj else _find_product_json rest
      | _ =>
          if eq_str t "Product" then Some obj else _find_product_json rest
      end
  end.

(** [isinstance(v, dict) and v.get("@type") == "Product"] *)
Definition is_product_dict (v : value) : option dict :=
  match v with
  | VDict d => if eq_str (dict_get d "@type") "Product" then Some d else None
  | _ => None
  end.

(** The inner [for item in block] of [_find_product_ld]. *)
Fixpoint find_product_item (block : list value) : option dict :=
  match block with
  | [] => None
  | item :: rest =>
      match is_product_dict item with
      | Some d => Some d
      | None => find_product_item rest
      end
  end.

(** [_find_product_ld(blocks)] of [extractors/product_parser.py]. *)
Fixpoint _find_product_ld (blocks : list value) : option dict :=
  match blocks with
  | [] => None
  | block :: rest =>
      match is_product_dict block with
      | Some d => Some d
      | None =>
          match block with
          | VList items =>
              match find_product_item items with
              | Some d => Some d
              | None => _find_product_ld rest
              end
          | _ => _find_product_ld rest
          end
      end
  end.

(** ** The specification's wording: "the first object whose type tag
    matches Product either directly or as a member of a type-list". *)
Definition type_matches (obj : dict) : bool :=
  match dict_get obj "@type" with
  | VStr t => String.eqb t "Product"
  | VList l => str_in_list "Product" l
  | _ => false
  end.

Definition locate_spec (objs : list dict) : option dict :=
  List.find type_matches objs.

(** A type tag that is the text Product itself. *)
Definition type_is_product (obj : dict) : bool :=
  eq_str (dict_get obj "@type") "Product".

(** Two sample objects: one of another type, one tagged with a type-list. *)
Definition organization : dict :=
  [("@type", VStr "Organization"); ("name", VStr "Sephora")].
Definition thing_product : dict :=
  [("@type", VList [VStr "Thing"; VStr "Product"]); ("name", VStr "Lipstick")].

(** ** Sample texts

    [json.loads] on the texts the examples below decode: two sibling
    objects separated by a comma are "extra data" for the decoder, the same
    text between brackets is a list of two objects. Every other text is
    left undecoded by this sample. *)
Definition quoted (s : string) : string :=
  String (ascii_of_nat 34) (s ++ String (ascii_of_nat 34) "").

Definition obj_a : string := "{" ++ quoted "a" ++ ": 1}".
Definition obj_b : string := "{" ++ quoted "b" ++ ": 2}".
Definition siblings : string := obj_a ++ "," ++ obj_b.

Definition json_loads_sample (s : string) : option value :=
  if String.eqb s obj_a then Some (VDict [("a", VInt 1)])
  else if String.eqb s obj_b then Some (VDict [("b", VInt 2)])
  else if String.eqb s ("[" ++ siblings ++ "]")
  then Some (VList [VDict [("a", VInt 1)]; VDict [("b", VInt 2)]])
  else None.

End JsonLd.

(* ===================================================================== *)
(** * Scalar normalisers ([extractors/utils_format.py]) *)
(* ===================================================================== *)

Module UtilsFormat.
Import PyStr Py.

(** [clean_text(text)]: [" ".join(text.split())], the empty string for
    [None] or empty text. *)
Definition clean_text (t : option string) : string :=
  match t with
  | None => ""
  | Some s => text (join_space (split_ws (chars s) []))
  end.

(** [float(text)] as a call that may raise. *)
Definition py_float_of_str (s : string) : result float :=
  match float_of_text s with
  | Some x => Ok x
  | None => Raise ValueError
  end.

Definition caught_type_or_value (e : exn) : bool :=
  match e with
  | TypeError | ValueError => true
  | _ => false
  end.

Definition caught_value (e : exn) : bool :=
  match e with
  | ValueError => true
  | _ => false
  end.

(** [parse_float(value, default)]. For a list or a dict, [str(value)]
    opens with a bracket, which [float] rejects with [ValueError]. *)
Definition parse_float (v : value) (default : float) : result float :=
  match v with
  | VNone => Ok default
  | VBool b => float_of_int (if b then 1 else 0)
  | VInt n => float_of_int n
  | VFloat x => Ok x
  | VStr s =>
      try_except (py_float_of_str (remove_commas (strip s)))
        caught_type_or_value (Ok default)
  | VList _ | VDict _ => Ok default
  end.

(** [parse_int(value, default)]. For a float, [str(value)] is its [repr],
    which [float] reads back to the same double. [OverflowError], raised
    by [int] on an infinity, is not among the caught exceptions. *)
Definition parse_int (v : value) (default : Z) : result Z :=
  match v with
  | VNone => Ok default
  | VBool b => Ok (if b then 1 else 0)%Z
  | VInt n => Ok n
  | VFloat x =>
      try_except (int_of_float x) caught_type_or_value (Ok default)
  | VStr s =>
      try_except
        (bind (py_float_of_str (remove_commas (strip s))) int_of_float)
        caught_type_or_value (Ok default)
  | VList _ | VDict _ => Ok default
  end.

(** ** [NUMBER_WITH_SUFFIX_RE = ^\s*([\d.,]+)\s*([kKmM]?)\s*$]

    The three classes (space, number characters, suffix letters) are
    disjoint, so the greedy match is the only one: skip the space, take
    the longest run of number characters, skip the space, take one suffix
    letter if there is one, skip the space, and be at the end. *)

Definition is_number_char (c : ascii) : bool :=
  is_digit c || Ascii.eqb c "." || Ascii.eqb c ",".

Definition is_suffix_char (c : ascii) : bool :=
  Ascii.eqb c "k" || Ascii.eqb c "K" || Ascii.eqb c "m" || Ascii.eqb c "M".

Fixpoint span (p : ascii -> bool) (l : list ascii) : list ascii * list ascii :=
  match l with
  | c :: l' =>
      if p c then let '(a, b) := span p l' in (c :: a, b) else ([], l)
  | [] => ([], [])
  end.

(** [NUMBER_WITH_SUFFIX_RE.match(text).groups()] *)
Definition number_with_suffix_match (t : string) : option (string * string) :=
  let '(num, l1) := span is_number_char (lstrip_chars (chars t)) in
  match num with
  | [] => None
  | _ =>
      let '(suf, l3) :=
        match lstrip_chars l1 with
        | c :: r => if is_suffix_char c then ([c], r) else ([], c :: r)
        | [] => ([], [])
        end in
      match lstrip_chars l3 with
      | [] => Some (text num, text suf)
      | _ => None
      end
  end.

Definition f1000 : float := float_of_ratio false 1000 1.
Definition f1000000 : float := float_of_ratio false 1000000 1.

(** [parse_number_with_suffix(text, default)] *)
Definition parse_number_with_suffix (t : option string) (default : Z)
    : result Z :=
  match t with
  | None => Ok default
  | Some txt =>
      if negb (nonempty txt) then Ok default
      else
        match number_with_suffix_match txt with
        | None => Ok default
        | Some (number_str, suffix) =>
            match float_of_text (remove_commas number_str) with
            | None => Ok default
            | Some value =>
                let suffix := lower suffix in
                let value :=
                  if String.eqb suffix "k" then fmul value f1000
                  else if String.eqb suffix "m" then fmul value f1000000
                  else value in
                py_round value
            end
        end
  end.

(** ** The specification's wording

    A popularity text: space, a number made of digits, dots and commas,
    space, an optional suffix letter, space; the multiplier the suffix
    stands for; and the value of a run of digits. *)
Definition suffix_chars (suffix : option ascii) : list ascii :=
  match suffix with Some c => [c] | None => [] end.

Definition popularity_text (ws1 num ws2 : list ascii) (suffix : option ascii)
    (ws3 : list ascii) : string :=
  text (ws1 ++ num ++ ws2 ++ suffix_chars suffix ++ ws3).

Definition multiplier (suffix : option ascii) : Z :=
  match suffix with
  | None => 1
  | Some c => if Ascii.eqb c "k" || Ascii.eqb c "K" then 1000 else 1000000
  end.

Definition scale (suffix : option ascii) (value : float) : float :=
  match suffix with
  | None => value
  | Some c =>
      if Ascii.eqb c "k" || Ascii.eqb c "K" then fmul value f1000
      else fmul value f1000000
  end.

Definition digits_value (ds : list ascii) : Z :=
  fold_left (fun n c => 10 * n + digit_val c)%Z ds 0%Z.

Definition is_comma (c : ascii) : bool := Ascii.eqb c ",".

Definition all_of (p : ascii -> bool) (l : list ascii) : Prop :=
  Forall (fun c => p c = true) l.

End UtilsFormat.

(* ===================================================================== *)
(** * Statistics aggregators ([extractors/stats_extractor.py],
      [extractors/product_parser.py]) *)
(* ===================================================================== *)

Module Stats.
Import PyStr Py UtilsFormat.
Local Open Scope Z_scope.

(** [float(v)] for a value. *)
Definition py_float (v : value) : result float :=
  match v with
  | VNone => Raise TypeError
  | VBool b => float_of_int (if b then 1 else 0)
  | VInt n => float_of_int n
  | VFloat x => Ok x
  | VStr s => py_float_of_str s
  | VList _ | VDict _ => Raise TypeError
  end.

(** [isinstance(v, (int, float))]; [bool] is a subclass of [int]. *)
Definition is_number (v : value) : bool :=
  match v with
  | VBool _ | VInt _ | VFloat _ => true
  | _ => false
  end.

(** A list length as the float a division converts it to. *)
Definition float_of_len (n : nat) : float := float_of_ratio false (Z.of_nat n) 1.

(** The loop that fills [ratings] in [build_statistics_from_reviews]. *)
Fixpoint collect_ratings (reviews : list dict) (ratings : list float)
    : result (list float) :=
  match reviews with
  | [] => Ok ratings
  | r :: rest =>
      let rating := dict_get r "rating" in
      if is_number rating
      then bind (py_float rating) (fun x => collect_ratings rest (ratings ++ [x]))
      else collect_ratings rest ratings
  end.

(** [build_statistics_from_reviews(reviews)] *)
Definition build_statistics_from_reviews (reviews : list dict) : result dict :=
  let review_count := length reviews in
  if (review_count =? 0)%nat then
    Ok [ ("average_rating", VNone);
         ("helpful_vote_count", VNone);
         ("not_helpful_vote_count", VNone);
         ("recommended_review_count", VNone);
         ("review_count", VInt 0) ]
  else
    bind (collect_ratings reviews []) (fun ratings =>
      let average_rating :=
        match ratings with
        | [] => VNone
        | _ => VFloat (fdiv (fsum ratings) (float_of_len (length ratings)))
        end in
      Ok [ ("average_rating", average_rating);
           ("helpful_vote_count", VNone);
           ("not_helpful_vote_count", VNone);
           ("recommended_review_count", VNone);
           ("review_count", VInt (Z.of_nat review_count)) ]).

(** What [parse_statistics] reads of the page: the stripped text of the
    first [data-at="overall_rating"] and [data-at="total_reviews"]
    elements, and for every histogram row the stripped texts of its
    [span] cells. *)
Record stats_page := {
  overall_rating : option string;
  total_reviews : option string;
  histogram_rows : list (list string);
}.

(** The [for row in histogram_rows] loop, with [total_reviews] and
    [weighted_sum] threaded through. *)
Fixpoint histogram_loop (rows : list (list string)) (total_reviews : Z)
    (weighted_sum : float) : result (Z * float) :=
  match rows with
  | [] => Ok (total_reviews, weighted_sum)
  | row :: rest =>
      match row with
      | c0 :: c1 :: _ =>
          match
            try_except
              (bind (parse_float (VStr c0) fzero) (fun rating_value =>
               bind (parse_int (VStr c1) 0) (fun rating_count =>
               Ok (Some (rating_value, rating_count)))))
              (fun e => match e with IndexError | ValueError => true | _ => false end)
              (Ok None)
          with
          | Raise e => Raise e
          | Ok None => histogram_loop rest total_reviews weighted_sum
          | Ok (Some (rating_value, rating_count)) =>
              bind (float_of_int rating_count) (fun fc =>
                histogram_loop rest (total_reviews + rating_count)
                  (fadd weighted_sum (fmul rating_value fc)))
          end
      | _ => histogram_loop rest total_reviews weighted_sum
      end
  end.

(** The [for r in reviews] loop of the aggregating branch. *)
Fixpoint reviews_loop (reviews : list dict) (total_rating : float)
    (helpful_vote_count not_helpful_vote_count : Z)
    : result (float * Z * Z) :=
  match reviews with
  | [] => Ok (total_rating, helpful_vote_count, not_helpful_vote_count)
  | r :: rest =>
      bind (py_float (py_or (dict_get r "rating") (VInt 0))) (fun x =>
      bind (parse_int (dict_get r "helpful_vote_count") 0) (fun h =>
      bind (parse_int (dict_get r "not_helpful_vote_count") 0) (fun n =>
        reviews_loop rest (fadd total_rating x)
          (helpful_vote_count + h) (not_helpful_vote_count + n))))
  end.

(** [parse_statistics(soup, reviews)] *)
Definition parse_statistics (page : stats_page) (reviews : list dict)
    : result dict :=
  bind (match overall_rating page with
        | Some t => parse_float (VStr t) fzero
        | None => Ok fzero
        end) (fun average_rating =>
  bind (match total_reviews page with
        | Some t => parse_int (VStr t) 0
        | None => Ok 0
        end) (fun review_count =>
  bind
    (match reviews with
     | [] =>
         match histogram_rows page with
         | [] => Ok (average_rating, review_count, 0, 0)
         | rows =>
             bind (histogram_loop rows 0 fzero) (fun '(total, weighted_sum) =>
               if 0 <? total
               then bind (float_of_int total) (fun ft =>
                      Ok (fdiv weighted_sum ft, total, 0, 0))
               else Ok (average_rating, review_count, 0, 0))
         end
     | _ =>
         let total := length reviews in
         bind (reviews_loop reviews fzero 0 0) (fun '(total_rating, h, n) =>
           if (0 <? total)%nat
           then Ok (fdiv total_rating (float_of_len total), Z.of_nat total, h, n)
           else Ok (average_rating, review_count, h, n))
     end) (fun '(average_rating, review_count, helpful, not_helpful) =>
  Ok [ ("average_rating",
        VFloat (if float_truthy average_rating
                then py_round2 average_rating else fzero));
       ("helpful_vote_count", VInt helpful);
       ("not_helpful_vote_count", VInt not_helpful);
       ("review_count", VInt review_count);
       ("variant_count", VInt 0) ]))).

(** A page with no rating summary, no review count and no histogram. *)
Definition empty_page : stats_page :=
  {| overall_rating := None; total_reviews := None; histogram_rows := [] |}.

Definition rated (x : float) : dict := [("rating", VFloat x)].
Definition unrated : dict := [("rating", VNone)].

Definition of_Z (n : Z) : float := float_of_ratio false n 1.

(** ** The specification's wording

    "the mean of the ratings over only those reviews carrying a numeric
    rating": the reviews that carry one, and the mean of a list of
    ratings, absent for the empty list. *)
Definition has_numeric_rating (r : dict) : bool :=
  is_number (dict_get r "rating").

Definition mean (ratings : list float) : value :=
  match ratings with
  | [] => VNone
  | _ => VFloat (fdiv (fsum ratings) (float_of_len (length ratings)))
  end.

(** A rating as [parse_statistics] reads it: [r.get("rating") or 0]. *)
Definition rating_or_zero (r : dict) : value :=
  py_or (dict_get r "rating") (VInt 0).

(** What [parse_statistics] reads of one review: the rating as a float
    and the two vote counts. *)
Definition review_reading (r : dict) : result (float * Z * Z) :=
  bind (py_float (rating_or_zero r)) (fun x =>
  bind (parse_int (dict_get r "helpful_vote_count") 0) (fun h =>
  bind (parse_int (dict_get r "not_helpful_vote_count") 0) (fun n =>
    Ok (x, h, n)))).

Definition zsum (l : list Z) : Z := fold_right Z.add 0 l.

(** [round(average_rating, 2) if average_rating else 0.0] *)
Definition rounded_or_zero (average : float) : float :=
  if float_truthy average then py_round2 average else fzero.

(** The shape of the record [parse_statistics] returns. *)
Definition page_statistics (average : float) (helpful not_helpful count : Z)
    : dict :=
  [ ("average_rating", VFloat average);
    ("helpful_vote_count", VInt helpful);
    ("not_helpful_vote_count", VInt not_helpful);
    ("review_count", VInt count);
    ("variant_count", VInt 0) ].

(** The shape of the record [build_statistics_from_reviews] returns. *)
Definition review_statistics (average : value) (count : Z) : dict :=
  [ ("average_rating", average);
    ("helpful_vote_count", VNone);
    ("not_helpful_vote_count", VNone);
    ("recommended_review_count", VNone);
    ("review_count", VInt count) ].

End Stats.

(* ===================================================================== *)
(** * Date normalisation ([extractors/reviews_parser.py],
      [extractors/questions_parser.py]) *)
(* ===================================================================== *)

Module Dates.
Import PyStr Py UtilsFormat.
Local Open Scope Z_scope.

(** ** [datetime.strptime] in the C locale

    The format is turned into a regular expression, one piece per
    directive; a run of spaces in the format stands for [\s+]. The
    expression is matched from the start of the text, ignoring letter
    case; the first match in the expression's priority order is taken, and
    it has to end where the text ends. Each piece below lists its matches
    in that order. *)

Inductive piece :=
  | AbbrMonth          (* %b *)
  | FullMonth          (* %B *)
  | Day                (* %d *)
  | Month              (* %m *)
  | Year               (* %Y *)
  | Spaces             (* \s+ *)
  | Lit (c : ascii).

Record date := { year : Z; month : Z; day : Z }.

Definition abbr_months : list (string * Z) :=
  [("jan", 1); ("feb", 2); ("mar", 3); ("apr", 4); ("may", 5); ("jun", 6);
   ("jul", 7); ("aug", 8); ("sep", 9); ("oct", 10); ("nov", 11); ("dec", 12)].

(** Longest names first, as the library sorts them. *)
Definition full_months : list (string * Z) :=
  [("september", 9); ("february", 2); ("november", 11); ("december", 12);
   ("january", 1); ("october", 10); ("august", 8); ("march", 3);
   ("april", 4); ("june", 6); ("july", 7); ("may", 5)].

Definition match_name (names : list (string * Z)) (l : list ascii)
    : list (Z * list ascii) :=
  flat_map (fun '(name, m) =>
    let n := chars name in
    if starts_with n (List.map lower_char (firstn (length n) l))
    then [(m, skipn (length n) l)] else []) names.

(** The alternatives of [%d]: [3[0-1] | [1-2]\d | 0[1-9] | [1-9] | " "[1-9]];
    those of [%m]: [1[0-2] | 0[1-9] | [1-9]]. A character range is given by
    its two ends. *)
Definition in_range (lo hi c : ascii) : bool :=
  ((nat_of_ascii lo <=? nat_of_ascii c) && (nat_of_ascii c <=? nat_of_ascii hi))%nat.

Definition two_chars (lo1 hi1 lo2 hi2 : ascii) (l : list ascii)
    : list (Z * list ascii) :=
  match l with
  | a :: b :: r =>
      if in_range lo1 hi1 a && in_range lo2 hi2 b
      then [((if is_digit a then 10 * digit_val a else 0) + digit_val b, r)]
      else []
  | _ => []
  end.

Definition one_char (lo hi : ascii) (l : list ascii) : list (Z * list ascii) :=
  match l with
  | a :: r => if in_range lo hi a then [(digit_val a, r)] else []
  | _ => []
  end.

Definition match_day (l : list ascii) : list (Z * list ascii) :=
  two_chars "3" "3" "0" "1" l ++ two_chars "1" "2" "0" "9" l ++
  two_chars "0" "0" "1" "9" l ++ one_char "1" "9" l ++
  two_chars " " " " "1" "9" l.

Definition match_month (l : list ascii) : list (Z * list ascii) :=
  two_chars "1" "1" "0" "2" l ++ two_chars "0" "0" "1" "9" l ++
  one_char "1" "9" l.

Definition match_year (l : list ascii) : list (Z * list ascii) :=
  match l with
  | a :: b :: c :: d :: r =>
      if is_digit a && is_digit b && is_digit c && is_digit d
      then [(1000 * digit_val a + 100 * digit_val b + 10 * digit_val c
             + digit_val d, r)]
      else []
  | _ => []
  end.

(** [\s+] is greedy: the longest run first, then shorter ones. *)
Fixpoint match_spaces (l : list ascii) : list (list ascii) :=
  match l with
  | c :: r => if is_space c then match_spaces r ++ [r] else []
  | [] => []
  end.

Definition match_piece (p : piece) (dt : date) (l : list ascii)
    : list (date * list ascii) :=
  match p with
  | AbbrMonth =>
      List.map (fun '(m, r) => ({| year := year dt; month := m; day := day dt |}, r))
        (match_name abbr_months l)
  | FullMonth =>
      List.map (fun '(m, r) => ({| year := year dt; month := m; day := day dt |}, r))
        (match_name full_months l)
  | Day =>
      List.map (fun '(d, r) => ({| year := year dt; month := month dt; day := d |}, r))
        (match_day l)
  | Month =>
      List.map (fun '(m, r) => ({| year := year dt; month := m; day := day dt |}, r))
        (match_month l)
  | Year =>
      List.map (fun '(y, r) => ({| year := y; month := month dt; day := day dt |}, r))
        (match_year l)
  | Spaces => List.map (fun r => (dt, r)) (match_spaces l)
  | Lit c =>
      match l with
      | a :: r => if Ascii.eqb a c then [(dt, r)] else []
      | [] => []
      end
  end.

Fixpoint match_pieces (ps : list piece) (dt : date) (l : list ascii)
    : list (date * list ascii) :=
  match ps with
  | [] => [(dt, l)]
  | p :: ps' =>
      flat_map (fun '(dt', r) => match_pieces ps' dt' r) (match_piece p dt l)
  end.

Definition is_leap (y : Z) : bool :=
  ((y mod 4 =? 0) && negb (y mod 100 =? 0)) || (y mod 400 =? 0).

Definition days_in_month (y m : Z) : Z :=
  if m =? 2 then (if is_leap y then 29 else 28)
  else if (m =? 4) || (m =? 6) || (m =? 9) || (m =? 11) then 30
  else 31.

(** The dates [datetime] accepts. *)
Definition valid_date (dt : date) : bool :=
  (1 <=? year dt) && (year dt <=? 9999) &&
  (1 <=? month dt) && (month dt <=? 12) &&
  (1 <=? day dt) && (day dt <=? days_in_month (year dt) (month dt)).

(** [datetime.strptime(text, fmt)], for a format given by its pieces:
    the date read, or [ValueError]. Fields the format does not set keep
    the library's defaults. *)
Definition strptime (t : string) (fmt : list piece) : result date :=
  match match_pieces fmt {| year := 1900; month := 1; day := 1 |} (chars t) with
  | (dt, []) :: _ => if valid_date dt then Ok dt else Raise ValueError
  | _ => Raise ValueError
  end.

Definition digit_of (n : Z) : ascii := digit_char (Z.to_nat n).

(** [dt.isoformat()] for a [datetime] at midnight:
    [YYYY-MM-DDT00:00:00], zero-padded. *)
Definition iso_date_chars (dt : date) : list ascii :=
  [digit_of (year dt / 1000); digit_of (year dt / 100 mod 10);
   digit_of (year dt / 10 mod 10); digit_of (year dt mod 10); "-"%char;
   digit_of (month dt / 10); digit_of (month dt mod 10); "-"%char;
   digit_of (day dt / 10); digit_of (day dt mod 10)].

Definition isoformat (dt : date) : string :=
  text (iso_date_chars dt) ++ "T00:00:00".

(** The three formats, in the order of the [formats] list:
    ["%b %d, %Y"], ["%B %d, %Y"], ["%Y-%m-%d"]. *)
Definition fmt_abbr : list piece :=
  [AbbrMonth; Spaces; Day; Lit ","; Spaces; Year].
Definition fmt_full : list piece :=
  [FullMonth; Spaces; Day; Lit ","; Spaces; Year].
Definition fmt_iso : list piece :=
  [Year; Lit "-"; Month; Lit "-"; Day].

Definition formats : list (list piece) := [fmt_abbr; fmt_full; fmt_iso].

(** The [for fmt in formats] loop: [try ... return dt.isoformat()],
    [except ValueError: continue], and [return None] after the loop. *)
Fixpoint normalize_loop (fmts : list (list piece)) (t : string)
    : result (option string) :=
  match fmts with
  | [] => Ok None
  | fmt :: rest =>
      try_except
        (bind (strptime t fmt) (fun dt => Ok (Some (isoformat dt))))
        caught_value
        (normalize_loop rest t)
  end.

(** [_normalize_date(text)] of [reviews_parser.py]. *)
Definition _normalize_date (t : string) : result (option string) :=
  normalize_loop formats t.

(** [_normalize_question_date(text)] of [questions_parser.py]: the same
    list and the same loop. *)
Definition _normalize_question_date (t : string) : result (option string) :=
  normalize_loop formats t.

(** The calendar date an ISO-8601 text denotes: its first ten characters
    read as [YYYY-MM-DD]. *)
Definition iso_denotes (s : string) : option date :=
  match strptime (text (firstn 10 (chars s))) fmt_iso with
  | Ok dt => Some dt
  | Raise _ => None
  end.

(** The outcome when a format reads the text as [dt]: the ISO-8601 text
    of [dt], which denotes [dt] again. *)
Definition normalizes_to (t : string) (dt : date) : Prop :=
  _normalize_date t = Ok (Some (isoformat dt))
  /\ iso_denotes (isoformat dt) = Some dt.

End Dates.

(* ===================================================================== *)
(** * Variants ([extractors/product_parser.py], [parser/product_parser.py]) *)
(* ===================================================================== *)

Module Variants.
Import PyStr Py UtilsFormat JsonLd.

(** The five keys of a variant record: a [dict] in the extractors, the
    [ProductVariant] dataclass in the parser. *)
Record variant := {
  variant_id : value;
  variant_description : value;
  is_variant_available : value;
  variant_name : value;
  variant_image : value;
}.

(** What the tile fallback reads of one [data-comp*="ProductVariant"]
    element: the stripped text of its name element (the one marked
    [sku_name], else the first [span]) if there is one, the [src] of its
    first [img] if there is one, and whether it holds an [out_of_stock]
    marker. *)
Record tile := {
  name_text : option string;
  img_src : option string;
  has_out_of_stock : bool;
}.

Section WithRepr.

(** [repr] of a float, a list or a dict, which [str] falls back on. The
    printing of these belongs to Python's library. *)
Variable py_repr : value -> string.

(** [str(v)] *)
Definition py_str (v : value) : string :=
  match v with
  | VNone => "None"
  | VBool b => if b then "True" else "False"
  | VInt n => str_of_Z n
  | VStr s => s
  | _ => py_repr v
  end.

(** [clean_text(v)] applied to a value: a falsy one gives the empty
    string, and [.split] exists on a [str] only. *)
Definition clean_text_value (v : value) : result string :=
  if negb (truthy v) then Ok ""
  else match v with
       | VStr s => Ok (clean_text (Some s))
       | _ => Raise AttributeError
       end.

(** The body of [for idx, v in enumerate(variants_ld)] in
    [parse_product_variants]: [None] for an entry that is not a dict. *)
Definition variant_of_entry (idx : nat) (v : value) : result (option variant) :=
  match v with
  | VDict d =>
      let variant_id :=
        py_or (py_or (dict_get d "sku") (dict_get d "productID"))
              (VStr ("variant-" ++ str_of_nat idx)) in
      let variant_name :=
        py_or (py_or (dict_get d "name") (dict_get d "description")) (VStr "") in
      let variant_image := py_or (dict_get d "image") (VStr "") in
      let availability_raw :=
        py_or (dict_get d "availability") (dict_get d "itemCondition") in
      let is_available :=
        match availability_raw with
        | VStr a => negb (contains "OutOfStock" a)
        | _ => true
        end in
      bind (clean_text_value variant_name) (fun cleaned =>
        Ok (Some {| variant_id := VStr (py_str variant_id);
                    variant_description := VStr cleaned;
                    is_variant_available := VBool is_available;
                    variant_name := VStr cleaned;
                    variant_image := variant_image |}))
  | _ => Ok None
  end.

Fixpoint variants_loop (idx : nat) (entries : list value)
    (variants : list variant) : result (list variant) :=
  match entries with
  | [] => Ok variants
  | v :: rest =>
      bind (variant_of_entry idx v) (fun o =>
        variants_loop (S idx) rest
          (match o with Some r => variants ++ [r] | None => variants end))
  end.

(** The body of [for idx, tile in enumerate(tile_candidates)]. *)
Definition variant_of_tile (idx : nat) (t : tile) : variant :=
  let variant_name :=
    match name_text t with
    | Some s => clean_text (Some s)
    | None => "Variant " ++ str_of_nat (idx + 1)
    end in
  let variant_image :=
    match img_src t with
    | Some src => if nonempty src then src else ""
    | None => ""
    end in
  {| variant_id := VStr ("variant-" ++ str_of_nat idx);
     variant_description := VStr variant_name;
     is_variant_available := VBool (negb (has_out_of_stock t));
     variant_name := VStr variant_name;
     variant_image := VStr variant_image |}.

Fixpoint tiles_loop (idx : nat) (tiles : list tile) : list variant :=
  match tiles with
  | [] => []
  | t :: rest => variant_of_tile idx t :: tiles_loop (S idx) rest
  end.

(** [parse_product_variants(soup)], from the decoded JSON-LD blocks and
    the variant tiles of the page. *)
Definition parse_product_variants (ld_blocks : list value) (tiles : list tile)
    : result (list variant) :=
  bind
    (match _find_product_ld ld_blocks with
     | Some product_ld =>
         if truthy (VDict product_ld) then
           match py_or (dict_get product_ld "isVariantOf")
                       (dict_get product_ld "offers") with
           | VList variants_ld => variants_loop 0 variants_ld []
           | _ => Ok []
           end
         else Ok []
     | None => Ok []
     end) (fun variants =>
  match variants with
  | _ :: _ => Ok variants
  | [] => Ok (tiles_loop 0 tiles)
  end).

(** [ProductParser._is_offer_available(offer)] *)
Definition _is_offer_available (offer : dict) : value :=
  match dict_get offer "availability" with
  | VStr availability =>
      let avail_lower := lower availability in
      if contains "instock" avail_lower || contains "in stock" avail_lower
      then VBool true
      else if contains "outofstock" avail_lower
              || contains "out of stock" avail_lower
      then VBool false
      else VNone
  | _ => VNone
  end.

(** The [ProductVariant(...)] built from one offer; [.get] exists on a
    dict only. *)
Definition variant_of_offer (offer : value) : result variant :=
  match offer with
  | VDict d =>
      let id_text :=
        py_str (py_or (py_or (dict_get d "sku") (dict_get d "productID"))
                      (VStr "")) in
      Ok {| variant_id := if nonempty id_text then VStr id_text else VNone;
            variant_description := dict_get d "description";
            is_variant_available := _is_offer_available d;
            variant_name := dict_get d "name";
            variant_image := dict_get d "image" |}
  | _ => Raise AttributeError
  end.

Fixpoint offers_loop (offers : list value) (variants : list variant)
    : result (list variant) :=
  match offers with
  | [] => Ok variants
  | offer :: rest =>
      bind (variant_of_offer offer) (fun v => offers_loop rest (variants ++ [v]))
  end.

(** [ProductParser._build_variants(product_json)] *)
Definition _build_variants (product_json : option dict) : result (list variant) :=
  match product_json with
  | None => Ok []
  | Some pj =>
      if negb (truthy (VDict pj)) then Ok []
      else
        match dict_get pj "offers" with
        | VList offers => offers_loop offers []
        | VDict offers => bind (variant_of_offer (VDict offers)) (fun v => Ok [v])
        | _ => Ok []
        end
  end.

(** ** The specification's wording: "the entry's sku if present, else
    its productID, else the placeholder variant-{i}". *)
Definition expected_id (d : dict) (i : nat) : value :=
  if truthy (dict_get d "sku") then dict_get d "sku"
  else if truthy (dict_get d "productID") then dict_get d "productID"
  else VStr ("variant-" ++ str_of_nat i).

End WithRepr.

(** A stand-in for [repr] in examples whose values are all texts,
    integers or [None]. *)
Definition repr_unused (v : value) : string := "".

(** A Product object with two offers, the second without [sku] and
    without [productID]. *)
Definition two_offers : dict :=
  [ ("@type", VStr "Product");
    ("offers", VList [ VDict [("sku", VStr "123"); ("name", VStr "Red")];
                       VDict [("name", VStr "Blue")] ]) ].

End Variants.

(* ===================================================================== *)
(** * Product info ([parser/product_parser.py], [utils/html_utils.py]) *)
(* ===================================================================== *)

Module Info.
Import PyStr Py UtilsFormat Variants.

(** A [<meta>] tag: its [name], [property] and [content] attributes. *)
Record meta_tag := {
  meta_name : option string;
  meta_property : option string;
  meta_content : option string;
}.

(** What [_build_product_info] reads of the page: its [<meta>] tags in
    document order, and [soup.get_text(separator=" ", strip=True)]. *)
Record info_page := {
  metas : list meta_tag;
  body_text : string;
}.

Definition attr_is (attr : option string) (wanted : option string) : bool :=
  match wanted with
  | None => true
  | Some w =>
      if nonempty w
      then match attr with Some a => String.eqb a w | None => false end
      else true
  end.

(** [extract_meta_tag(soup, name, property)]: an attribute takes part in
    the search only when its argument is given and non-empty; the first
    matching tag decides. *)
Definition extract_meta_tag (page : info_page) (name property : option string)
    : option string :=
  match List.find (fun t => attr_is (meta_name t) name
                            && attr_is (meta_property t) property)
                  (metas page) with
  | Some tag =>
      match meta_content tag with
      | Some c => if nonempty c then Some (strip c) else None
      | None => None
      end
  | None => None
  end.

Definition value_of (o : option string) : value :=
  match o with Some s => VStr s | None => VNone end.

(** [re.search(r"[\d,.]+", text)]: the first run of number characters,
    as long as it goes. *)
Fixpoint first_number_run (l : list ascii) : option (list ascii) :=
  match l with
  | [] => None
  | c :: l' =>
      if is_number_char c then Some (fst (span is_number_char l))
      else first_number_run l'
  end.

(** [extract_numeric_from_text(text)] *)
Definition extract_numeric_from_text (t : option string) : option string :=
  match t with
  | None => None
  | Some s =>
      if negb (nonempty s) then None
      else option_map text (first_number_run (chars s))
  end.

(** [re.search(r"/(P\d+)", url).group(1)]: the first place where a slash,
    a capital P and at least one digit follow each other. *)
Fixpoint search_product_id (l : list ascii) : option (list ascii) :=
  match l with
  | [] => None
  | c :: l' =>
      match l with
      | "/"%char :: "P"%char :: d :: _ =>
          if is_digit d
          then Some ("P"%char :: fst (span is_digit (skipn 2 l)))
          else search_product_id l'
      | _ => search_product_id l'
      end
  end.

(** The [ProductInfo] dataclass. *)
Record ProductInfo := {
  id : value;
  name : value;
  image : value;
  description : value;
  is_available : value;
  brand : value;
  price : value;
  love_count : value;
}.

Section WithRepr.

Variable py_repr : value -> string.

(** [ProductParser._build_product_info(soup, product_json, source_url)].
    Each [let] below is one assignment to a field of [info], in the order
    of the source. *)
Definition _build_product_info (page : info_page) (product_json : option dict)
    (source_url : string) : ProductInfo :=
  let pj :=
    match product_json with
    | Some d => if truthy (VDict d) then Some d else None
    | None => None
    end in
  (* Use JSON-LD if available *)
  let id0 := match pj with
             | Some d => py_or (dict_get d "sku") (dict_get d "productID")
             | None => VNone
             end in
  let name0 := match pj with Some d => dict_get d "name" | None => VNone end in
  let description0 :=
    match pj with
    | Some d => match dict_get d "description" with
                | VStr desc => VStr (strip desc)
                | _ => VNone
                end
    | None => VNone
    end in
  let brand0 :=
    match pj with
    | Some d => match dict_get d "brand" with
                | VDict b => dict_get b "name"
                | VStr b => VStr b
                | _ => VNone
                end
    | None => VNone
    end in
  let offers := match pj with
                | Some d => match dict_get d "offers" with
                            | VDict o => Some o
                            | _ => None
                            end
                | None => None
                end in
  let price0 :=
    match offers with
    | Some o =>
        let price := dict_get o "price" in
        let currency := dict_get o "priceCurrency" in
        if truthy price
        then if truthy currency
             then VStr (strip (py_str py_repr price ++ " "
                               ++ py_str py_repr currency))
             else VStr (py_str py_repr price)
        else VNone
    | None => VNone
    end in
  let is_available0 :=
    match offers with
    | Some o => match dict_get o "availability" with
                | VStr availability =>
                    VBool (contains "InStock" availability
                           || contains "instock" (lower availability))
                | _ => VNone
                end
    | None => VNone
    end in
  (* Fallbacks from meta tags *)
  let name1 :=
    if negb (truthy name0)
    then py_or (value_of (extract_meta_tag page None (Some "og:title")))
               (value_of (extract_meta_tag page (Some "title") None))
    else name0 in
  let image1 := value_of (extract_meta_tag page None (Some "og:image")) in
  let description1 :=
    if negb (truthy description0)
    then value_of (extract_meta_tag page (Some "description") None)
    else description0 in
  (* "loves" count *)
  let love_text :=
    py_or (value_of (extract_meta_tag page (Some "twitter:data2") None))
          (VStr "") in
  let love_number :=
    extract_numeric_from_text
      (match love_text with VStr s => Some s | _ => None end) in
  let love_count1 :=
    match love_number with
    | Some n => if nonempty n then VStr n else VNone
    | None => VNone
    end in
  (* Availability heuristic if not set *)
  let is_available1 :=
    match is_available0 with
    | VNone =>
        let body := lower (body_text page) in
        if contains "out of stock" body || contains "sold out" body
        then VBool false else VBool true
    | _ => is_available0
    end in
  (* Derive ID from URL if missing *)
  let id1 :=
    if negb (truthy id0)
    then match search_product_id (chars source_url) with
         | Some m => VStr (text m)
         | None => id0
         end
    else id0 in
  (* Brand fallback *)
  let brand1 :=
    if negb (truthy brand0)
    then py_or (value_of (extract_meta_tag page None (Some "og:site_name")))
               (VStr "Sephora")
    else brand0 in
  {| id := id1; name := name1; image := image1; description := description1;
     is_available := is_available1; brand := brand1; price := price0;
     love_count := love_count1 |}.

End WithRepr.

(** ** The specification's wording

    "the brand derivable from structured metadata": the [brand] entry of
    the Product object when it is a text, its [name] when it is an
    object; and the fallback, the stripped content of the first
    [og:site_name] meta tag, else the constant. *)
Definition metadata_brand (product_json : option dict) : value :=
  match product_json with
  | Some d =>
      if truthy (VDict d) then
        match dict_get d "brand" with
        | VDict b => dict_get b "name"
        | VStr b => VStr b
        | _ => VNone
        end
      else VNone
  | None => VNone
  end.

Definition site_name_or_default (page : info_page) : string :=
  match extract_meta_tag page None (Some "og:site_name") with
  | Some s => if nonempty s then s else "Sephora"
  | None => "Sephora"
  end.

(** Sample inputs: a page without meta tags, a Product object without
    brand, one branded Sephora, and one whose brand name is a number. *)
Definition bare_page : info_page := {| metas := []; body_text := "" |}.
Definition brandless : dict := [("@type", VStr "Product"); ("name", VStr "Soap")].
Definition sephora_branded : dict :=
  [("@type", VStr "Product"); ("name", VStr "Soap");
   ("brand", VDict [("@type", VStr "Brand"); ("name", VStr "Sephora")])].
Definition numeric_brand : dict :=
  [("@type", VStr "Product"); ("name", VStr "Soap");
   ("brand", VDict [("@type", VStr "Brand"); ("name", VInt 5)])].

End Info.

(* ===================================================================== *)
(** * URL work-list deduplication ([main.py], [runner.py]) *)
(* ===================================================================== *)

Module Urls.
Import PyStr.

(** The body of the [for u in urls] loop of [dedupe_urls], with the two
    mutable locals [seen] (a [set]) and [result] (a [list]) threaded
    through. *)
Fixpoint dedupe_loop (urls : list string) (seen : gset string)
    (result : list string) : list string :=
  match urls with
  | [] => result
  | u :: rest =>
      let u := strip u in
      if negb (nonempty u) then dedupe_loop rest seen result
      else if decide (u ∈ seen) then dedupe_loop rest seen result
      else dedupe_loop rest ({[u]} ∪ seen) (result ++ [u])
  end.

(** [dedupe_urls(urls)] of [main.py]. *)
Definition dedupe_urls (urls : list string) : list string :=
  dedupe_loop urls ∅ [].

(** [normalize_url] of [runner.py]. *)
Definition normalize_url (url : string) : string := strip url.

(** The deduplication loop written inline in [runner.main]:
    [if norm and norm not in seen_urls]. *)
Fixpoint runner_dedupe_loop (product_urls : list string)
    (seen_urls : gset string) (unique_product_urls : list string)
    : list string :=
  match product_urls with
  | [] => unique_product_urls
  | url :: rest =>
      let norm := normalize_url url in
      if nonempty norm && bool_decide (norm ∉ seen_urls)
      then runner_dedupe_loop rest ({[norm]} ∪ seen_urls)
             (unique_product_urls ++ [norm])
      else runner_dedupe_loop rest seen_urls unique_product_urls
  end.

Definition runner_unique_product_urls (product_urls : list string)
    : list string :=
  runner_dedupe_loop product_urls ∅ [].

(** ** The specification's wording

    "trim each entry, drop entries that are empty after trimming, keep
    exactly the first occurrence of each distinct trimmed string,
    preserving first-occurrence order". *)

Definition trimmed_nonempty (urls : list string) : list string :=
  List.filter nonempty (List.map strip urls).

Fixpoint first_occurrences (l : list string) : list string :=
  match l with
  | [] => []
  | x :: rest =>
      x :: List.filter (fun y => negb (String.eqb x y)) (first_occurrences rest)
  end.

Definition dedupe_spec (urls : list string) : list string :=
  first_occurrences (trimmed_nonempty urls).

(** [y not in seen] *)
Definition unseen (seen : gset string) (y : string) : bool :=
  bool_decide (y ∉ seen).

End Urls.

(* ===================================================================== *)
(** * Orchestrators ([main.py], [runner.py]) *)
(* ===================================================================== *)

Module Orchestrator.
Import PyStr Py Urls.

(** [except Exception]: every exception of the model is caught. *)
Definition caught_exception (e : exn) : bool := true.

(** [if not html]: [None] or the empty text. *)
Definition got_html (o : option string) : option string :=
  match o with
  | Some html => if nonempty html then Some html else None
  | None => None
  end.

Section Main.

(** The collaborators of the loop of [main.py]. The network answers the
    [n]-th request of the run for a URL with a page or with nothing
    ([RequestHelper.fetch_html] returns [None] after its retries); the
    parser and the similar-products discoverer return or raise. *)
Variable fetch_html : nat -> string -> option string.
Variable parse_product : string -> string -> result dict.
Variable extract_similar_product_links : string -> string -> result (list string).
Variable include_similar : bool.

(** The variables the loop reads and writes: the work-list, which the loop
    itself extends, the position of the [for] statement in it, the records
    collected, the set of URLs done, and the number of requests made. *)
Record main_state := {
  product_urls : list string;
  position : nat;
  all_products : list dict;
  processed_product_urls : gset string;
  requests : nat;
}.

Definition next_url (st : main_state) : main_state :=
  {| product_urls := product_urls st;
     position := S (position st);
     all_products := all_products st;
     processed_product_urls := processed_product_urls st;
     requests := requests st |}.

Definition count_request (st : main_state) : main_state :=
  {| product_urls := product_urls st;
     position := position st;
     all_products := all_products st;
     processed_product_urls := processed_product_urls st;
     requests := S (requests st) |}.

(** [all_products.append(product_record); processed_product_urls.add(url)] *)
Definition record_product (st : main_state) (url : string) (r : dict)
    : main_state :=
  {| product_urls := product_urls st;
     position := position st;
     all_products := all_products st ++ [r];
     processed_product_urls := {[url]} ∪ processed_product_urls st;
     requests := requests st |}.

(** [for s_url in similar_links: if s_url not in processed_product_urls:
    product_urls.append(s_url)] *)
Definition queue_similar (st : main_state) (similar_links : list string)
    : main_state :=
  {| product_urls :=
       product_urls st ++
       List.filter (fun s_url => bool_decide (s_url ∉ processed_product_urls st))
                   similar_links;
     position := position st;
     all_products := all_products st;
     processed_product_urls := processed_product_urls st;
     requests := requests st |}.

(** The first [try] of the loop body. [None] is the [continue] of its
    [except] clause. *)
Definition try_parse (st : main_state) (html url : string)
    : result (option main_state) :=
  try_except
    (bind (parse_product html url) (fun product_record =>
       if truthy (VDict product_record)
       then Ok (Some (record_product st url product_record))
       else Ok (Some st)))
    caught_exception
    (Ok None).

(** The second [try] of the loop body. *)
Definition try_similar (st : main_state) (html url : string)
    : result main_state :=
  try_except
    (bind (extract_similar_product_links html url) (fun similar_links =>
       Ok (queue_similar st similar_links)))
    caught_exception
    (Ok st).

(** One turn of [for url in product_urls] in [main]. *)
Definition loop_body (st : main_state) (url : string) : result main_state :=
  if decide (url ∈ processed_product_urls st) then Ok (next_url st)
  else
    let st1 := count_request st in
    match got_html (fetch_html (requests st) url) with
    | None => Ok (next_url st1)
    | Some html =>
        bind (try_parse st1 html url) (fun o =>
          match o with
          | None => Ok (next_url st1)
          | Some st2 =>
              if include_similar
              then bind (try_similar st2 html url) (fun st3 => Ok (next_url st3))
              else Ok (next_url st2)
          end)
    end.

(** The loop, run for at most [fuel] turns: [Some] of the final state
    when the work-list is exhausted, [None] when turns are left. *)
Fixpoint main_loop (fuel : nat) (st : main_state) : result (option main_state) :=
  match fuel with
  | O => Ok None
  | S fuel' =>
      match product_urls st !! position st with
      | None => Ok (Some st)
      | Some url => bind (loop_body st url) (main_loop fuel')
      end
  end.

Definition start (urls : list string) : main_state :=
  {| product_urls := urls; position := 0; all_products := [];
     processed_product_urls := ∅; requests := 0 |}.

End Main.

(** What the loop may change between two states: it only adds to the
    records, and it only adds to the work-list, nothing when similar
    products are not followed. *)
Definition extends (similar : bool) (st st' : main_state) : Prop :=
  (exists new, all_products st' = (all_products st ++ new)%list)
  /\ (exists more, product_urls st' = (product_urls st ++ more)%list
                   /\ (similar = false -> more = [])).

Section Runner.

(** The collaborators of [runner.py]: the network, and the five
    extractors applied to the page text. *)
Variable fetch_html : nat -> string -> option string.
Variable parse_product_info : string -> string -> result dict.
Variable parse_product_variants : string -> result (list value).
Variable parse_reviews : string -> result (list dict).
Variable parse_questions : string -> value -> result (list dict).
Variable parse_statistics : string -> list dict -> result dict.

(** [process_product(session, url, ...)]; [n] requests were made before. *)
Definition process_product (n : nat) (url : string) : result (option dict) :=
  let url := normalize_url url in
  match got_html (fetch_html n url) with
  | None => Ok None
  | Some html =>
      bind (parse_product_info html url) (fun info =>
      bind (parse_product_variants html) (fun variants =>
      bind (parse_reviews html) (fun reviews =>
      bind (parse_questions html (dict_get info "id")) (fun questions =>
      bind (parse_statistics html reviews) (fun statistics =>
        Ok (Some [ ("info", VDict info);
                   ("product_variants", VList variants);
                   ("statistics", VDict statistics);
                   ("reviews", VList (List.map VDict reviews));
                   ("questions", VList (List.map VDict questions)) ]))))))
  end.

(** [for url in unique_product_urls] of [runner.main], with [dataset]
    threaded through. *)
Fixpoint runner_loop (n : nat) (unique_product_urls : list string)
    (dataset : list dict) : result (list dict) :=
  match unique_product_urls with
  | [] => Ok dataset
  | url :: rest =>
      bind (process_product n url) (fun product_data =>
        match product_data with
        | Some d =>
            if truthy (VDict d) then runner_loop (S n) rest (dataset ++ [d])
            else runner_loop (S n) rest dataset
        | None => runner_loop (S n) rest dataset
        end)
  end.

End Runner.

(** ** A sample run

    Three product URLs. The network answers every request, and a page's
    text is represented by its URL. The page of the second product shows
    the review count "inf", on which [parse_statistics] raises
    [OverflowError]; the other extractors find nothing. *)
Definition url_a : string := "https://www.sephora.com/product/a-P1".
Definition url_b : string := "https://www.sephora.com/product/b-P2".
Definition url_c : string := "https://www.sephora.com/product/c-P3".

Definition sample_fetch (n : nat) (url : string) : option string := Some url.

Definition sample_stats_page (html : string) : Stats.stats_page :=
  if String.eqb html url_b
  then {| Stats.overall_rating := None;
          Stats.total_reviews := Some "inf";
          Stats.histogram_rows := [] |}
  else Stats.empty_page.

Definition sample_info (html url : string) : result dict :=
  Ok [("id", VStr ""); ("url", VStr url)].

Definition sample_statistics (html : string) (reviews : list dict) : result dict :=
  Stats.parse_statistics (sample_stats_page html) reviews.

(** [runner.main]'s loop on the sample. *)
Definition sample_runner_run : result (list dict) :=
  runner_loop sample_fetch sample_info (fun _ => Ok []) (fun _ => Ok [])
    (fun _ _ => Ok []) sample_statistics 0 [url_a; url_b; url_c] [].

(** A parser for [main.py]'s loop that fails on the same page. *)
Definition sample_parse_product (html url : string) : result dict :=
  bind (sample_statistics html []) (fun statistics =>
    Ok [("statistics", VDict statistics); ("_source", VDict [("url", VStr url)])]).

Definition sample_main_run : result (option main_state) :=
  main_loop sample_fetch sample_parse_product (fun _ _ => Ok []) false 4
    (start [url_a; url_b; url_c]).

End Orchestrator.

(* ===================================================================== *)
(** * Shapes of text *)
(* ===================================================================== *)

(** Predicates on character lists that the properties of the text
    functions are stated with. *)

Module TextShapes.
Import PyStr UtilsFormat.

(** The list does not begin with a space. *)
Definition starts_clean (l : list ascii) : Prop :=
  match l with [] => True | c :: _ => is_space c = false end.

(** A word: a non-empty run without space. *)
Definition is_word (w : list ascii) : Prop :=
  w <> [] /\ Forall (fun c => is_space c = false) w.

(** A character the pattern of [parse_number_with_suffix] has no place
    for: neither space, nor digit, dot or comma, nor one of k, K, m, M. *)
Definition is_foreign (c : ascii) : bool :=
  negb (is_space c || is_number_char c || is_suffix_char c).

End TextShapes.

(* ===================================================================== *)
(** * Product ids in URLs *)
(* ===================================================================== *)

Module Ids.
Import PyStr Py UtilsFormat.

(** [PRODUCT_ID_RE.search(url)] for [(P\d+)]: the scan tries each
    position from the left; at a capital P it takes the digits that
    follow, all of them, and succeeds if there is at least one. *)
Fixpoint search_p_digits (l : list ascii) : option (list ascii) :=
  match l with
  | [] => None
  | c :: l' =>
      if Ascii.eqb c "P" then
        match fst (span is_digit l') with
        | [] => search_p_digits l'
        | d :: ds => Some (c :: d :: ds)
        end
      else search_p_digits l'
  end.

(** [infer_product_id_from_url(url)] *)
Definition infer_product_id_from_url (url : string) : option string :=
  option_map text (search_p_digits (chars url)).

(** The list does not begin with a digit. *)
Definition no_digit_ahead (l : list ascii) : Prop :=
  match l with [] => True | c :: _ => is_digit c = false end.

End Ids.

(* ===================================================================== *)
(** * The rating histogram, row by row *)
(* ===================================================================== *)

Module Histogram.
Import PyStr Py UtilsFormat Stats.
Local Open Scope Z_scope.

(** [len(cells) < 2] is false. *)
Definition has_two_cells (row : list string) : bool := (2 <=? length row)%nat.

(** What the histogram loop of [parse_statistics] reads of a row: the
    rating of the first cell, the count of the second, and the count as
    the float that [rating_value * rating_count] converts it to. *)
Definition row_reading (row : list string) : result (float * Z * float) :=
  match row with
  | c0 :: c1 :: _ =>
      bind (parse_float (VStr c0) fzero) (fun rating_value =>
      bind (parse_int (VStr c1) 0) (fun rating_count =>
      bind (float_of_int rating_count) (fun fc =>
        Ok (rating_value, rating_count, fc))))
  | _ => Raise IndexError
  end.

Definition row_count (t : float * Z * float) : Z := snd (fst t).

(** [weighted_sum] after the rows read as [ts]. *)
Definition weighted (ts : list (float * Z * float)) (start : float) : float :=
  fold_left (fun w t => fadd w (fmul (fst (fst t)) (snd t))) ts start.

(** The two summary elements of the page, as [parse_statistics] reads
    them before it looks at anything else. *)
Definition summary_rating (page : stats_page) : result float :=
  match overall_rating page with
  | Some t => parse_float (VStr t) fzero
  | None => Ok fzero
  end.

Definition summary_count (page : stats_page) : result Z :=
  match total_reviews page with
  | Some t => parse_int (VStr t) 0
  | None => Ok 0
  end.

(** A page with a summary of 4.5 over 10 reviews and a histogram of 3
    five-star and 1 two-star ratings, one row being short. *)
Definition sample_histogram_page : stats_page :=
  {| overall_rating := Some "4.5";
     total_reviews := Some "10";
     histogram_rows := [["5"; "3"]; ["4"]; ["2"; "1"; "x"]] |}.

End Histogram.

(* ===================================================================== *)
(** * Requests with retries ([utils/request_helper.py]) *)
(* ===================================================================== *)

Module Request.
Import PyStr Py.
Local Open Scope Z_scope.

(** What [session.get] does: it returns a response with a status code
    and a text, or raises a [requests.RequestException]. *)
Inductive response :=
  | Reply (status_code : Z) (body : string)
  | RequestException.

(** What the helper does to the outside: a request, numbered by its
    attempt, and [time.sleep(backoff_factor * attempt)]. *)
Inductive event :=
  | Get (attempt : Z)
  | Sleep (attempt : Z).

Section FetchHtml.

(** The network, by attempt, and the helper's [max_retries]. *)
Variable respond : Z -> response.
Variable max_retries : Z.

(** [for attempt in range(1, self.max_retries + 1)], from [attempt] on
    with [remaining] turns left. *)
Fixpoint attempts (remaining : nat) (attempt : Z) (log : list event)
    : option string * list event :=
  match remaining with
  | O => (None, log)
  | S remaining' =>
      let log1 := (log ++ [Get attempt])%list in
      let next :=
        attempts remaining' (attempt + 1)
          (if attempt <? max_retries then (log1 ++ [Sleep attempt])%list else log1) in
      match respond attempt with
      | Reply status_code body =>
          if status_code =? 200 then (Some body, log1) else next
      | RequestException => next
      end
  end.

(** [RequestHelper.fetch_html(url)]: the text or [None], and what was
    done to get it. *)
Definition fetch_html : option string * list event :=
  attempts (Z.to_nat max_retries) 1 [].

End FetchHtml.

(** [resp.status_code == 200] on a response that came. *)
Definition is_success (r : response) : bool :=
  match r with
  | Reply status_code _ => status_code =? 200
  | RequestException => false
  end.

(** [n] failed attempts from [attempt] on, each followed by its sleep. *)
Fixpoint retries (attempt : Z) (n : nat) : list event :=
  match n with
  | O => []
  | S n' => Get attempt :: Sleep attempt :: retries (attempt + 1) n'
  end.

(** The requests up to the [k]-th, with a sleep between two of them. *)
Definition trace_upto (k : Z) : list event :=
  (retries 1 (Z.to_nat (k - 1)) ++ [Get k])%list.

(** A network that fails twice, with a server error and with an
    exception, and then answers. *)
Definition third_time_lucky (attempt : Z) : response :=
  if attempt =? 1 then Reply 503 "busy"
  else if attempt =? 2 then RequestException
  else Reply 200 "<html></html>".

End Request.

(* ===================================================================== *)
(** * Link discovery ([parser/category_parser.py],
      [parser/similar_products.py], [runner.py]) *)
(* ===================================================================== *)

(** Of a page, the discoverers read the [href] values of its anchors that
    have one, in document order; the similar-products discoverer reads
    them by [section] or [div] element, an anchor being listed with every
    such element around it. *)

Module Links.
Import PyStr Py Urls Orchestrator.
Local Open Scope Z_scope.

(** The deduplication loop that both parsers end with. *)
Fixpoint unique_loop (links : list string) (seen : gset string)
    (unique_links : list string) : list string :=
  match links with
  | [] => unique_links
  | link :: rest =>
      if decide (link ∈ seen) then unique_loop rest seen unique_links
      else unique_loop rest ({[link]} ∪ seen) (unique_links ++ [link])
  end.

(** What the similar-products discoverer reads of a [section] or [div]:
    [get_text(" ", strip=True)] and the [href] values of its anchors. *)
Record section := {
  section_text : string;
  section_hrefs : list string;
}.

Definition keywords : list string :=
  ["you may also like"; "similar"; "recommended"; "more like this"].

(** [any(k in text for k in keywords)] on the lowered text. *)
Definition is_candidate (s : section) : bool :=
  existsb (fun k => contains k (lower (section_text s))) keywords.

Section Parsers.

(** [urllib.parse.urljoin(base_url, href)], which raises [ValueError] on
    a malformed address. *)
Variable urljoin : string -> string -> result string.

(** The first loop of [CategoryParser.extract_product_links]. *)
Fixpoint category_links_loop (base_url : string) (hrefs links : list string)
    : result (list string) :=
  match hrefs with
  | [] => Ok links
  | href :: rest =>
      if negb (nonempty href) then category_links_loop base_url rest links
      else
        bind (urljoin base_url href) (fun full_url =>
          if contains "/product/" full_url
          then category_links_loop base_url rest (links ++ [full_url])
          else category_links_loop base_url rest links)
  end.

(** [CategoryParser.extract_product_links(html, base_url)] *)
Definition extract_product_links (hrefs : list string) (base_url : string)
    : result (list string) :=
  bind (category_links_loop base_url hrefs []) (fun links =>
    Ok (unique_loop links ∅ [])).

(** [for a in section.find_all("a", href=True)] *)
Fixpoint section_links_loop (base_url : string) (hrefs links : list string)
    : result (list string) :=
  match hrefs with
  | [] => Ok links
  | href :: rest =>
      bind (urljoin base_url href) (fun full_url =>
        if contains "/product/" full_url
        then section_links_loop base_url rest (links ++ [full_url])
        else section_links_loop base_url rest links)
  end.

(** [for section in candidate_sections] *)
Fixpoint sections_loop (base_url : string) (candidate_sections : list section)
    (links : list string) : result (list string) :=
  match candidate_sections with
  | [] => Ok links
  | s :: rest =>
      bind (section_links_loop base_url (section_hrefs s) links)
        (sections_loop base_url rest)
  end.

(** [SimilarProductsParser.extract_similar_product_links(html, base_url)] *)
Definition extract_similar_product_links (sections : list section)
    (base_url : string) : result (list string) :=
  let candidate_sections := List.filter is_candidate sections in
  bind (sections_loop base_url candidate_sections []) (fun links =>
    Ok (unique_loop links ∅ [])).

End Parsers.

(** The first loop of [discover_product_urls_from_category], with its
    [break]. *)
Fixpoint discover_loop (hrefs : list string) (max_products : Z)
    (urls : list string) : list string :=
  match hrefs with
  | [] => urls
  | href :: rest =>
      let urls1 :=
        if contains "/product/" href
        then (urls ++ [if starts_with (chars "/") (chars href)
                       then ("https://www.sephora.com" ++ href)%string
                       else href])%list
        else urls in
      if max_products <=? Z.of_nat (length urls1) then urls1
      else discover_loop rest max_products urls1
  end.

(** Its second loop. *)
Fixpoint discover_dedupe_loop (urls : list string) (seen : gset string)
    (deduped : list string) : list string :=
  match urls with
  | [] => deduped
  | u :: rest =>
      let u_norm := normalize_url u in
      if decide (u_norm ∈ seen) then discover_dedupe_loop rest seen deduped
      else discover_dedupe_loop rest ({[u_norm]} ∪ seen) (deduped ++ [u_norm])
  end.

Section Discover.

(** [fetch_html(session, url, timeout)] of [runner.py], and the [href]
    values of the anchors of a page text. *)
Variable fetch_html : string -> option string.
Variable anchors : string -> list string.

(** [discover_product_urls_from_category(session, category_url, timeout,
    max_products)] *)
Definition discover_product_urls_from_category (category_url : string)
    (max_products : Z) : list string :=
  let category_url := normalize_url category_url in
  match got_html (fetch_html category_url) with
  | None => [category_url]
  | Some html =>
      let urls := discover_loop (anchors html) max_products [] in
      match discover_dedupe_loop urls ∅ [] with
      | [] => [category_url]
      | deduped => deduped
      end
  end.

End Discover.

(** A listing page: a product twice, once with a relative address, a
    help page, and another product. *)
Definition sample_hrefs : list string :=
  ["/product/a-P1"; "/help"; "https://www.sephora.com/product/a-P1";
   ""; "/product/b-P2"].

(** A join for the sample: site-relative and absolute addresses only. *)
Definition sample_urljoin (base_url href : string) : result string :=
  Ok (if starts_with (chars "/") (chars href)
      then "https://www.sephora.com" ++ href
      else if nonempty href then href else base_url).

Definition sample_sections : list section :=
  [ {| section_text := "Details"; section_hrefs := ["/product/a-P1"] |};
    {| section_text := "You May Also Like";
       section_hrefs := ["/product/b-P2"; "/product/c-P3"; "/product/b-P2"] |} ].

End Links.

(* ===================================================================== *)
(** * Reviews of the parser pipeline ([extractors/reviews_extractor.py]) *)
(* ===================================================================== *)

Module Reviews.
Import PyStr Py UtilsFormat Stats Orchestrator.

(** [_safe_float(value)]: [float] raises [TypeError] on a list or a dict
    and [ValueError] on a text it cannot read, which are caught, and
    [OverflowError] on an integer beyond the doubles, which is not. *)
Definition _safe_float (v : value) : result value :=
  match v with
  | VNone => Ok VNone
  | _ =>
      try_except (bind (py_float v) (fun x => Ok (VFloat x)))
        caught_type_or_value (Ok VNone)
  end.

(** The record both tiers append. *)
Definition review_record (rating review_text review_title submitted_at nickname : value)
    : dict :=
  [ ("rating", rating);
    ("review_text", review_text);
    ("review_title", review_title);
    ("submitted_at", submitted_at);
    ("reviewer_info", VDict [("nickname", nickname)]) ].

(** [for r in review_entries] of [_parse_reviews_from_json]. *)
Fixpoint json_reviews_loop (review_entries : list value) (reviews : list dict)
    : result (list dict) :=
  match review_entries with
  | [] => Ok reviews
  | VDict r :: rest =>
      let rating :=
        match dict_get r "reviewRating" with
        | VDict review_rating => dict_get review_rating "ratingValue"
        | other => other
        end in
      let nickname :=
        match dict_get r "author" with
        | VDict author => dict_get author "name"
        | author => author
        end in
      bind (_safe_float rating) (fun rating_value =>
        json_reviews_loop rest
          (reviews ++ [review_record rating_value
                         (dict_get r "reviewBody")
                         (py_or (dict_get r "name") (dict_get r "headline"))
                         (dict_get r "datePublished")
                         nickname]))
  | _ :: rest => json_reviews_loop rest reviews
  end.

(** [_parse_reviews_from_json(product_json)] *)
Definition _parse_reviews_from_json (product_json : dict) : result (list dict) :=
  let review_entries :=
    py_or (dict_get product_json "review") (dict_get product_json "reviews") in
  let review_entries :=
    match review_entries with
    | VDict d => VList [VDict d]
    | other => other
    end in
  match review_entries with
  | VList l => json_reviews_loop l []
  | _ => Ok []
  end.

(** What [_parse_reviews_from_dom] reads of one review container: for
    each of the five marked elements, its stripped text if the container
    holds one. *)
Record review_container := {
  rating_el : option string;
  title_el : option string;
  text_el : option string;
  nickname_el : option string;
  date_el : option string;
}.

Definition text_value (o : option string) : value :=
  match o with Some s => VStr s | None => VNone end.

(** [for container in review_containers] *)
Fixpoint dom_reviews_loop (review_containers : list review_container)
    (reviews : list dict) : result (list dict) :=
  match review_containers with
  | [] => Ok reviews
  | container :: rest =>
      bind (match rating_el container with
            | Some t => _safe_float (VStr t)
            | None => Ok VNone
            end) (fun rating =>
        let title := text_value (title_el container) in
        let text := text_value (text_el container) in
        if truthy (py_or text title)
        then dom_reviews_loop rest
               (reviews ++ [review_record rating text title
                              (text_value (date_el container))
                              (text_value (nickname_el container))])
        else dom_reviews_loop rest reviews)
  end.

(** [_parse_reviews_from_dom(soup)] *)
Definition _parse_reviews_from_dom (review_containers : list review_container)
    : result (list dict) :=
  dom_reviews_loop review_containers [].

(** [extract_reviews(soup, product_json)]: [reviews.extend] is reached
    only when the tier returned. *)
Definition extract_reviews (review_containers : list review_container)
    (product_json : option dict) : result (list dict) :=
  let reviews : list dict := [] in
  bind
    (match product_json with
     | Some pj =>
         if truthy (VDict pj)
         then try_except
                (bind (_parse_reviews_from_json pj) (fun found =>
                   Ok (reviews ++ found)%list))
                caught_exception (Ok reviews)
         else Ok reviews
     | None => Ok reviews
     end) (fun reviews =>
  match reviews with
  | [] =>
      try_except
        (bind (_parse_reviews_from_dom review_containers) (fun found =>
           Ok (reviews ++ found)%list))
        caught_exception (Ok reviews)
  | _ => Ok reviews
  end).

(** A rating as the extractor leaves it: [None] or a float. *)
Definition float_or_none (v : value) : bool :=
  match v with
  | VNone | VFloat _ => true
  | _ => false
  end.

(** The ratings that are floats, in order. *)
Definition float_ratings (reviews : list dict) : list float :=
  flat_map (fun r => match dict_get r "rating" with
                     | VFloat x => [x]
                     | _ => []
                     end) reviews.

(** A Product object with two reviews, the rating of the second being
    an integer of 400 digits; and a page with one review. *)
Definition overflowing_reviews : dict :=
  [ ("@type", VStr "Product");
    ("review",
     VList [ VDict [("reviewBody", VStr "Lovely");
                    ("reviewRating", VDict [("ratingValue", VInt 5)])];
             VDict [("reviewBody", VStr "Too much");
                    ("reviewRating", VInt (10 ^ 400))] ]) ].

Definition one_container : list review_container :=
  [ {| rating_el := Some "4"; title_el := Some "Nice"; text_el := None;
       nickname_el := None; date_el := None |} ].

End Reviews.

(* ===================================================================== *)
(** * Questions of the parser pipeline
      ([extractors/questions_extractor.py]) *)
(* ===================================================================== *)

(** Nothing in this module can raise: every [.get] is behind an
    [isinstance] test, and the page is read through BeautifulSoup's
    finders only. *)

Module Questions.
Import PyStr Py.

(** [for a in answers_raw] *)
Definition json_answers (answers_raw : list value) : list value :=
  flat_map (fun a =>
    match a with
    | VDict d =>
        [VDict [ ("answer", py_or (dict_get d "answer") (dict_get d "text"));
                 ("answered_at",
                  py_or (dict_get d "createdAt") (dict_get d "dateCreated"));
                 ("author", dict_get d "author") ]]
    | _ => []
    end) answers_raw.

(** The record built from one entry of the list, [None] for an entry
    that is not a dict. *)
Definition json_question (q : value) : option dict :=
  match q with
  | VDict d =>
      let answers_raw := py_or (dict_get d "answers") (VList []) in
      let answers :=
        match answers_raw with
        | VList l => json_answers l
        | _ => []
        end in
      Some [ ("product_id", py_or (dict_get d "product_id") (dict_get d "productID"));
             ("question", py_or (dict_get d "question") (dict_get d "text"));
             ("asked_at", py_or (dict_get d "dateCreated") (dict_get d "createdAt"));
             ("answers", VList answers) ]
  | _ => None
  end.

(** [_parse_questions_from_json(product_json)] *)
Definition _parse_questions_from_json (product_json : dict) : list dict :=
  match py_or (dict_get product_json "questions") (dict_get product_json "qa") with
  | VList q_and_a =>
      flat_map (fun q => match json_question q with
                         | Some r => [r]
                         | None => []
                         end) q_and_a
  | _ => []
  end.

(** What [_parse_questions_from_dom] reads of an answer element, of a
    question element with its parent, and of a section that talks of
    questions and holds question elements. *)
Record answer_el := {
  answer_text : string;
  answer_date : option string;
  answer_author : option string;
}.

Record question_el := {
  question_text : string;
  asked_at_el : option string;
  answer_els : list answer_el;
}.

Definition qa_section := list question_el.

Definition text_value (o : option string) : value :=
  match o with Some s => VStr s | None => VNone end.

Definition dom_answer (a : answer_el) : value :=
  VDict [ ("answer", VStr (answer_text a));
          ("answered_at", text_value (answer_date a));
          ("author", text_value (answer_author a)) ].

Definition dom_question (q : question_el) : dict :=
  [ ("product_id", VNone);
    ("question", VStr (question_text q));
    ("asked_at", text_value (asked_at_el q));
    ("answers", VList (List.map dom_answer (answer_els q))) ].

(** [_parse_questions_from_dom(soup)] *)
Definition _parse_questions_from_dom (qa_sections : list qa_section) : list dict :=
  flat_map (List.map dom_question) qa_sections.

(** [extract_questions(soup, product_json)] *)
Definition extract_questions (qa_sections : list qa_section)
    (product_json : option dict) : list dict :=
  let questions :=
    match product_json with
    | Some pj => if truthy (VDict pj) then _parse_questions_from_json pj else []
    | None => []
    end in
  match questions with
  | [] => _parse_questions_from_dom qa_sections
  | _ => questions
  end.

End Questions.

(* ===================================================================== *)
(** * The product record ([parser/product_parser.py]) *)
(* ===================================================================== *)

Module ProductRecord.
Import PyStr Py JsonLd Variants Info Stats Reviews Questions.

(** What [parse_product] reads of a page, extractor by extractor. *)
Record product_page := {
  ld_scripts : scripts;
  info_of : info_page;
  review_containers : list review_container;
  qa_sections : list qa_section;
}.

(** [asdict] of the two dataclasses. *)
Definition info_dict (i : ProductInfo) : dict :=
  [ ("id", id i); ("name", name i); ("image", image i);
    ("description", description i); ("is_available", is_available i);
    ("brand", brand i); ("price", price i); ("love_count", love_count i) ].

Definition variant_dict (v : variant) : dict :=
  [ ("variant_id", variant_id v);
    ("variant_description", variant_description v);
    ("is_variant_available", is_variant_available v);
    ("variant_name", variant_name v);
    ("variant_image", variant_image v) ].

Definition is_dict (v : value) : bool :=
  match v with VDict _ => true | _ => false end.

Section ParseProduct.

Variable json_loads : string -> option value.
Variable py_repr : value -> string.

(** The Product object of the page. *)
Definition product_json_of (page : product_page) : option dict :=
  _find_product_json (extract_json_ld_objects json_loads (ld_scripts page)).

(** [ProductParser.parse_product(html, source_url)] *)
Definition parse_product (page : product_page) (source_url : string)
    : result dict :=
  let json_ld_objects := extract_json_ld_objects json_loads (ld_scripts page) in
  let product_json := _find_product_json json_ld_objects in
  let info := _build_product_info py_repr (info_of page) product_json source_url in
  bind (_build_variants py_repr product_json) (fun variants =>
  bind (extract_reviews (review_containers page) product_json) (fun reviews =>
  let questions := Questions.extract_questions (qa_sections page) product_json in
  bind (build_statistics_from_reviews reviews) (fun statistics =>
    Ok [ ("info", VDict (info_dict info));
         ("product_variants", VList (List.map (fun v => VDict (variant_dict v)) variants));
         ("statistics", VDict statistics);
         ("reviews", VList (List.map VDict reviews));
         ("questions", VList (List.map VDict questions));
         ("_source", VDict [("url", VStr source_url)]) ]))).

End ParseProduct.

(** The Product object lists its offers and one of them is not an
    object: the one input on which [_build_variants] calls [.get] on
    something that has none. *)
Definition has_malformed_offer (product_json : option dict) : bool :=
  match product_json with
  | Some pj =>
      truthy (VDict pj)
      && match dict_get pj "offers" with
         | VList offers => existsb (fun offer => negb (is_dict offer)) offers
         | _ => false
         end
  | None => false
  end.

(** A page whose Product object lists a price where an offer should be,
    with the decoder for its one script. *)
Definition malformed_offer_page : product_page :=
  {| ld_scripts := [Some "product"];
     info_of := bare_page;
     review_containers := [];
     qa_sections := [] |}.

Definition malformed_offer_loads (s : string) : option value :=
  if String.eqb s "product"
  then Some (VDict [("@type", VStr "Product"); ("offers", VList [VStr "9.99"])])
  else None.

End ProductRecord.

(* ===================================================================== *)
(** * Reviews of the runner pipeline ([extractors/reviews_parser.py]) *)
(* ===================================================================== *)

Module ReviewsParser.
Import PyStr Py UtilsFormat Dates Stats.
Local Open Scope Z_scope.

(** What the parser reads of one candidate container: the stripped text
    of each marked element it holds, and the [aria-label] values of its
    [span] elements that have one, in document order. *)
Record container := {
  review_rating : option string;
  span_labels : list string;
  review_title : option string;
  review_body : option string;
  review_recommendation : option string;
  review_date : option string;
  review_helpful_count : option string;
  review_not_helpful_count : option string;
}.

(** [s.split(sep)[0]]: what comes before the first occurrence of [sep]. *)
Fixpoint before_first (sep l : list ascii) : list ascii :=
  match l with
  | [] => []
  | c :: l' => if starts_with sep l then [] else c :: before_first sep l'
  end.

(** The record [_parse_review_container] returns. *)
Definition parsed_review (rating : float) (review_text review_title : string)
    (is_recommended submitted_at : value) (helpful not_helpful : Z) : dict :=
  [ ("rating", VFloat rating);
    ("review_text", VStr review_text);
    ("review_title", VStr review_title);
    ("is_recommended", is_recommended);
    ("submitted_at", submitted_at);
    ("helpful_vote_count", VInt helpful);
    ("not_helpful_vote_count", VInt not_helpful) ].

(** The rating: the marked element, else the first labelled [span] when
    its label says "out of 5". *)
Definition container_rating (c : container) : result float :=
  match review_rating c with
  | Some t => parse_float (VStr t) fzero
  | None =>
      match span_labels c with
      | label :: _ =>
          if contains "out of 5" label
          then parse_float
                 (VStr (text (before_first (chars "out of 5") (chars label))))
                 fzero
          else Ok fzero
      | [] => Ok fzero
      end
  end.

(** The recommendation: the two tests of the source, in its order. *)
Definition recommendation (recommended_tag : option string) : value :=
  match recommended_tag with
  | None => VNone
  | Some t =>
      let rec_text := lower t in
      if contains "yes" rec_text || contains "recommended" rec_text
      then VBool true
      else if contains "no" rec_text || contains "not recommended" rec_text
      then VBool false
      else VNone
  end.

Definition cleaned (tag : option string) : string :=
  match tag with
  | Some t => clean_text (Some t)
  | None => ""
  end.

Definition count_of (tag : option string) : result Z :=
  match tag with
  | Some t => parse_int (VStr t) 0
  | None => Ok 0
  end.

(** [_parse_review_container(container)] *)
Definition _parse_review_container (c : container) : result dict :=
  bind (container_rating c) (fun rating =>
  let title := cleaned (review_title c) in
  let text := cleaned (review_body c) in
  let is_recommended := recommendation (review_recommendation c) in
  bind (match review_date c with
        | Some t => _normalize_date (clean_text (Some t))
        | None => Ok None
        end) (fun submitted_at =>
  bind (count_of (review_helpful_count c)) (fun helpful_vote_count =>
  bind (count_of (review_not_helpful_count c)) (fun not_helpful_vote_count =>
    Ok (parsed_review rating text title is_recommended
          (match submitted_at with Some s => VStr s | None => VNone end)
          helpful_vote_count not_helpful_vote_count))))).

(** The containers the page offers, by the three selectors of
    [parse_reviews]. *)
Record reviews_page := {
  review_comps : list container;
  articles : list container;
  list_items : list container;
}.

Definition container_candidates (page : reviews_page) : list container :=
  match review_comps page with
  | _ :: _ => review_comps page
  | [] =>
      match articles page with
      | _ :: _ => articles page
      | [] => list_items page
      end
  end.

(** The container holds a rating element or a [span] whose label says
    "out of 5". *)
Definition has_rating_mark (c : container) : bool :=
  match review_rating c with Some _ => true | None => false end
  || existsb (contains "out of 5") (span_labels c).

(** [max_reviews is not None and len(reviews) >= max_reviews] *)
Definition reached (max_reviews : option Z) (reviews : list dict) : bool :=
  match max_reviews with
  | Some m => m <=? Z.of_nat (length reviews)
  | None => false
  end.

(** [for container in container_candidates], with its [break]. *)
Fixpoint containers_loop (candidates : list container) (max_reviews : option Z)
    (reviews : list dict) : result (list dict) :=
  match candidates with
  | [] => Ok reviews
  | c :: rest =>
      if negb (has_rating_mark c) then containers_loop rest max_reviews reviews
      else
        bind (_parse_review_container c) (fun review =>
          let reviews1 :=
            if truthy (py_or (dict_get review "review_text")
                             (dict_get review "review_title"))
            then (reviews ++ [review])%list
            else reviews in
          if reached max_reviews reviews1 then Ok reviews1
          else containers_loop rest max_reviews reviews1)
  end.

(** [parse_reviews(soup, max_reviews)] *)
Definition parse_reviews (page : reviews_page) (max_reviews : option Z)
    : result (list dict) :=
  containers_loop (container_candidates page) max_reviews [].

(** A record of the parser with text or title. *)
Definition is_parsed_review (r : dict) : Prop :=
  exists rating review_text review_title is_recommended submitted_at helpful not_helpful,
    r = parsed_review rating review_text review_title is_recommended
          submitted_at helpful not_helpful
    /\ nonempty review_text || nonempty review_title = true.

(** A container with a rating of 5 and the given title. *)
Definition titled (title : string) : container :=
  {| review_rating := Some "5"; span_labels := [];
     review_title := Some title; review_body := None;
     review_recommendation := Some "Not recommended";
     review_date := None; review_helpful_count := Some "2";
     review_not_helpful_count := None |}.

Definition two_reviews_page : reviews_page :=
  {| review_comps := [titled "Good"; titled "Bad"];
     articles := []; list_items := [] |}.

(** The two records read from it. *)
Definition two_reviews : list dict :=
  [ parsed_review (of_Z 5) "" "Good" (VBool true) VNone 2 0;
    parsed_review (of_Z 5) "" "Bad" (VBool true) VNone 2 0 ].

End ReviewsParser.

(* ===================================================================== *)
(** * What the two loops keep in order *)
(* ===================================================================== *)

Module Bookkeeping.
Import PyStr Py Urls Orchestrator.

(** The books of the loop of [main.py] are in order: one record for each
    URL marked as processed, and every such URL taken from the work-list. *)
Definition books_in_order (st : main_state) : Prop :=
  size (processed_product_urls st) = length (all_products st)
  /\ (forall u, u ∈ processed_product_urls st -> In u (product_urls st)).

(** Between two turns, moreover, there are no more requests than turns,
    and the loop has not run past the work-list. *)
Definition consistent (st : main_state) : Prop :=
  books_in_order st
  /\ (requests st <= position st)%nat
  /\ (position st <= length (product_urls st))%nat.

Section Fetched.

Variable fetch_html : nat -> string -> option string.

(** The URLs of the runner's list whose page comes, with the page, the
    first request being the [n]-th of the run. *)
Fixpoint fetched (n : nat) (unique_product_urls : list string)
    : list (string * string) :=
  match unique_product_urls with
  | [] => []
  | url :: rest =>
      match got_html (fetch_html n (normalize_url url)) with
      | Some html => (normalize_url url, html) :: fetched (S n) rest
      | None => fetched (S n) rest
      end
  end.

End Fetched.

(** A network that is down for the second request of the run. *)
Definition second_request_fails (n : nat) (url : string) : option string :=
  if (n =? 1)%nat then None else Some url.

End Bookkeeping.

(* ===================================================================== *)
(** * Variant entries of the structured data *)
(* ===================================================================== *)

Module VariantEntries.
Import PyStr Py UtilsFormat JsonLd Variants ProductRecord.

(** The list [parse_product_variants] loops over: the Product block's
    [isVariantOf], else its [offers], when that is a list. *)
Definition variant_entries (ld_blocks : list value) : list value :=
  match _find_product_ld ld_blocks with
  | Some product_ld =>
      if truthy (VDict product_ld) then
        match py_or (dict_get product_ld "isVariantOf")
                    (dict_get product_ld "offers") with
        | VList variants_ld => variants_ld
        | _ => []
        end
      else []
  | None => []
  end.

(** An entry whose name, or whose description when it has no name, is
    there but is not a text: [clean_text] calls [.split] on it. *)
Definition has_unreadable_name (v : value) : bool :=
  match v with
  | VDict d =>
      let variant_name :=
        py_or (py_or (dict_get d "name") (dict_get d "description")) (VStr "") in
      truthy variant_name
      && match variant_name with VStr _ => false | _ => true end
  | _ => false
  end.

(** The number a text of decimal digits denotes. *)
Fixpoint digits_value (l : list ascii) : nat :=
  match l with
  | [] => 0
  | c :: rest => (nat_of_ascii c - 48) * 10 ^ length rest + digits_value rest
  end.

(** A Product block whose second offer is named by a number. *)
Definition numbered_offer : list value :=
  [ VDict [ ("@type", VStr "Product");
            ("offers", VList [ VDict [("sku", VStr "1"); ("name", VStr "Red")];
                               VDict [("sku", VStr "2"); ("name", VInt 2)] ]) ] ].

End VariantEntries.

(* ===================================================================== *)
(** * The input file ([main.py], [runner.py]) *)
(* ===================================================================== *)

(** Both entry points read a JSON file; what follows starts from the
    decoded value. A missing file and a text that is not JSON are outside
    the model. *)

Module Inputs.
Import PyStr Py Urls Variants.

(** [d.setdefault(k, v)] *)
Definition setdefault (d : dict) (k : string) (v : value) : dict :=
  match dict_lookup d k with
  | Some _ => d
  | None => (d ++ [(k, v)])%list
  end.

(** [load_input_payload(input_path)] of [main.py], from the decoded
    value on. *)
Definition load_input_payload (payload : value) : result dict :=
  match payload with
  | VDict d =>
      let d := setdefault d "product_urls" (VList []) in
      let d := setdefault d "category_urls" (VList []) in
      let d := setdefault d "include_similar" (VBool false) in
      match dict_get d "product_urls", dict_get d "category_urls" with
      | VList _, VList _ => Ok d
      | _, _ => Raise ValueError
      end
  | _ => Raise ValueError
  end.

(** [dedupe_urls] on the entries of a decoded list, which need not be
    texts: [.strip] exists on a [str] only. *)
Fixpoint dedupe_values_loop (urls : list value) (seen : gset string)
    (result : list string) : Py.result (list string) :=
  match urls with
  | [] => Ok result
  | VStr u :: rest =>
      let u := strip u in
      if negb (nonempty u) then dedupe_values_loop rest seen result
      else if decide (u ∈ seen) then dedupe_values_loop rest seen result
      else dedupe_values_loop rest ({[u]} ∪ seen) (result ++ [u])
  | _ :: _ => Raise AttributeError
  end.

Definition dedupe_values (urls : list value) : Py.result (list string) :=
  dedupe_values_loop urls ∅ [].

(** The first statement of [main] after the payload is loaded:
    [dedupe_urls(payload.get("product_urls", []))]. The [for] of
    [dedupe_urls] goes through the entries of a list, the characters of
    a text and the keys of an object, and raises [TypeError] on a value
    that cannot be iterated. *)
Definition product_urls_of (payload : dict) : Py.result (list string) :=
  match dict_lookup payload "product_urls" with
  | None => dedupe_values []
  | Some (VList urls) => dedupe_values urls
  | Some (VStr s) => dedupe_values (List.map (fun c => VStr (String c "")) (chars s))
  | Some (VDict d) => dedupe_values (List.map (fun kv => VStr (fst kv)) d)
  | Some _ => Raise TypeError
  end.

Definition is_text (v : value) : bool :=
  match v with VStr _ => true | _ => false end.

Definition text_of (v : value) : string :=
  match v with VStr s => s | _ => "" end.

Section WithRepr.

Variable py_repr : value -> string.

(** [d.get(k, default)] *)
Definition dict_get_default (d : dict) (k : string) (default : value) : value :=
  match dict_lookup d k with
  | Some v => v
  | None => default
  end.

(** [load_inputs(path)] of [runner.py], from the decoded value on. *)
Definition load_inputs (raw : value) : result dict :=
  match raw with
  | VDict d =>
      let product_urls :=
        py_or (py_or (dict_get d "product_urls") (dict_get d "products"))
              (VList []) in
      let category_urls :=
        py_or (py_or (dict_get d "category_urls") (dict_get d "categories"))
              (VList []) in
      match product_urls, category_urls with
      | VList ps, VList cs =>
          Ok [ ("product_urls", VList (List.map (fun u => VStr (py_str py_repr u)) ps));
               ("category_urls", VList (List.map (fun u => VStr (py_str py_repr u)) cs));
               ("include_similar_products",
                VBool (truthy (dict_get_default d "include_similar_products"
                                 (VBool false))));
               ("max_reviews", dict_get d "max_reviews");
               ("max_questions", dict_get d "max_questions") ]
      | _, _ => Raise ValueError
      end
  | _ => Raise ValueError
  end.

End WithRepr.

(** The URL list a field of the runner's input stands for: the field,
    else its short name, else nothing. *)
Definition field_or (d : dict) (long short : string) : value :=
  py_or (py_or (dict_get d long) (dict_get d short)) (VList []).

Definition is_list (v : value) : bool :=
  match v with VList _ => true | _ => false end.

(** An input file that lists a number among its product URLs. *)
Definition numbered_input : value :=
  VDict [("product_urls", VList [VStr "https://www.sephora.com/product/a-P1"; VInt 7])].

End Inputs.

(* ===================================================================== *)
(** * Product info of the runner pipeline
      ([extractors/product_parser.py]) *)
(* ===================================================================== *)

Module InfoParser.
Import PyStr Py UtilsFormat JsonLd Variants Info Ids.

(** What [parse_product_info] reads of the page besides its JSON-LD
    blocks: the [<meta>] tags, the stripped text of the first element
    marked [brand_name], [price] and [loves] if there is one, and whether
    an element is marked [out_of_stock]. *)
Record product_info_page := {
  page_metas : list meta_tag;
  brand_name_tag : option string;
  price_tag : option string;
  loves_tag : option string;
  out_of_stock_tag : bool;
}.

(** [_safe_meta_content(soup, property=p)]: the content of the first
    [<meta>] tag with that property, as it stands, unless it is empty. *)
Definition _safe_meta_content (page : product_info_page) (property : string)
    : value :=
  match List.find (fun t => match meta_property t with
                            | Some p => String.eqb p property
                            | None => false
                            end) (page_metas page) with
  | Some tag =>
      match meta_content tag with
      | Some c => if nonempty c then VStr c else VNone
      | None => VNone
      end
  | None => VNone
  end.

(** [d.get(k, "")] *)
Definition get_or_empty (d : dict) (k : string) : value :=
  match dict_lookup d k with
  | Some v => v
  | None => VStr ""
  end.

(** [offers.get("price") or
     offers.get("priceSpecification", {}).get("price", "")] *)
Definition offer_price (offers : dict) : result value :=
  if truthy (dict_get offers "price") then Ok (dict_get offers "price")
  else
    match dict_lookup offers "priceSpecification" with
    | None => Ok (VStr "")
    | Some (VDict specification) => Ok (get_or_empty specification "price")
    | Some _ => Raise AttributeError
    end.

(** The price read from the Product block, [""] when it gives none. *)
Definition ld_price (product_ld : dict) : result value :=
  match dict_get product_ld "offers" with
  | VDict offers => offer_price offers
  | VList (VDict offer0 :: _) => Ok (get_or_empty offer0 "price")
  | _ => Ok (VStr "")
  end.

(** The brand read from the Product block, [""] when it gives none. *)
Definition ld_brand (product_ld : dict) : value :=
  match dict_get product_ld "brand" with
  | VDict brand_data => py_or (dict_get brand_data "name") (VStr "")
  | VStr brand => VStr brand
  | _ => VStr ""
  end.

Definition tag_text (tag : option string) : value :=
  match tag with
  | Some t => VStr (clean_text (Some t))
  | None => VStr ""
  end.

Section WithRepr.

Variable py_repr : value -> string.

(** [parse_product_info(soup, url)], from the decoded JSON-LD blocks and
    the page. The statements that can raise come in the order of the
    source. *)
Definition parse_product_info (ld_blocks : list value) (page : product_info_page)
    (url : string) : result dict :=
  let product_ld :=
    match _find_product_ld ld_blocks with
    | Some d => if truthy (VDict d) then Some d else None
    | None => None
    end in
  let name0 := py_or (_safe_meta_content page "og:title") (VStr "") in
  let description0 := py_or (_safe_meta_content page "og:description") (VStr "") in
  let image0 := py_or (_safe_meta_content page "og:image") (VStr "") in
  let name :=
    match product_ld with
    | Some d => py_or (dict_get d "name") name0
    | None => name0
    end in
  let description :=
    match product_ld with
    | Some d => py_or (dict_get d "description") description0
    | None => description0
    end in
  let image :=
    match product_ld with
    | Some d => py_or (dict_get d "image") image0
    | None => image0
    end in
  let brand0 :=
    match product_ld with
    | Some d => ld_brand d
    | None => VStr ""
    end in
  bind (match product_ld with
        | Some d => ld_price d
        | None => Ok (VStr "")
        end) (fun price0 =>
  let brand :=
    if negb (truthy brand0)
    then match brand_name_tag page with
         | Some t => VStr (clean_text (Some t))
         | None => brand0
         end
    else brand0 in
  let price_text :=
    if negb (truthy price0)
    then match price_tag page with
         | Some t => VStr (clean_text (Some t))
         | None => price0
         end
    else price0 in
  bind (match loves_tag page with
        | Some t => parse_number_with_suffix (Some t) 0
        | None => Ok 0%Z
        end) (fun love_count =>
  let availability := negb (out_of_stock_tag page) in
  let product_id0 :=
    match product_ld with
    | Some d => py_or (dict_get d "sku") (dict_get d "productID")
    | None => VNone
    end in
  let product_id :=
    if negb (truthy product_id0)
    then match infer_product_id_from_url url with
         | Some inferred => VStr inferred
         | None => VNone
         end
    else product_id0 in
  bind (clean_text_value name) (fun cleaned_name =>
  bind (clean_text_value description) (fun cleaned_description =>
  bind (clean_text_value brand) (fun cleaned_brand =>
    Ok [ ("id", py_or product_id (VStr ""));
         ("name", VStr cleaned_name);
         ("image", image);
         ("description", VStr cleaned_description);
         ("is_available", VBool availability);
         ("brand", VStr cleaned_brand);
         ("price", VStr (match price_text with
                         | VNone => ""
                         | _ => py_str py_repr price_text
                         end));
         ("love_count", VInt love_count);
         ("url", VStr url) ]))))).

End WithRepr.

(** A page of a product that is out of stock, with its address. *)
Definition sold_out_page : product_info_page :=
  {| page_metas := [ {| meta_name := None;
                        meta_property := Some "og:title";
                        meta_content := Some "  Velvet   Lipstick " |} ];
     brand_name_tag := Some "Acme";
     price_tag := Some "$24.00";
     loves_tag := Some "12.3K";
     out_of_stock_tag := true |}.

Definition sold_out_url : string := "https://www.sephora.com/product/velvet-P455369".

End InfoParser.

(* ===================================================================== *)
(** * Questions of the runner pipeline
      ([extractors/questions_parser.py]) *)
(* ===================================================================== *)

Module QuestionsParser.
Import PyStr Py UtilsFormat Dates.
Local Open Scope Z_scope.

(** What [_parse_answer] reads of an answer element: the text of its
    [answer_body] element, or its own text when it holds none, and the
    stripped text of its [answer_date] element if there is one. *)
Record answer_tag := {
  answer_body_text : string;
  answer_date_text : option string;
}.

(** What the parser reads of a candidate block: the text of its first
    [question_body] element and of its first [p] element, its own
    [get_text(" ", strip=True)], the stripped text of its date and count
    elements, and the parents of its [answer_body] elements, those under
    an [Answers] component and all of them. *)
Record block := {
  question_body : option string;
  first_paragraph : option string;
  block_text : string;
  question_date : option string;
  answers_in_components : list answer_tag;
  answers_anywhere : list answer_tag;
  question_helpful_count : option string;
  question_not_helpful_count : option string;
}.

Definition optional_text (o : option string) : value :=
  match o with Some s => VStr s | None => VNone end.

Definition normalized (date_tag : option string) : result value :=
  match date_tag with
  | Some t =>
      bind (_normalize_question_date (clean_text (Some t))) (fun submitted_at =>
        Ok (optional_text submitted_at))
  | None => Ok VNone
  end.

(** [_parse_answer(answer_tag)] *)
Definition _parse_answer (a : answer_tag) : result value :=
  let answer_text := clean_text (Some (answer_body_text a)) in
  bind (normalized (answer_date_text a)) (fun submitted_at =>
    Ok (VDict [("answer", VStr answer_text); ("submitted_at", submitted_at)])).

Fixpoint answers_loop (tags : list answer_tag) (answers : list value)
    : result (list value) :=
  match tags with
  | [] => Ok answers
  | a :: rest =>
      bind (_parse_answer a) (fun parsed => answers_loop rest (answers ++ [parsed]))
  end.

Definition count_of (tag : option string) : result Z :=
  match tag with
  | Some t => parse_int (VStr t) 0
  | None => Ok 0
  end.

(** The record [_parse_question_block] returns. *)
Definition question_payload (product_id : value) (question : string)
    (submitted_at : value) (answers : list value) (helpful not_helpful : Z)
    : dict :=
  [ ("product_id", product_id);
    ("question", VStr question);
    ("submitted_at", submitted_at);
    ("answers", VList answers);
    ("helpful_vote_count", VInt helpful);
    ("not_helpful_vote_count", VInt not_helpful) ].

(** [_parse_question_block(block, product_id)] *)
Definition _parse_question_block (b : block) (product_id : value) : result dict :=
  let question_tag :=
    match question_body b with
    | Some t => Some t
    | None => first_paragraph b
    end in
  let question_text :=
    match question_tag with
    | Some t => clean_text (Some t)
    | None => ""
    end in
  bind (normalized (question_date b)) (fun submitted_at =>
  bind (answers_loop (answers_in_components b) []) (fun answers =>
  bind (match answers with
        | [] => answers_loop (answers_anywhere b) answers
        | _ => Ok answers
        end) (fun answers =>
  bind (count_of (question_helpful_count b)) (fun helpful_vote_count =>
  bind (count_of (question_not_helpful_count b)) (fun not_helpful_vote_count =>
    Ok (question_payload (py_or product_id (VStr "")) question_text submitted_at
          answers helpful_vote_count not_helpful_vote_count)))))).

(** The blocks the page offers, by the two selectors of
    [parse_questions]. *)
Record questions_page := {
  question_comps : list block;
  sections : list block;
}.

Definition question_blocks (page : questions_page) : list block :=
  match question_comps page with
  | _ :: _ => question_comps page
  | [] => sections page
  end.

(** The block holds a [question_body] element or talks of a question. *)
Definition is_question_block (b : block) : bool :=
  match question_body b with Some _ => true | None => false end
  || contains "question" (lower (block_text b)).

Definition reached (max_questions : option Z) (questions : list dict) : bool :=
  match max_questions with
  | Some m => m <=? Z.of_nat (length questions)
  | None => false
  end.

(** [for block in question_blocks], with its [break]. *)
Fixpoint blocks_loop (blocks : list block) (product_id : value)
    (max_questions : option Z) (questions : list dict) : result (list dict) :=
  match blocks with
  | [] => Ok questions
  | b :: rest =>
      if negb (is_question_block b)
      then blocks_loop rest product_id max_questions questions
      else
        bind (_parse_question_block b product_id) (fun q =>
          let questions1 :=
            if truthy (dict_get q "question") then (questions ++ [q])%list
            else questions in
          if reached max_questions questions1 then Ok questions1
          else blocks_loop rest product_id max_questions questions1)
  end.

(** [parse_questions(soup, product_id, max_questions)] *)
Definition parse_questions (page : questions_page) (product_id : value)
    (max_questions : option Z) : result (list dict) :=
  blocks_loop (question_blocks page) product_id max_questions [].

(** A record of the parser: its question is not empty and its product id
    is not [None]. *)
Definition is_parsed_question (q : dict) : Prop :=
  exists product_id question submitted_at answers helpful not_helpful,
    q = question_payload product_id question submitted_at answers helpful not_helpful
    /\ nonempty question = true
    /\ product_id <> VNone.

(** A block with a question and no answer, and a page with two of them. *)
Definition asked (question : string) : block :=
  {| question_body := Some question; first_paragraph := None;
     block_text := question; question_date := Some "Jan 5, 2024";
     answers_in_components := []; answers_anywhere := [];
     question_helpful_count := None; question_not_helpful_count := None |}.

Definition two_questions_page : questions_page :=
  {| question_comps := [asked "Is it vegan?"; asked "Does it last?"];
     sections := [] |}.

End QuestionsParser.

(* ===================================================================== *)
(** * Properties *)
(* ===================================================================== *)

(** ** URL deduplication *)

Section UrlsFacts.
Import PyStr Urls.
Local Arguments strip : simpl never.
Local Arguments nonempty : simpl never.

Lemma filter_filter_and {A} (p q : A -> bool) (l : list A) :
  List.filter p (List.filter q l) = List.filter (fun x => p x && q x) l.
Proof.
  induction l as [|x l IH]; simpl; [reflexivity|].
  destruct (q x) eqn:Hq; simpl; rewrite ?IH.
  - destruct (p x); reflexivity.
  - rewrite andb_false_r. reflexivity.
Qed.

Lemma filter_agree {A} (p q : A -> bool) (l : list A) :
  (forall x, p x = q x) -> List.filter p l = List.filter q l.
Proof.
  intros H. induction l as [|x l IH]; simpl; [reflexivity|].
  rewrite H, IH. reflexivity.
Qed.

(** The loop invariant: what is still to come is the first occurrences of
    the rest, less what has been seen. *)
Lemma dedupe_loop_spec (urls : list string) :
  forall seen result,
    dedupe_loop urls seen result =
    (result ++ List.filter (unseen seen) (dedupe_spec urls))%list.
Proof.
  unfold dedupe_spec, trimmed_nonempty.
  induction urls as [|u urls IH]; intros seen result; simpl.
  - rewrite app_nil_r. reflexivity.
  - destruct (nonempty (strip u)) eqn:Hne; simpl; [|apply IH].
    destruct (decide (strip u ∈ seen)) as [Hin|Hnin].
    + rewrite IH. f_equal.
      assert (Hu : unseen seen (strip u) = false)
        by (apply bool_decide_eq_false_2; intros H; apply H, Hin).
      rewrite Hu, filter_filter_and. apply filter_agree. intros y.
      unfold unseen. destruct (String.eqb_spec (strip u) y) as [<-|Hy]; simpl.
      * rewrite andb_false_r. exact Hu.
      * rewrite andb_true_r. reflexivity.
    + rewrite IH. rewrite <- app_assoc. simpl. f_equal.
      assert (Hu : unseen seen (strip u) = true)
        by (apply bool_decide_eq_true_2; exact Hnin).
      rewrite Hu. f_equal. rewrite filter_filter_and. apply filter_agree.
      intros y. unfold unseen.
      destruct (String.eqb_spec (strip u) y) as [<-|Hy]; simpl.
      * rewrite andb_false_r. apply bool_decide_eq_false_2.
        intros H. apply H, elem_of_union_l, elem_of_singleton. reflexivity.
      * rewrite andb_true_r. apply bool_decide_ext.
        rewrite elem_of_union, elem_of_singleton. intuition congruence.
Qed.

Lemma runner_dedupe_loop_eq (urls : list string) :
  forall seen result,
    runner_dedupe_loop urls seen result = dedupe_loop urls seen result.
Proof.
  induction urls as [|u urls IH]; intros seen result; simpl; [reflexivity|].
  unfold normalize_url.
  destruct (nonempty (strip u)); simpl; [|apply IH].
  destruct (decide (strip u ∈ seen)) as [Hin|Hnin].
  - rewrite bool_decide_eq_false_2 by (intros H; apply H, Hin). apply IH.
  - rewrite bool_decide_eq_true_2 by exact Hnin. apply IH.
Qed.

Lemma filter_unseen_empty (l : list string) : List.filter (unseen ∅) l = l.
Proof.
  induction l as [|x l IH]; simpl; [reflexivity|].
  unfold unseen at 1. rewrite bool_decide_eq_true_2 by set_solver.
  rewrite IH. reflexivity.
Qed.

Lemma first_occurrences_In (l : list string) (x : string) :
  In x (first_occurrences l) <-> In x l.
Proof.
  induction l as [|a l IH]; simpl; [tauto|].
  rewrite filter_In, IH.
  destruct (String.eqb_spec a x) as [->|Hne]; simpl; [tauto|].
  split; [tauto|]. intros [H|H]; [tauto|]. right. split; [exact H|reflexivity].
Qed.

Lemma first_occurrences_NoDup (l : list string) : List.NoDup (first_occurrences l).
Proof.
  induction l as [|a l IH]; simpl; constructor.
  - rewrite filter_In. intros [_ H]. rewrite String.eqb_refl in H. discriminate.
  - apply List.NoDup_filter, IH.
Qed.

(** C8. Deduplication trims every entry, drops those left empty, and
    keeps the first occurrence of each distinct trimmed text in
    first-occurrence order: [dedupe_urls] of [main.py] and the inline loop
    of [runner.py] both compute [dedupe_spec]; the result has no
    duplicates and holds exactly the non-empty trimmed entries; and
    ["a"; " a "; "b"; "a"] gives ["a"; "b"]. *)
Theorem dedupe_urls_first_occurrences :
  (forall urls : list string,
      dedupe_urls urls = dedupe_spec urls
      /\ runner_unique_product_urls urls = dedupe_spec urls
      /\ List.NoDup (dedupe_urls urls)
      /\ (forall u, In u (dedupe_urls urls) <-> In u (trimmed_nonempty urls)))
  /\ dedupe_urls ["a"; " a "; "b"; "a"] = ["a"; "b"]
  /\ runner_unique_product_urls ["a"; " a "; "b"; "a"] = ["a"; "b"].
Proof.
  assert (Hspec : forall urls, dedupe_urls urls = dedupe_spec urls).
  { intros urls. unfold dedupe_urls. rewrite dedupe_loop_spec. simpl.
    apply filter_unseen_empty. }
  split; [|split; vm_compute; reflexivity].
  intros urls. rewrite Hspec. repeat split.
  - unfold runner_unique_product_urls. rewrite runner_dedupe_loop_eq.
    apply Hspec.
  - apply first_occurrences_NoDup.
  - apply first_occurrences_In.
  - apply first_occurrences_In.
Qed.

End UrlsFacts.

(** ** Structured-data locator *)

Section LocatorFacts.
Import PyStr Py JsonLd.

Lemma find_first {A} (p : A -> bool) (l : list A) (x : A) :
  List.find p l = Some x ->
  exists before after,
    l = (before ++ x :: after)%list /\ p x = true
    /\ forall y, In y before -> p y = false.
Proof.
  induction l as [|a l IH]; simpl; [discriminate|].
  destruct (p a) eqn:Hp.
  - intros [= <-]. exists [], l. simpl. tauto.
  - intros H. destruct (IH H) as (b & c & -> & Hx & Hb).
    exists (a :: b), c. simpl. repeat split; [exact Hx|].
    intros y [<-|Hy]; [exact Hp|apply Hb, Hy].
Qed.

Lemma find_product_json_locate (objs : list dict) :
  _find_product_json objs = locate_spec objs.
Proof.
  unfold locate_spec.
  induction objs as [|obj objs IH]; simpl; [reflexivity|].
  unfold type_matches at 1.
  destruct (dict_get obj "@type"); simpl; rewrite IH; reflexivity.
Qed.

Lemma find_product_item_find (items : list value) :
  find_product_item items = List.find type_is_product (dict_items (VList items)).
Proof.
  induction items as [|item items IH]; simpl; [reflexivity|].
  destruct item; simpl; try exact IH.
  unfold type_is_product at 1.
  destruct (eq_str (dict_get items0 "@type") "Product"); [reflexivity|exact IH].
Qed.

Lemma find_app_none {A} (p : A -> bool) (l1 l2 : list A) :
  List.find p l1 = None -> List.find p (l1 ++ l2) = List.find p l2.
Proof.
  induction l1 as [|a l1 IH]; simpl; [reflexivity|].
  destruct (p a); [discriminate|exact IH].
Qed.

Lemma find_app_some {A} (p : A -> bool) (l1 l2 : list A) (x : A) :
  List.find p l1 = Some x -> List.find p (l1 ++ l2) = Some x.
Proof.
  induction l1 as [|a l1 IH]; simpl; [discriminate|].
  destruct (p a); [tauto|exact IH].
Qed.

Lemma find_product_ld_find (blocks : list value) :
  _find_product_ld blocks = List.find type_is_product (flat_map dict_items blocks).
Proof.
  induction blocks as [|block blocks IH]; [reflexivity|].
  cbn [_find_product_ld flat_map].
  destruct block; cbn [is_product_dict dict_items app]; try exact IH.
  - rewrite find_product_item_find.
    destruct (List.find type_is_product (dict_items (VList items))) eqn:Hf.
    + symmetry. apply find_app_some, Hf.
    + rewrite find_app_none by exact Hf. exact IH.
  - cbn [List.find]. unfold type_is_product at 1.
    destruct (eq_str (dict_get items "@type") "Product"); [reflexivity|exact IH].
Qed.

(** C3, as stated, fails on [_find_product_ld]: for a block of another
    type followed by a block whose type-list is [Thing, Product], the
    first object whose tag matches directly or within a type-list is the
    second block, but [_find_product_ld] finds nothing. *)
Lemma find_product_ld_misses_type_list :
  locate_spec [organization; thing_product] = Some thing_product
  /\ _find_product_ld [VDict organization; VDict thing_product] = None.
Proof. split; reflexivity. Qed.

(** C3, amended. [ProductParser._find_product_json] returns the first
    object whose type tag is Product or a type-list holding Product: every
    object before it fails the test; it returns [None], not an error,
    exactly when no object matches; and for a non-matching object followed
    by one tagged [Thing, Product] it returns the second.
    [_find_product_ld] returns the first dict, among the dict blocks and
    the dict members of list blocks taken in order, whose tag is the text
    Product itself, and [None] when there is none. *)
Theorem find_product_json_first_match :
  (forall objs : list dict,
      _find_product_json objs = locate_spec objs
      /\ (forall obj, _find_product_json objs = Some obj ->
            exists before after,
              objs = (before ++ obj :: after)%list
              /\ type_matches obj = true
              /\ forall o, In o before -> type_matches o = false)
      /\ (_find_product_json objs = None <->
            forall o, In o objs -> type_matches o = false))
  /\ _find_product_json [organization; thing_product] = Some thing_product
  /\ (forall blocks : list value,
        _find_product_ld blocks
        = List.find type_is_product (flat_map dict_items blocks)).
Proof.
  split; [|split; [reflexivity|exact find_product_ld_find]].
  intros objs. rewrite find_product_json_locate. unfold locate_spec.
  split; [reflexivity|split].
  - intros obj H. apply find_first, H.
  - split.
    + intros H o Ho. apply (find_none _ _ H o Ho).
    + intros H. destruct (List.find type_matches objs) eqn:Hf; [|reflexivity].
      apply find_some in Hf as [Hin Hm]. rewrite (H _ Hin) in Hm. discriminate.
Qed.

(** The theorem at the sample list: the match is the second object, and
    the object before it does not match. *)
Lemma find_product_json_first_match_witness :
  exists before after,
    [organization; thing_product] = (before ++ thing_product :: after)%list
    /\ type_matches thing_product = true
    /\ forall o, In o before -> type_matches o = false.
Proof.
  exact (proj1 (proj2 (proj1 find_product_json_first_match
                         [organization; thing_product]))
           thing_product eq_refl).
Defined.

End LocatorFacts.

(** ** Structured-metadata block scanners *)

Section ScannerFacts.
Import PyStr Py JsonLd.

Lemma strip_nonempty (s : string) : nonempty (strip s) = true -> nonempty s = true.
Proof. destruct s; [discriminate|reflexivity]. Qed.




End ScannerFacts.

(** ** Statistics aggregators *)

Section StatsFacts.
Import PyStr Py UtilsFormat Stats.
Local Open Scope Z_scope.

(** C1, as stated, fails on [parse_statistics]: with no reviews and a page
    without rating summary, review count or histogram, it reports the
    average rating as 0.0 and both vote counts as 0, not as [None], and it
    has no [recommended_review_count] entry. *)
Lemma parse_statistics_empty_reports_zeros :
  parse_statistics empty_page [] = Ok (page_statistics fzero 0 0 0)
  /\ dict_get (page_statistics fzero 0 0 0) "average_rating" <> VNone
  /\ dict_get (page_statistics fzero 0 0 0) "helpful_vote_count" = VInt 0
  /\ dict_lookup (page_statistics fzero 0 0 0) "recommended_review_count" = None.
Proof. repeat split; try reflexivity. discriminate. Qed.

(** C1, amended. Given an empty review list,
    [build_statistics_from_reviews] reports the four optional fields as
    [None] and [review_count] as 0. [parse_statistics], given an empty
    list and a page without rating summary or histogram, reports
    [review_count] as 0 with zeros in the other numeric fields; whatever
    the page and the reviews, when it returns, its average rating is a
    float and its counts are integers, never [None]. *)
Theorem statistics_of_no_reviews :
  build_statistics_from_reviews [] = Ok (review_statistics VNone 0)
  /\ parse_statistics empty_page [] = Ok (page_statistics fzero 0 0 0)
  /\ (forall page reviews,
        match parse_statistics page reviews with
        | Ok d => exists average helpful not_helpful count,
                    d = page_statistics average helpful not_helpful count
        | Raise _ => True
        end).
Proof.
  split; [reflexivity|split; [reflexivity|]].
  intros page reviews. unfold parse_statistics.
  destruct (match overall_rating page with Some _ => _ | None => _ end)
    as [average|e]; cbn [bind]; [|exact I].
  destruct (match total_reviews page with Some _ => _ | None => _ end)
    as [count|e]; cbn [bind]; [|exact I].
  destruct (match reviews with [] => _ | _ :: _ => _ end)
    as [[[[a c] h] n]|e]; cbn [bind]; [|exact I].
  unfold page_statistics. eauto.
Qed.

Lemma collect_ratings_spec (reviews : list dict) :
  forall rs acc,
    Forall2 (fun r x => py_float (dict_get r "rating") = Ok x)
            (List.filter has_numeric_rating reviews) rs ->
    collect_ratings reviews acc = Ok (acc ++ rs)%list.
Proof.
  induction reviews as [|r reviews IH]; intros rs acc H; simpl in *.
  - inversion H. rewrite app_nil_r. reflexivity.
  - unfold has_numeric_rating in H at 1.
    destruct (is_number (dict_get r "rating")).
    + inversion H as [|? x ? rs' Hx Hrest]; subst. rewrite Hx. cbn [bind].
      rewrite (IH rs' _ Hrest), <- app_assoc. reflexivity.
    + apply IH, H.
Qed.

Lemma reviews_loop_spec (reviews : list dict) :
  forall ts total h0 n0,
    Forall2 (fun r t => review_reading r = Ok t) reviews ts ->
    reviews_loop reviews total h0 n0
    = Ok (fold_left fadd (List.map (fun t => fst (fst t)) ts) total,
          h0 + zsum (List.map (fun t => snd (fst t)) ts),
          n0 + zsum (List.map snd ts)).
Proof.
  induction reviews as [|r reviews IH]; intros ts total h0 n0 H.
  - inversion H. simpl. rewrite !Z.add_0_r. reflexivity.
  - inversion H as [|? [[x h] n] ? ts' Hr Hrest]; subst.
    cbn [reviews_loop]. unfold review_reading, rating_or_zero in Hr.
    destruct (py_float _) as [x'|]; cbn [bind] in *; [|discriminate].
    destruct (parse_int (dict_get r "helpful_vote_count") 0) as [h'|];
      cbn [bind] in *; [|discriminate].
    destruct (parse_int (dict_get r "not_helpful_vote_count") 0) as [n'|];
      cbn [bind] in *; [|discriminate].
    injection Hr as -> -> ->.
    rewrite (IH ts' _ _ _ Hrest). cbn [List.map fold_left zsum fold_right fst snd].
    fold (zsum (List.map (fun t => snd (fst t)) ts')).
    fold (zsum (List.map snd ts')).
    rewrite !Z.add_assoc. reflexivity.
Qed.

(** C2, as stated, fails on both aggregators.
    [build_statistics_from_reviews] does not round: for the ratings 1, 1
    and 2 it reports the double nearest to 4/3, which differs from its
    rounding to two decimals. [parse_statistics] does not leave unrated
    reviews out of the mean: for the ratings 4, 5 and [None] it reports
    3.0, not 4.5. *)
Lemma average_rating_not_as_claimed :
  build_statistics_from_reviews [rated (of_Z 1); rated (of_Z 1); rated (of_Z 2)]
  = Ok (review_statistics (VFloat (S754_finite false 6004799503160661 (-52))) 3)
  /\ py_round2 (S754_finite false 6004799503160661 (-52))
     <> S754_finite false 6004799503160661 (-52)
  /\ parse_statistics empty_page [rated (of_Z 4); rated (of_Z 5); unrated]
     = Ok (page_statistics (of_Z 3) 0 0 3)
  /\ of_Z 3 <> float_of_decimal false 45 (-1).
Proof.
  repeat split; try (vm_compute; reflexivity); vm_compute; discriminate.
Qed.

(** C2, amended. For a non-empty review list,
    [build_statistics_from_reviews] reports as average rating the mean,
    not rounded, of the ratings of the reviews that carry a numeric one
    ([None] when no review does), and as review count the number of all
    reviews; the ratings 4, 5 and [None] give 4.5 and 3.
    [parse_statistics] reports, rounded to two decimals, the sum of all
    ratings, a missing one counting as 0, divided by the number of all
    reviews. *)
Theorem average_rating_of_reviews :
  (forall (reviews : list dict) (rs : list float),
      reviews <> [] ->
      Forall2 (fun r x => py_float (dict_get r "rating") = Ok x)
              (List.filter has_numeric_rating reviews) rs ->
      build_statistics_from_reviews reviews
      = Ok (review_statistics (mean rs) (Z.of_nat (length reviews))))
  /\ build_statistics_from_reviews [rated (of_Z 4); rated (of_Z 5); unrated]
     = Ok (review_statistics (VFloat (float_of_decimal false 45 (-1))) 3)
  /\ (forall (page : stats_page) (reviews : list dict)
             (ts : list (float * Z * Z)),
        reviews <> [] ->
        (forall t, total_reviews page = Some t -> is_ok (parse_int (VStr t) 0) = true) ->
        Forall2 (fun r t => review_reading r = Ok t) reviews ts ->
        parse_statistics page reviews
        = Ok (page_statistics
                (rounded_or_zero
                   (fdiv (fsum (List.map (fun t => fst (fst t)) ts))
                         (float_of_len (length reviews))))
                (zsum (List.map (fun t => snd (fst t)) ts))
                (zsum (List.map snd ts))
                (Z.of_nat (length reviews)))).
Proof.
  split; [|split; [vm_compute; reflexivity|]].
  - intros reviews rs Hne H. unfold build_statistics_from_reviews.
    destruct reviews as [|r reviews]; [congruence|].
    cbn [length Nat.eqb].
    rewrite (collect_ratings_spec _ rs [] H). reflexivity.
  - intros page reviews ts Hne Hcount H. unfold parse_statistics.
    assert (Hrating : exists a,
               match overall_rating page with
               | Some t => parse_float (VStr t) fzero
               | None => Ok fzero
               end = Ok a).
    { destruct (overall_rating page) as [t|]; [|eauto].
      unfold parse_float, py_float_of_str.
      destruct (float_of_text _); cbn; eauto. }
    destruct Hrating as [a ->]. cbn [bind].
    assert (Hc : exists c,
               match total_reviews page with
               | Some t => parse_int (VStr t) 0
               | None => Ok 0
               end = Ok c).
    { destruct (total_reviews page) as [t|]; [|eauto].
      specialize (Hcount t eq_refl).
      destruct (parse_int (VStr t) 0); [eauto|discriminate]. }
    destruct Hc as [c ->]. cbn [bind].
    destruct reviews as [|r reviews]; [congruence|].
    rewrite (reviews_loop_spec _ ts _ _ _ H). cbn [bind length Nat.ltb Nat.leb].
    rewrite !Z.add_0_l. reflexivity.
Qed.

(** The theorem at the ratings 4, 5 and [None]. *)
Lemma average_rating_of_reviews_witness :
  build_statistics_from_reviews [rated (of_Z 4); rated (of_Z 5); unrated]
  = Ok (review_statistics (mean [of_Z 4; of_Z 5]) 3)
  /\ parse_statistics empty_page [rated (of_Z 4); rated (of_Z 5); unrated]
     = Ok (page_statistics (of_Z 3) 0 0 3).
Proof.
  split.
  - apply (proj1 average_rating_of_reviews
             [rated (of_Z 4); rated (of_Z 5); unrated] [of_Z 4; of_Z 5]).
    + discriminate.
    + repeat constructor.
  - apply (proj2 (proj2 average_rating_of_reviews) empty_page
             [rated (of_Z 4); rated (of_Z 5); unrated]
             [(of_Z 4, 0, 0); (of_Z 5, 0, 0); (fzero, 0, 0)]).
    + discriminate.
    + discriminate.
    + repeat constructor.
Defined.

End StatsFacts.

(** ** Date normalisation *)

Section DatesFacts.
Import PyStr Py UtilsFormat Dates.
Local Open Scope Z_scope.

Lemma strptime_raises_value_error (t : string) (fmt : list piece) (e : exn) :
  strptime t fmt = Raise e -> e = ValueError.
Proof.
  unfold strptime.
  destruct (match_pieces fmt _ (chars t)) as [|[dt [|c r]] rest];
    try (intros [= <-]; reflexivity).
  destruct (valid_date dt); [discriminate|intros [= <-]; reflexivity].
Qed.

Lemma strptime_valid (t : string) (fmt : list piece) (dt : date) :
  strptime t fmt = Ok dt -> valid_date dt = true.
Proof.
  unfold strptime.
  destruct (match_pieces fmt _ (chars t)) as [|[dt' [|c r]] rest];
    try discriminate.
  destruct (valid_date dt') eqn:Hv; [intros [= <-]; exact Hv|discriminate].
Qed.

Ltac enumerate x lo hi :=
  let H := fresh in
  assert (H : lo <= x <= hi) by lia;
  repeat match type of H with
         | ?a <= x <= ?b =>
             first
               [ assert (x = a) by lia; subst x; clear H
               | let H' := fresh in
                 assert (H' : x = a \/ a + 1 <= x <= b) by lia;
                 clear H; destruct H' as [->|H]; [|ring_simplify (a + 1) in H] ]
         end.

Lemma digit_of_is_digit (k : Z) :
  0 <= k <= 9 -> is_digit (digit_of k) = true /\ digit_val (digit_of k) = k.
Proof. intros Hk. enumerate k 0 9; split; reflexivity. Qed.

Lemma match_year_digits (a b c d : Z) (rest : list ascii) :
  0 <= a <= 9 -> 0 <= b <= 9 -> 0 <= c <= 9 -> 0 <= d <= 9 ->
  match_year (digit_of a :: digit_of b :: digit_of c :: digit_of d :: rest)
  = [(1000 * a + 100 * b + 10 * c + d, rest)].
Proof.
  intros Ha Hb Hc Hd. unfold match_year.
  destruct (digit_of_is_digit a Ha) as [-> ->].
  destruct (digit_of_is_digit b Hb) as [-> ->].
  destruct (digit_of_is_digit c Hc) as [-> ->].
  destruct (digit_of_is_digit d Hd) as [-> ->].
  reflexivity.
Qed.

Lemma match_month_day (y m d : Z) :
  1 <= m <= 12 -> 1 <= d <= 31 ->
  exists others,
    match_pieces [Lit "-"; Month; Lit "-"; Day]
      {| year := y; month := 1; day := 1 |}
      ["-"%char; digit_of (m / 10); digit_of (m mod 10); "-"%char;
       digit_of (d / 10); digit_of (d mod 10)]
    = ({| year := y; month := m; day := d |}, []) :: others.
Proof.
  intros Hm Hd.
  enumerate m 1 12; enumerate d 1 31; eexists; vm_compute; reflexivity.
Qed.

Lemma days_in_month_le (y m : Z) : days_in_month y m <= 31.
Proof.
  unfold days_in_month.
  destruct (m =? 2); [destruct (is_leap y); lia|].
  destruct ((m =? 4) || (m =? 6) || (m =? 9) || (m =? 11)); lia.
Qed.

(** Reading back the date part of [isoformat dt] gives [dt]. *)
Lemma iso_roundtrip (dt : date) :
  valid_date dt = true -> iso_denotes (isoformat dt) = Some dt.
Proof.
  destruct dt as [y m d]. intros Hv.
  assert (Hr : (1 <= y <= 9999) /\ (1 <= m <= 12) /\ (1 <= d <= 31)).
  { unfold valid_date in Hv. cbn [year month day] in Hv.
    pose proof (days_in_month_le y m). lia. }
  destruct Hr as (Hy & Hm & Hd).
  unfold iso_denotes, strptime.
  change (chars (text (firstn 10 (chars (isoformat {| year := y; month := m; day := d |})))))
    with (iso_date_chars {| year := y; month := m; day := d |}).
  unfold iso_date_chars, fmt_iso. cbn [year month day].
  cbn [match_pieces match_piece].
  rewrite match_year_digits by (Z.div_mod_to_equations; lia).
  cbn [List.map flat_map year month day].
  destruct (match_month_day
              (1000 * (y / 1000) + 100 * (y / 100 mod 10)
               + 10 * (y / 10 mod 10) + y mod 10) m d Hm Hd) as [others E].
  cbn [match_pieces match_piece] in E. rewrite E. cbn [app].
  replace (1000 * (y / 1000) + 100 * (y / 100 mod 10)
           + 10 * (y / 10 mod 10) + y mod 10) with y
    by (Z.div_mod_to_equations; lia).
  rewrite Hv. reflexivity.
Qed.

(** C7. Normalisation tries exactly three formats in a fixed order
    (abbreviated month, full month, ISO date); the first format that reads
    the text decides, and the result is the ISO-8601 text of the date
    read, which denotes that same calendar date; when no format reads the
    text the result is [None]. In every case the call returns: it never
    raises. The question-date normaliser is the same function. *)
Theorem normalize_date_first_format_wins :
  formats = [fmt_abbr; fmt_full; fmt_iso]
  /\ (forall t : string,
        _normalize_question_date t = _normalize_date t
        /\ match strptime t fmt_abbr with
           | Ok dt => normalizes_to t dt
           | Raise _ =>
               match strptime t fmt_full with
               | Ok dt => normalizes_to t dt
               | Raise _ =>
                   match strptime t fmt_iso with
                   | Ok dt => normalizes_to t dt
                   | Raise _ => _normalize_date t = Ok None
                   end
               end
           end)
  /\ _normalize_date "Jan 5, 2024" = Ok (Some "2024-01-05T00:00:00")
  /\ _normalize_date "January 15, 2024" = Ok (Some "2024-01-15T00:00:00")
  /\ _normalize_date "2024-02-29" = Ok (Some "2024-02-29T00:00:00")
  /\ _normalize_date "yesterday" = Ok None.
Proof.
  split; [reflexivity|].
  split; [|repeat split; vm_compute; reflexivity].
  intros t. split; [reflexivity|].
  unfold normalizes_to, _normalize_date, formats. cbn [normalize_loop].
  destruct (strptime t fmt_abbr) as [dt|e] eqn:E1.
  { cbn. split; [reflexivity|]. apply iso_roundtrip, (strptime_valid _ _ _ E1). }
  rewrite (strptime_raises_value_error _ _ _ E1). cbn [bind try_except caught_value].
  destruct (strptime t fmt_full) as [dt|e2] eqn:E2.
  { cbn. split; [reflexivity|]. apply iso_roundtrip, (strptime_valid _ _ _ E2). }
  rewrite (strptime_raises_value_error _ _ _ E2). cbn [bind try_except caught_value].
  destruct (strptime t fmt_iso) as [dt|e3] eqn:E3.
  { cbn. split; [reflexivity|]. apply iso_roundtrip, (strptime_valid _ _ _ E3). }
  rewrite (strptime_raises_value_error _ _ _ E3). reflexivity.
Qed.

End DatesFacts.

(** ** Variant identifiers *)

Section VariantsFacts.
Import PyStr Py UtilsFormat JsonLd Variants.

Variable py_repr : value -> string.

Lemma variant_of_entry_id (idx : nat) (d : dict) (v : variant) :
  variant_of_entry py_repr idx (VDict d) = Ok (Some v) ->
  variant_id v = VStr (py_str py_repr (expected_id d idx)).
Proof.
  unfold variant_of_entry, expected_id, py_or.
  destruct (clean_text_value _) as [cleaned|e]; cbn [bind]; [|discriminate].
  intros [= <-]. cbn [variant_id].
  destruct (truthy (dict_get d "sku")) eqn:Hs; cbv beta iota.
  - rewrite Hs. reflexivity.
  - destruct (truthy (dict_get d "productID")); reflexivity.
Qed.

Lemma variant_of_entry_dict (idx : nat) (d : dict) (o : option variant) :
  variant_of_entry py_repr idx (VDict d) = Ok o -> exists v, o = Some v.
Proof.
  unfold variant_of_entry.
  destruct (clean_text_value _) as [cleaned|e]; cbn [bind]; [|discriminate].
  intros [= <-]. eauto.
Qed.

(** The loop keeps what it has collected and gives every dict entry the
    variant built at that entry's position in the list. *)
Lemma variants_loop_entries (entries : list value) :
  forall k acc vs,
    variants_loop py_repr k entries acc = Ok vs ->
    (forall a, In a acc -> In a vs)
    /\ forall i d, entries !! i = Some (VDict d) ->
         exists v, In v vs
                   /\ variant_of_entry py_repr (k + i) (VDict d) = Ok (Some v).
Proof.
  induction entries as [|e entries IH]; intros k acc vs H; cbn [variants_loop] in H.
  - injection H as <-. split; [tauto|]. intros i d Hi. destruct i; discriminate.
  - destruct (variant_of_entry py_repr k e) as [o|x] eqn:He; cbn [bind] in H;
      [|discriminate].
    destruct (IH _ _ _ H) as [Hacc Hent]. split.
    + intros a Ha. apply Hacc. destruct o; [apply in_or_app; left|]; exact Ha.
    + intros [|i] d Hi.
      * injection Hi as ->. rewrite Nat.add_0_r, He.
        destruct (variant_of_entry_dict _ _ _ He) as [v ->].
        exists v. split; [|reflexivity].
        apply Hacc, in_or_app. right. left. reflexivity.
      * destruct (Hent i d Hi) as (v & Hv & Hb).
        exists v. split; [exact Hv|].
        replace (k + S i)%nat with (S k + i)%nat by lia. exact Hb.
Qed.

Lemma variants_loop_ids (entries : list value) :
  forall k acc vs,
    variants_loop py_repr k entries acc = Ok vs ->
    Forall (fun v => exists s, variant_id v = VStr s) acc ->
    Forall (fun v => exists s, variant_id v = VStr s) vs.
Proof.
  induction entries as [|e entries IH]; intros k acc vs H Hacc;
    cbn [variants_loop] in H.
  - injection H as <-. exact Hacc.
  - destruct (variant_of_entry py_repr k e) as [o|x] eqn:He; cbn [bind] in H;
      [|discriminate].
    apply (IH _ _ _ H). destruct o as [v|]; [|exact Hacc].
    apply Forall_app. split; [exact Hacc|]. constructor; [|constructor].
    destruct e; try discriminate He.
    rewrite (variant_of_entry_id _ _ _ He). eauto.
Qed.

Lemma tiles_loop_ids (tiles : list tile) :
  forall k, Forall (fun v => exists s, variant_id v = VStr s) (tiles_loop k tiles).
Proof.
  induction tiles as [|t tiles IH]; intros k; cbn [tiles_loop]; constructor.
  - cbn. eauto.
  - apply IH.
Qed.

Lemma variant_of_offer_id (d : dict) (v : variant) :
  variant_of_offer py_repr (VDict d) = Ok v ->
  (truthy (dict_get d "sku") = false ->
   truthy (dict_get d "productID") = false -> variant_id v = VNone)
  /\ (forall s, nonempty s = true -> dict_get d "sku" = VStr s ->
        variant_id v = VStr s)
  /\ (forall s, nonempty s = true -> truthy (dict_get d "sku") = false ->
        dict_get d "productID" = VStr s -> variant_id v = VStr s).
Proof.
  cbn [variant_of_offer]. intros [= <-]. cbn [variant_id]. unfold py_or.
  split; [|split].
  - intros -> ->. reflexivity.
  - intros s Hs ->. cbn [truthy]. rewrite Hs. cbn [truthy]. rewrite Hs.
    cbn [py_str]. rewrite Hs. reflexivity.
  - intros s Hs -> ->. cbn [truthy]. rewrite Hs. cbn [py_str]. rewrite Hs.
    reflexivity.
Qed.

(** C9, amended. In [parse_product_variants] the entry at position [i]
    of the variant-or-offer list, when it is a dict, gets as [variant_id]
    the text of its [sku] if that is present and truthy, else of its
    [productID], else the placeholder [variant-i]; every variant the
    function returns, from the list or from the tile fallback, has a text
    as [variant_id], never [None], and a tile at position [i] gets
    [variant-i]. In [ProductParser._build_variants] an offer's
    [variant_id] is its non-empty [sku], else its non-empty [productID],
    and [None] when it has neither: no placeholder is made there. *)
Theorem variant_id_by_extractor :
  (forall (entries : list value) (vs : list variant) (i : nat) (d : dict),
      variants_loop py_repr 0 entries [] = Ok vs ->
      entries !! i = Some (VDict d) ->
      exists v, In v vs
                /\ variant_id v = VStr (py_str py_repr (expected_id d i)))
  /\ (forall (ld_blocks : list value) (tiles : list tile) (vs : list variant),
        parse_product_variants py_repr ld_blocks tiles = Ok vs ->
        Forall (fun v => exists s, variant_id v = VStr s) vs)
  /\ (forall (t : tile) (i : nat),
        variant_id (variant_of_tile i t) = VStr ("variant-" ++ str_of_nat i))
  /\ (forall (d : dict) (v : variant),
        variant_of_offer py_repr (VDict d) = Ok v ->
        (truthy (dict_get d "sku") = false ->
         truthy (dict_get d "productID") = false -> variant_id v = VNone)
        /\ (forall s, nonempty s = true -> dict_get d "sku" = VStr s ->
              variant_id v = VStr s)
        /\ (forall s, nonempty s = true -> truthy (dict_get d "sku") = false ->
              dict_get d "productID" = VStr s -> variant_id v = VStr s)).
Proof.
  split; [|split; [|split]].
  - intros entries vs i d H Hi.
    destruct (variants_loop_entries _ _ _ _ H) as [_ Hent].
    destruct (Hent i d Hi) as (v & Hv & Hb).
    exists v. split; [exact Hv|]. apply (variant_of_entry_id _ _ _ Hb).
  - intros ld_blocks tiles vs. unfold parse_product_variants.
    destruct (match _find_product_ld ld_blocks with Some _ => _ | None => _ end)
      as [variants|e] eqn:Hl; cbn [bind]; [|discriminate].
    assert (Hids : Forall (fun v => exists s, variant_id v = VStr s) variants).
    { destruct (_find_product_ld ld_blocks) as [product_ld|];
        [|injection Hl as <-; constructor].
      destruct (truthy (VDict product_ld)); [|injection Hl as <-; constructor].
      destruct (py_or _ _); try (injection Hl as <-; constructor).
      apply (variants_loop_ids _ _ _ _ Hl). constructor. }
    destruct variants; intros [= <-]; [apply tiles_loop_ids|exact Hids].
  - reflexivity.
  - exact variant_of_offer_id.
Qed.

End VariantsFacts.

(** C9, as stated, fails on [ProductParser._build_variants]: the second
    offer of [two_offers] has neither [sku] nor [productID], and its
    [variant_id] is [None], where [parse_product_variants] makes the
    placeholder [variant-1]. *)
Lemma build_variants_id_can_be_none :
  List.map Variants.variant_id
    (match Variants._build_variants Variants.repr_unused (Some Variants.two_offers) with
     | Py.Ok vs => vs
     | Py.Raise _ => []
     end)
  = [Py.VStr "123"; Py.VNone]
  /\ List.map Variants.variant_id
       (match Variants.parse_product_variants Variants.repr_unused
                [Py.VDict Variants.two_offers] [] with
        | Py.Ok vs => vs
        | Py.Raise _ => []
        end)
     = [Py.VStr "123"; Py.VStr "variant-1"].
Proof. split; vm_compute; reflexivity. Qed.

(** The theorem at the two offers: the second gets the placeholder of its
    position. *)
Lemma variant_id_by_extractor_witness :
  exists v,
    In v [ {| Variants.variant_id := Py.VStr "123";
              Variants.variant_description := Py.VStr "Red";
              Variants.is_variant_available := Py.VBool true;
              Variants.variant_name := Py.VStr "Red";
              Variants.variant_image := Py.VStr "" |};
           {| Variants.variant_id := Py.VStr "variant-1";
              Variants.variant_description := Py.VStr "Blue";
              Variants.is_variant_available := Py.VBool true;
              Variants.variant_name := Py.VStr "Blue";
              Variants.variant_image := Py.VStr "" |} ]
    /\ Variants.variant_id v = Py.VStr "variant-1".
Proof.
  exact (proj1 (variant_id_by_extractor Variants.repr_unused)
           [Py.VDict [("sku", Py.VStr "123"); ("name", Py.VStr "Red")];
            Py.VDict [("name", Py.VStr "Blue")]]
           _ 1%nat [("name", Py.VStr "Blue")] eq_refl eq_refl).
Defined.

(** ** Brand of the assembled product info *)

Section BrandFacts.
Import PyStr Py UtilsFormat Variants Info.

Variable py_repr : value -> string.

Lemma build_product_info_brand (page : info_page) (product_json : option dict)
    (source_url : string) :
  brand (_build_product_info py_repr page product_json source_url)
  = if truthy (metadata_brand product_json) then metadata_brand product_json
    else VStr (site_name_or_default page).
Proof.
  unfold _build_product_info, metadata_brand, site_name_or_default.
  cbn [brand].
  assert (Hfallback :
    py_or (value_of (extract_meta_tag page None (Some "og:site_name")))
          (VStr "Sephora")
    = VStr match extract_meta_tag page None (Some "og:site_name") with
           | Some s => if nonempty s then s else "Sephora"
           | None => "Sephora"
           end).
  { unfold py_or, value_of.
    destruct (extract_meta_tag page None (Some "og:site_name")) as [s|];
      cbn [truthy]; [destruct (nonempty s)|]; reflexivity. }
  rewrite Hfallback.
  destruct product_json as [d|]; [|reflexivity].
  destruct (truthy (VDict d)); [|reflexivity].
  destruct (truthy (match dict_get d "brand" with
                    | VDict b => dict_get b "name"
                    | VStr b => VStr b
                    | _ => VNone
                    end)); reflexivity.
Qed.

Lemma site_name_or_default_nonempty (page : info_page) :
  nonempty (site_name_or_default page) = true.
Proof.
  unfold site_name_or_default.
  destruct (extract_meta_tag page None (Some "og:site_name")) as [s|];
    [destruct (nonempty s) eqn:Hs; [exact Hs|]|]; reflexivity.
Qed.

(** C10, amended. The brand of the assembled info is never [None] and
    never empty: it is the brand the structured metadata gives when that
    is truthy, else the stripped content of the [og:site_name] meta tag
    when that is non-empty, else the constant Sephora. It is a non-empty
    text whenever the metadata gives no brand or gives a text. A page
    without any brand and a page branded Sephora get the same brand. *)
Theorem brand_never_empty :
  (forall (page : info_page) (product_json : option dict) (source_url : string),
      let b := brand (_build_product_info py_repr page product_json source_url) in
      truthy b = true
      /\ (truthy (metadata_brand product_json) = true ->
           b = metadata_brand product_json)
      /\ (truthy (metadata_brand product_json) = false ->
           b = VStr (site_name_or_default page))
      /\ (truthy (metadata_brand product_json) = false
           \/ (exists s, metadata_brand product_json = VStr s) ->
           exists s, b = VStr s /\ nonempty s = true))
  /\ brand (_build_product_info py_repr bare_page (Some brandless) "") = VStr "Sephora"
  /\ brand (_build_product_info py_repr bare_page (Some sephora_branded) "")
     = VStr "Sephora".
Proof.
  split; [|split; reflexivity].
  intros page product_json source_url b. subst b.
  rewrite build_product_info_brand.
  pose proof (site_name_or_default_nonempty page) as Hsite.
  destruct (truthy (metadata_brand product_json)) eqn:Hm.
  - repeat split; try exact Hm; try discriminate.
    intros [H|[s Hs]]; [discriminate|].
    exists s. split; [exact Hs|]. rewrite Hs in Hm. exact Hm.
  - repeat split; try exact Hsite; try discriminate.
    intros _. eauto.
Qed.

End BrandFacts.

(** C10, as stated, fails when the metadata's brand object carries a name
    that is not a text: the name is kept as it is, here the integer 5, so
    the brand is not a string. *)
Lemma brand_can_be_a_number :
  Info.brand (Info._build_product_info Variants.repr_unused Info.bare_page
                (Some Info.numeric_brand) "")
  = Py.VInt 5.
Proof. reflexivity. Qed.

(** The theorem at the page branded Sephora. *)
Lemma brand_never_empty_witness :
  exists s,
    Info.brand (Info._build_product_info Variants.repr_unused Info.bare_page
                  (Some Info.sephora_branded) "") = Py.VStr s
    /\ PyStr.nonempty s = true.
Proof.
  exact (proj2 (proj2 (proj2
           (proj1 (brand_never_empty Variants.repr_unused)
              Info.bare_page (Some Info.sephora_branded) "")))
           (or_intror (ex_intro _ "Sephora" eq_refl))).
Defined.

(** ** Orchestrator loops *)

Section MainLoopFacts.
Import PyStr Py Urls Orchestrator.

Variable fetch_html : nat -> string -> option string.
Variable parse_product : string -> string -> result dict.
Variable extract_similar_product_links : string -> string -> result (list string).

Lemma extends_same (similar : bool) (st st' : main_state) :
  all_products st' = all_products st ->
  product_urls st' = product_urls st ->
  extends similar st st'.
Proof.
  intros Ha Hu.
  split; [exists []|exists []; split; [|reflexivity]];
    rewrite app_nil_r; assumption.
Qed.

Lemma extends_refl (similar : bool) (st : main_state) : extends similar st st.
Proof. apply extends_same; reflexivity. Qed.

Lemma extends_trans (similar : bool) (a b c : main_state) :
  extends similar a b -> extends similar b c -> extends similar a c.
Proof.
  intros [[n1 H1] (m1 & G1 & F1)] [[n2 H2] (m2 & G2 & F2)]. split.
  - exists (n1 ++ n2)%list. rewrite H2, H1, app_assoc. reflexivity.
  - exists (m1 ++ m2)%list. split.
    + rewrite G2, G1, app_assoc. reflexivity.
    + intros Hs. rewrite (F1 Hs), (F2 Hs). reflexivity.
Qed.

Lemma try_parse_returns (st : main_state) (html url : string) :
  exists o, try_parse parse_product st html url = Ok o
            /\ (forall e, parse_product html url = Raise e -> o = None)
            /\ (forall st2, o = Some st2 ->
                  position st2 = position st
                  /\ product_urls st2 = product_urls st
                  /\ exists new, all_products st2 = (all_products st ++ new)%list).
Proof.
  unfold try_parse.
  destruct (parse_product html url) as [r|e]; cbn [bind try_except].
  - destruct (truthy (VDict r)); eexists;
      (split; [reflexivity|split; [discriminate|]]);
      intros st2 [= <-]; cbn; repeat split.
    + exists [r]. reflexivity.
    + exists []. rewrite app_nil_r. reflexivity.
  - exists None. repeat split; discriminate.
Qed.

Lemma try_similar_returns (similar : bool) (st : main_state) (html url : string) :
  exists st', try_similar extract_similar_product_links st html url = Ok st'
              /\ position st' = position st
              /\ all_products st' = all_products st
              /\ exists more, product_urls st' = (product_urls st ++ more)%list.
Proof.
  unfold try_similar.
  destruct (extract_similar_product_links html url) as [links|e];
    cbn [bind try_except caught_exception]; eexists;
    (split; [reflexivity|split; [reflexivity|split; [reflexivity|]]]).
  - cbn. eauto.
  - exists []. rewrite app_nil_r. reflexivity.
Qed.

(** One turn always ends normally and moves on to the next URL. *)
Lemma loop_body_returns (similar : bool) (st : main_state) (url : string) :
  exists st',
    loop_body fetch_html parse_product extract_similar_product_links
      similar st url = Ok st'
    /\ position st' = S (position st)
    /\ extends similar st st'.
Proof.
  unfold loop_body.
  destruct (decide (url ∈ processed_product_urls st)).
  { eexists. split; [reflexivity|].
    split; [reflexivity|apply extends_same; reflexivity]. }
  destruct (got_html (fetch_html (requests st) url)) as [html|].
  2:{ eexists. split; [reflexivity|].
      split; [reflexivity|apply extends_same; reflexivity]. }
  destruct (try_parse_returns (count_request st) html url) as (o & -> & _ & Ho).
  cbn [bind]. destruct o as [st2|].
  2:{ eexists. split; [reflexivity|].
      split; [reflexivity|apply extends_same; reflexivity]. }
  destruct (Ho st2 eq_refl) as (Hp & Hu & new & Ha).
  destruct similar.
  - destruct (try_similar_returns true st2 html url) as (st3 & -> & Hp3 & Ha3 & more & Hu3).
    cbn [bind]. eexists. split; [reflexivity|]. cbn [next_url position].
    split; [rewrite Hp3, Hp; reflexivity|]. split; cbn.
    + exists new. rewrite Ha3, Ha. reflexivity.
    + exists more. split; [rewrite Hu3, Hu; reflexivity|discriminate].
  - eexists. split; [reflexivity|]. cbn [next_url position].
    split; [rewrite Hp; reflexivity|]. split; cbn.
    + exists new. exact Ha.
    + exists []. split; [rewrite app_nil_r; exact Hu|reflexivity].
Qed.

(** A URL whose parsing raises is skipped: the turn ends normally, the
    request is counted, and nothing else changes. *)
Lemma loop_body_skips_raising (similar : bool) (st : main_state)
    (url html : string) (e : exn) :
  url ∉ processed_product_urls st ->
  got_html (fetch_html (requests st) url) = Some html ->
  parse_product html url = Raise e ->
  loop_body fetch_html parse_product extract_similar_product_links
    similar st url = Ok (next_url (count_request st)).
Proof.
  intros Hn Hh Hr. unfold loop_body.
  destruct (decide (url ∈ processed_product_urls st)); [contradiction|].
  rewrite Hh. unfold try_parse. rewrite Hr. reflexivity.
Qed.

(** The loop never raises, whatever the number of turns. *)
Lemma main_loop_returns (similar : bool) (fuel : nat) :
  forall st,
    exists r,
      main_loop fetch_html parse_product extract_similar_product_links
        similar fuel st = Ok r
      /\ forall st', r = Some st' -> extends similar st st'.
Proof.
  induction fuel as [|fuel IH]; intros st; cbn [main_loop].
  - exists None. split; [reflexivity|discriminate].
  - destruct (product_urls st !! position st) as [url|].
    + destruct (loop_body_returns similar st url) as (st1 & -> & _ & He).
      cbn [bind]. destruct (IH st1) as (r & -> & Hr).
      exists r. split; [reflexivity|].
      intros st' Hs. apply (extends_trans _ _ st1); [exact He|apply Hr, Hs].
    + exists (Some st). split; [reflexivity|].
      intros st' [= <-]. apply extends_refl.
Qed.

(** Without similar products the loop is done after one turn per URL. *)
Lemma main_loop_terminates (fuel : nat) :
  forall st,
    (length (product_urls st) - position st < fuel)%nat ->
    exists st',
      main_loop fetch_html parse_product extract_similar_product_links
        false fuel st = Ok (Some st').
Proof.
  induction fuel as [|fuel IH]; intros st Hf; [lia|]. cbn [main_loop].
  destruct (product_urls st !! position st) as [url|] eqn:Hu; [|eauto].
  apply lookup_lt_Some in Hu.
  destruct (loop_body_returns false st url) as (st1 & -> & Hp & _ & more & Hm & Hnil).
  cbn [bind]. apply IH. rewrite Hm, (Hnil eq_refl), app_nil_r, Hp. lia.
Qed.

(** C4, amended. In the loop of [main.py], whatever the network, the
    parser and the similar-products discoverer do, no turn raises: for
    every number of turns the loop returns, having only added to the
    records collected before. A URL whose parsing raises is skipped: its
    turn ends normally with the records, the set of processed URLs and the
    work-list as they were, and the loop goes on with the next URL. When
    similar products are not followed, the loop ends after at most one
    turn per URL. *)
Theorem main_loop_isolates_failures (similar : bool) :
  (forall (fuel : nat) (st : main_state),
      exists r,
        main_loop fetch_html parse_product extract_similar_product_links
          similar fuel st = Ok r
        /\ forall st', r = Some st' -> extends similar st st')
  /\ (forall (st : main_state) (url html : string) (e : exn),
        url ∉ processed_product_urls st ->
        got_html (fetch_html (requests st) url) = Some html ->
        parse_product html url = Raise e ->
        loop_body fetch_html parse_product extract_similar_product_links
          similar st url = Ok (next_url (count_request st)))
  /\ (forall (fuel : nat) (st : main_state),
        similar = false ->
        (length (product_urls st) - position st < fuel)%nat ->
        exists st',
          main_loop fetch_html parse_product extract_similar_product_links
            similar fuel st = Ok (Some st')).
Proof.
  split; [|split].
  - intros fuel st. apply main_loop_returns.
  - intros st url html e. apply loop_body_skips_raising.
  - intros fuel st -> Hf. apply main_loop_terminates, Hf.
Qed.

End MainLoopFacts.

(** C4, as stated, fails on the loop of [runner.py], which has no
    handler around [process_product]: on the sample run the statistics
    extractor raises [OverflowError] at the second URL, the exception
    leaves the loop, and the third URL is never processed. The loop of
    [main.py] skips that URL and keeps the records of the two others. *)
Lemma runner_loop_propagates :
  Orchestrator.sample_runner_run = Py.Raise Py.OverflowError
  /\ match Orchestrator.sample_main_run with
     | Py.Ok (Some st) =>
         List.map (fun r => Py.dict_get r "_source") (Orchestrator.all_products st)
     | _ => []
     end
     = [Py.VDict [("url", Py.VStr Orchestrator.url_a)];
        Py.VDict [("url", Py.VStr Orchestrator.url_c)]].
Proof. split; vm_compute; reflexivity. Qed.

(** The theorem at the URL of the sample whose parsing raises. *)
Lemma main_loop_isolates_failures_witness :
  Orchestrator.loop_body Orchestrator.sample_fetch
    Orchestrator.sample_parse_product (fun _ _ => Py.Ok []) false
    (Orchestrator.start [Orchestrator.url_b]) Orchestrator.url_b
  = Py.Ok (Orchestrator.next_url
             (Orchestrator.count_request
                (Orchestrator.start [Orchestrator.url_b]))).
Proof.
  apply (proj1 (proj2 (main_loop_isolates_failures Orchestrator.sample_fetch
                         Orchestrator.sample_parse_product
                         (fun _ _ => Py.Ok []) false))
           (Orchestrator.start [Orchestrator.url_b]) Orchestrator.url_b
           Orchestrator.url_b Py.OverflowError).
  - apply not_elem_of_empty.
  - reflexivity.
  - vm_compute. reflexivity.
Defined.

(** ** Binary64 arithmetic on whole numbers *)

Section FloatFacts.
Import Py.
Local Open Scope Z_scope.

Lemma iter_pos_nat {A} (f : A -> A) (p : positive) (x : A) :
  SpecFloat.iter_pos f p x = Nat.iter (Pos.to_nat p) f x.
Proof.
  revert x. induction p as [p IH|p IH|]; intros x; cbn [SpecFloat.iter_pos].
  - rewrite !IH.
    replace (Pos.to_nat p~1) with (Pos.to_nat p + (Pos.to_nat p + 1))%nat by lia.
    rewrite !Nat.iter_add. reflexivity.
  - rewrite !IH.
    replace (Pos.to_nat p~0) with (Pos.to_nat p + Pos.to_nat p)%nat by lia.
    rewrite Nat.iter_add. reflexivity.
  - reflexivity.
Qed.

Lemma pos_shift (k : positive) (n : nat) :
  exists q, Zpos k * 2 ^ Z.of_nat n = Zpos q.
Proof.
  assert (0 < Zpos k * 2 ^ Z.of_nat n) by (apply Z.mul_pos_pos; lia).
  destruct (Zpos k * 2 ^ Z.of_nat n) as [|q|q]; try lia. eauto.
Qed.

Lemma shr_nat_exact (n : nat) (k : positive) :
  Nat.iter n shr_1 (exact_record (Zpos k * 2 ^ Z.of_nat n)) = exact_record (Zpos k).
Proof.
  induction n as [|n IH].
  - cbn [Nat.iter]. rewrite Z.mul_1_r. reflexivity.
  - rewrite Nat.iter_succ_r.
    replace (Zpos k * 2 ^ Z.of_nat (S n)) with (2 * (Zpos k * 2 ^ Z.of_nat n))
      by (rewrite Nat2Z.inj_succ, Z.pow_succ_r by lia; lia).
    destruct (pos_shift k n) as [q Hq]. rewrite Hq in *.
    exact IH.
Qed.

Lemma digits_shift (n : nat) (k : positive) :
  Zdigits2 (Zpos k * 2 ^ Z.of_nat n) = Zpos (digits2_pos k) + Z.of_nat n.
Proof.
  revert k. induction n as [|n IH]; intros k.
  - rewrite Z.mul_1_r. cbn. lia.
  - replace (Zpos k * 2 ^ Z.of_nat (S n)) with (Zpos (k~0) * 2 ^ Z.of_nat n).
    + rewrite IH. cbn [digits2_pos]. lia.
    + rewrite Nat2Z.inj_succ, Z.pow_succ_r by lia. lia.
Qed.

Lemma digits_bound (k : positive) (n : Z) :
  0 <= n -> Zpos k < 2 ^ n -> Zpos (digits2_pos k) <= n.
Proof.
  revert n. induction k as [k IH|k IH|]; intros n Hn Hk; cbn [digits2_pos].
  - assert (n <> 0) by (intros ->; cbn in Hk; lia).
    specialize (IH (n - 1)).
    replace n with (Z.succ (n - 1)) in Hk by lia.
    rewrite Z.pow_succ_r in Hk by lia. lia.
  - assert (n <> 0) by (intros ->; cbn in Hk; lia).
    specialize (IH (n - 1)).
    replace n with (Z.succ (n - 1)) in Hk by lia.
    rewrite Z.pow_succ_r in Hk by lia. lia.
  - assert (n <> 0) by (intros ->; cbn in Hk; lia). lia.
Qed.

Lemma digits_lower (k : positive) : 2 ^ (Zpos (digits2_pos k) - 1) <= Zpos k.
Proof.
  induction k as [k IH|k IH|]; cbn [digits2_pos].
  - rewrite Pos2Z.inj_succ. replace (Z.succ (Zpos (digits2_pos k)) - 1) with (Z.succ (Zpos (digits2_pos k) - 1)) by lia.
    rewrite Z.pow_succ_r by lia. lia.
  - rewrite Pos2Z.inj_succ. replace (Z.succ (Zpos (digits2_pos k)) - 1) with (Z.succ (Zpos (digits2_pos k) - 1)) by lia.
    rewrite Z.pow_succ_r by lia. lia.
  - cbn. lia.
Qed.

Lemma mantissa_of_eq (k : positive) :
  Zpos (digits2_pos k) <= 53 ->
  Zpos (mantissa_of k) = Zpos k * 2 ^ (53 - Zpos (digits2_pos k)).
Proof.
  intros Hd. unfold mantissa_of. rewrite Z2Pos.id; [reflexivity|].
  apply Z.mul_pos_pos; [lia|]. apply Z.pow_pos_nonneg; lia.
Qed.

Lemma shr_exact (k : positive) (j e : Z) :
  Zpos (digits2_pos k) <= 53 ->
  53 - Zpos (digits2_pos k) <= j ->
  shr (exact_record (Zpos k * 2 ^ j)) e (Zpos (digits2_pos k) + j - 53)
  = (exact_record (Zpos (mantissa_of k)), e + (Zpos (digits2_pos k) + j - 53)).
Proof.
  intros Hd Hj. rewrite mantissa_of_eq by exact Hd.
  set (dk := Zpos (digits2_pos k)) in *.
  destruct (dk + j - 53) as [|p|p] eqn:Hn; try lia; cbn [shr].
  - replace j with (53 - dk) by lia. rewrite Z.add_0_r. reflexivity.
  - rewrite iter_pos_nat. f_equal.
    assert (Hq : exists q, Zpos k * 2 ^ (53 - dk) = Zpos q).
    { assert (0 < Zpos k * 2 ^ (53 - dk))
        by (apply Z.mul_pos_pos; [lia|apply Z.pow_pos_nonneg; lia]).
      destruct (Zpos k * 2 ^ (53 - dk)) as [|q|q]; try lia. eauto. }
    destruct Hq as [q Hq]. rewrite Hq.
    replace (Zpos k * 2 ^ j) with (Zpos q * 2 ^ Z.of_nat (Pos.to_nat p)).
    + apply shr_nat_exact.
    + rewrite <- Hq, positive_nat_Z, <- Z.mul_assoc, <- Z.pow_add_r by lia.
      f_equal. f_equal. lia.
Qed.

Lemma round_exact (k : positive) (j e : Z) :
  Zpos (digits2_pos k) <= 53 ->
  53 - Zpos (digits2_pos k) <= j ->
  -1074 <= e + j + Zpos (digits2_pos k) - 53 <= 971 ->
  binary_round_aux prec emax false (Zpos k * 2 ^ j) e loc_Exact
  = S754_finite false (mantissa_of k) (e + j + Zpos (digits2_pos k) - 53).
Proof.
  intros Hd Hj He. unfold binary_round_aux, shr_fexp, prec, emax.
  cbn [shr_record_of_loc]. fold (exact_record (Zpos k * 2 ^ j)).
  assert (Hdig : Zdigits2 (Zpos k * 2 ^ j) = Zpos (digits2_pos k) + j).
  { replace j with (Z.of_nat (Z.to_nat j)) at 1
      by (rewrite Z2Nat.id by lia; reflexivity).
    rewrite digits_shift, Z2Nat.id by lia. reflexivity. }
  rewrite Hdig.
  unfold fexp, emin.
  replace (Z.max (Zpos (digits2_pos k) + j + e - 53) (3 - 1024 - 53)
           - e) with (Zpos (digits2_pos k) + j - 53) by lia.
  rewrite shr_exact by assumption.
  cbn [shr_m loc_of_shr_record exact_record round_nearest_even].
  fold (exact_record (Zpos (mantissa_of k))).
  assert (Hdm : Zdigits2 (Zpos (mantissa_of k)) = 53).
  { rewrite mantissa_of_eq by exact Hd.
    replace (53 - Zpos (digits2_pos k))
      with (Z.of_nat (Z.to_nat (53 - Zpos (digits2_pos k))))
      by (rewrite Z2Nat.id by lia; reflexivity).
    rewrite digits_shift, Z2Nat.id by lia. lia. }
  rewrite Hdm.
  replace (Z.max (53 + (e + (Zpos (digits2_pos k) + j - 53)) - 53) (3 - 1024 - 53)
           - (e + (Zpos (digits2_pos k) + j - 53))) with 0 by lia.
  cbn [shr shr_m exact_record].
  replace (e + (Zpos (digits2_pos k) + j - 53) <=? 1024 - 53) with true
    by (symmetry; apply Z.leb_le; lia).
  f_equal. lia.
Qed.

Lemma digits_upper (k : positive) : Zpos k < 2 ^ Zpos (digits2_pos k).
Proof.
  induction k as [k IH|k IH|]; cbn [digits2_pos];
    rewrite ?Pos2Z.inj_succ, ?Z.pow_succ_r by lia; lia.
Qed.

Lemma float_of_ratio_pos (k : positive) :
  Zpos (digits2_pos k) <= 53 ->
  float_of_ratio false (Zpos k) 1 = float_of_pos k.
Proof.
  intros Hd. unfold float_of_ratio, SFdiv_core_binary, prec, emax.
  cbn [Zdigits2 digits2_pos]. unfold fexp, emin.
  replace (Z.min (Z.max (Zpos (digits2_pos k) + 0 - (1 + 0) - 53) (3 - 1024 - 53))
                 (0 - 0)) with (Zpos (digits2_pos k) - 54) by lia.
  destruct (0 - 0 - (Zpos (digits2_pos k) - 54)) as [|s|s] eqn:Hs; try lia.
  rewrite Z.shiftl_mul_pow2 by lia.
  pose proof (Z_div_mod (Zpos k * 2 ^ Zpos s) 1 eq_refl) as Hdiv.
  destruct (Z.div_eucl (Zpos k * 2 ^ Zpos s) 1) as [q r].
  assert (r = 0) by lia. assert (q = Zpos k * 2 ^ Zpos s) by lia. subst q r.
  cbn [new_location Z.even new_location_odd Z.eqb].
  change (binary_round_aux 53 1024) with (binary_round_aux prec emax).
  rewrite round_exact by lia.
  unfold float_of_pos. f_equal. lia.
Qed.

Lemma float_of_pos_mul (a b : positive) :
  Zpos (digits2_pos a) <= 53 -> Zpos (digits2_pos b) <= 53 ->
  Zpos (digits2_pos (a * b)) <= 53 ->
  fmul (float_of_pos a) (float_of_pos b) = float_of_pos (a * b).
Proof.
  intros Ha Hb Hab. unfold fmul, float_of_pos. cbn [SFmul xorb].
  pose proof (digits_lower a) as La. pose proof (digits_lower b) as Lb.
  pose proof (digits_upper (a * b)) as Uab.
  assert (Hsum : Zpos (digits2_pos a) + Zpos (digits2_pos b) - 2
                 < Zpos (digits2_pos (a * b))).
  { apply (Z.pow_lt_mono_r_iff 2); [lia|lia|].
    replace (Zpos (digits2_pos a) + Zpos (digits2_pos b) - 2)
      with ((Zpos (digits2_pos a) - 1) + (Zpos (digits2_pos b) - 1)) by lia.
    rewrite Z.pow_add_r by lia. rewrite Pos2Z.inj_mul in Uab.
    assert (0 < 2 ^ (Zpos (digits2_pos a) - 1)) by (apply Z.pow_pos_nonneg; lia).
    assert (0 < 2 ^ (Zpos (digits2_pos b) - 1)) by (apply Z.pow_pos_nonneg; lia).
    apply Z.le_lt_trans with (Zpos a * Zpos b); [|exact Uab].
    apply Z.mul_le_mono_nonneg; lia. }
  replace (Zpos (mantissa_of a * mantissa_of b))
    with (Zpos (a * b)
          * 2 ^ (106 - Zpos (digits2_pos a) - Zpos (digits2_pos b))).
  - change (binary_round_aux 53 1024) with (binary_round_aux prec emax).
    rewrite round_exact by lia. f_equal. lia.
  - rewrite !Pos2Z.inj_mul, !mantissa_of_eq by assumption.
    replace (106 - Zpos (digits2_pos a) - Zpos (digits2_pos b))
      with ((53 - Zpos (digits2_pos a)) + (53 - Zpos (digits2_pos b))) by lia.
    rewrite Z.pow_add_r by lia. ring.
Qed.

Lemma py_round_float_of_pos (k : positive) :
  Zpos (digits2_pos k) <= 53 -> py_round (float_of_pos k) = Ok (Zpos k).
Proof.
  intros Hd. unfold py_round, float_of_pos, round_half_even.
  rewrite mantissa_of_eq by exact Hd. f_equal.
  destruct (0 <=? Zpos (digits2_pos k) - 53) eqn:He.
  - apply Z.leb_le in He.
    replace (Zpos (digits2_pos k)) with 53 by lia. cbn. lia.
  - apply Z.leb_gt in He.
    replace (- (Zpos (digits2_pos k) - 53)) with (53 - Zpos (digits2_pos k)) by lia.
    assert (Hp : 0 < 2 ^ (53 - Zpos (digits2_pos k)))
      by (apply Z.pow_pos_nonneg; lia).
    rewrite Z.mod_mul, Z.div_mul by lia.
    cbn [Z.mul]. destruct (2 ^ (53 - Zpos (digits2_pos k))); try lia. reflexivity.
Qed.

End FloatFacts.

(** ** Popularity counts *)

Section NumberFacts.
Import PyStr Py UtilsFormat.
Local Open Scope Z_scope.

Ltac by_bits c :=
  destruct c as [[] [] [] [] [] [] [] []]; try discriminate; try reflexivity.

Lemma number_char_not_space (c : ascii) :
  is_number_char c = true -> is_space c = false.
Proof. by_bits c. Qed.

Lemma suffix_char_not_space (c : ascii) :
  is_suffix_char c = true -> is_space c = false.
Proof. by_bits c. Qed.

Lemma suffix_char_not_number (c : ascii) :
  is_suffix_char c = true -> is_number_char c = false.
Proof. by_bits c. Qed.

Lemma space_not_number (c : ascii) :
  is_space c = true -> is_number_char c = false.
Proof. by_bits c. Qed.

Lemma space_not_suffix (c : ascii) :
  is_space c = true -> is_suffix_char c = false.
Proof. by_bits c. Qed.

Lemma chars_text (l : list ascii) : chars (text l) = l.
Proof. apply list_ascii_of_string_of_list_ascii. Qed.

Lemma lstrip_spaces (ws rest : list ascii) :
  all_of is_space ws -> lstrip_chars (ws ++ rest) = lstrip_chars rest.
Proof.
  induction 1 as [|c ws Hc _ IH]; [reflexivity|].
  cbn [app lstrip_chars]. rewrite Hc. exact IH.
Qed.

Lemma lstrip_only_spaces (ws : list ascii) :
  all_of is_space ws -> lstrip_chars ws = [].
Proof.
  intros H. rewrite <- (app_nil_r ws), lstrip_spaces by exact H. reflexivity.
Qed.

Lemma span_all (p : ascii -> bool) (num rest : list ascii) :
  all_of p num ->
  match rest with [] => True | c :: _ => p c = false end ->
  span p (num ++ rest) = (num, rest).
Proof.
  intros Hn Hr. induction Hn as [|c num Hc _ IH]; cbn [app span].
  - destruct rest as [|c rest]; [reflexivity|]. cbn [span]. rewrite Hr. reflexivity.
  - rewrite Hc, IH. reflexivity.
Qed.

Lemma head_outside_number (ws2 : list ascii) (suffix : option ascii)
    (ws3 : list ascii) :
  all_of is_space ws2 -> all_of is_space ws3 ->
  (forall c, suffix = Some c -> is_suffix_char c = true) ->
  match (ws2 ++ suffix_chars suffix ++ ws3)%list with
  | [] => True
  | c :: _ => is_number_char c = false
  end.
Proof.
  intros H2 H3 Hs. destruct H2 as [|c ws2 Hc _]; cbn [app].
  - destruct suffix as [c|]; cbn [suffix_chars app].
    + apply suffix_char_not_number, Hs. reflexivity.
    + destruct H3 as [|c ws3 Hc _]; [exact I|]. apply space_not_number, Hc.
  - apply space_not_number, Hc.
Qed.

Lemma match_popularity_text (ws1 num ws2 : list ascii) (suffix : option ascii)
    (ws3 : list ascii) :
  all_of is_space ws1 -> all_of is_space ws2 -> all_of is_space ws3 ->
  num <> [] -> all_of is_number_char num ->
  (forall c, suffix = Some c -> is_suffix_char c = true) ->
  number_with_suffix_match (popularity_text ws1 num ws2 suffix ws3)
  = Some (text num, text (suffix_chars suffix)).
Proof.
  intros H1 H2 H3 Hne Hnum Hs.
  unfold number_with_suffix_match, popularity_text.
  rewrite chars_text, lstrip_spaces by exact H1.
  assert (Hl : lstrip_chars (num ++ ws2 ++ suffix_chars suffix ++ ws3)
               = (num ++ ws2 ++ suffix_chars suffix ++ ws3)%list).
  { destruct Hnum as [|c num Hc _]; [congruence|].
    cbn [app lstrip_chars]. rewrite (number_char_not_space _ Hc). reflexivity. }
  rewrite Hl, span_all by (try exact Hnum; apply head_outside_number; assumption).
  destruct num as [|c0 num0]; [congruence|].
  rewrite lstrip_spaces by exact H2.
  destruct suffix as [c|]; cbn [suffix_chars app].
  - cbn [lstrip_chars]. rewrite (suffix_char_not_space _ (Hs c eq_refl)).
    rewrite (Hs c eq_refl), lstrip_only_spaces by exact H3. reflexivity.
  - rewrite lstrip_only_spaces by exact H3. reflexivity.
Qed.

Lemma suffix_char_cases (c : ascii) :
  is_suffix_char c = true ->
  c = "k"%char \/ c = "K"%char \/ c = "m"%char \/ c = "M"%char.
Proof. by_bits c; intros _; tauto. Qed.

Lemma nonempty_text (l : list ascii) : l <> [] -> nonempty (text l) = true.
Proof. destruct l; [congruence|reflexivity]. Qed.

Lemma parse_popularity_text (ws1 num ws2 : list ascii) (suffix : option ascii)
    (ws3 : list ascii) (default : Z) :
  all_of is_space ws1 -> all_of is_space ws2 -> all_of is_space ws3 ->
  num <> [] -> all_of is_number_char num ->
  (forall c, suffix = Some c -> is_suffix_char c = true) ->
  parse_number_with_suffix (Some (popularity_text ws1 num ws2 suffix ws3)) default
  = match float_of_text (remove_commas (text num)) with
    | Some value => py_round (scale suffix value)
    | None => Ok default
    end.
Proof.
  intros H1 H2 H3 Hne Hnum Hs. unfold parse_number_with_suffix.
  rewrite match_popularity_text by assumption.
  assert (Hn : nonempty (popularity_text ws1 num ws2 suffix ws3) = true).
  { apply nonempty_text. destruct num; [congruence|].
    destruct ws1; discriminate. }
  rewrite Hn. cbn [negb].
  destruct (float_of_text (remove_commas (text num))) as [value|]; [|reflexivity].
  destruct suffix as [c|]; [|reflexivity].
  destruct (suffix_char_cases c (Hs c eq_refl)) as [-> | [-> | [-> | ->]]]; reflexivity.
Qed.

Lemma digit_not_c_space (c : ascii) : is_digit c = true -> is_c_space c = false.
Proof. by_bits c. Qed.

Lemma digit_is_number_char (c : ascii) :
  is_digit c || is_comma c = true -> is_number_char c = true.
Proof. by_bits c. Qed.

Lemma digit_no_sign (c : ascii) (l : list ascii) :
  is_digit c = true -> read_sign (c :: l) = (false, c :: l).
Proof. by_bits c. Qed.

Lemma digit_no_word (c : ascii) (l : list ascii) :
  is_digit c = true ->
  String.eqb (text (List.map lower_char (c :: l))) "inf" = false
  /\ String.eqb (text (List.map lower_char (c :: l))) "infinity" = false
  /\ String.eqb (text (List.map lower_char (c :: l))) "nan" = false.
Proof. by_bits c; intros _; repeat split; reflexivity. Qed.

Lemma drop_while_head (p : ascii -> bool) (c : ascii) (l : list ascii) :
  p c = false -> drop_while p (c :: l) = c :: l.
Proof. intros H. cbn [drop_while]. rewrite H. reflexivity. Qed.

Lemma c_strip_digits (ds : list ascii) :
  all_of is_digit ds -> c_strip_chars ds = ds.
Proof.
  intros H. unfold c_strip_chars.
  assert (Hd : forall l, all_of is_digit l -> drop_while is_c_space l = l).
  { intros l [|c l' Hc _]; [reflexivity|].
    apply drop_while_head, digit_not_c_space, Hc. }
  rewrite (Hd _ H), (Hd (rev ds)), rev_involutive; [reflexivity|].
  apply Forall_rev, H.
Qed.

Lemma read_digits_all (ds : list ascii) :
  all_of is_digit ds ->
  forall n cnt,
    read_digits ds n cnt
    = (fold_left (fun n c => 10 * n + digit_val c) ds n,
       cnt + Z.of_nat (length ds), []).
Proof.
  induction 1 as [|c ds Hc _ IH]; intros n cnt.
  - cbn. rewrite Z.add_0_r. reflexivity.
  - cbn [read_digits fold_left length]. rewrite Hc, IH. f_equal. f_equal. lia.
Qed.

Lemma float_of_text_digits (ds : list ascii) :
  ds <> [] -> all_of is_digit ds ->
  float_of_text (text ds) = Some (float_of_ratio false (digits_value ds) 1).
Proof.
  intros Hne Hd. unfold float_of_text.
  rewrite chars_text, c_strip_digits by exact Hd.
  destruct ds as [|c ds]; [congruence|].
  assert (Hc : is_digit c = true) by (inversion Hd; assumption).
  rewrite (digit_no_sign c ds Hc).
  destruct (digit_no_word c ds Hc) as (-> & -> & ->). cbn [orb].
  rewrite (read_digits_all (c :: ds) Hd).
  replace (0 + Z.of_nat (length (c :: ds)) + 0 =? 0) with false
    by (symmetry; apply Z.eqb_neq; cbn [length]; lia).
  unfold float_of_decimal. cbn [Z.opp Z.leb Z.compare Z.pow].
  rewrite Z.mul_1_r. reflexivity.
Qed.

Lemma digit_val_nonneg (c : ascii) : is_digit c = true -> 0 <= digit_val c.
Proof.
  unfold is_digit, digit_val. intros H.
  apply andb_true_iff in H as [H _]. apply Nat.leb_le in H. lia.
Qed.

Lemma fold_digits_nonneg (ds : list ascii) :
  all_of is_digit ds ->
  forall n, 0 <= n -> 0 <= fold_left (fun n c => 10 * n + digit_val c) ds n.
Proof.
  induction 1 as [|c ds Hc _ IH]; intros n Hn; cbn [fold_left]; [exact Hn|].
  apply IH. pose proof (digit_val_nonneg c Hc). lia.
Qed.

Lemma filter_commas_digits (num : list ascii) :
  all_of (fun c => is_digit c || is_comma c) num ->
  all_of is_digit (List.filter (fun c => negb (is_comma c)) num)
  /\ all_of is_number_char num.
Proof.
  induction 1 as [|c num Hc _ [IH1 IH2]]; [split; constructor|].
  split.
  - cbn [List.filter]. destruct (is_comma c) eqn:Hk; cbn [negb]; [exact IH1|].
    constructor; [|exact IH1]. rewrite orb_false_r in Hc. exact Hc.
  - constructor; [apply digit_is_number_char, Hc|exact IH2].
Qed.

Lemma f1000_exact : f1000 = float_of_pos 1000.
Proof. reflexivity. Qed.

Lemma f1000000_exact : f1000000 = float_of_pos 1000000.
Proof. reflexivity. Qed.

Lemma parse_whole_number (ws1 num ws2 : list ascii) (suffix : option ascii)
    (ws3 : list ascii) (default : Z) :
  let ds := List.filter (fun c => negb (is_comma c)) num in
  all_of is_space ws1 -> all_of is_space ws2 -> all_of is_space ws3 ->
  all_of (fun c => is_digit c || is_comma c) num -> ds <> [] ->
  (forall c, suffix = Some c -> is_suffix_char c = true) ->
  digits_value ds * multiplier suffix < 2 ^ 53 ->
  parse_number_with_suffix (Some (popularity_text ws1 num ws2 suffix ws3)) default
  = Ok (digits_value ds * multiplier suffix).
Proof.
  intros ds H1 H2 H3 Hnum Hne Hs Hb.
  destruct (filter_commas_digits num Hnum) as [Hd Hn]. fold ds in Hd.
  assert (Hnum_ne : num <> []) by (intros ->; apply Hne; reflexivity).
  rewrite parse_popularity_text by assumption.
  assert (Hr : remove_commas (text num) = text ds).
  { unfold remove_commas. rewrite chars_text. reflexivity. }
  rewrite Hr, float_of_text_digits by assumption.
  pose proof (fold_digits_nonneg ds Hd 0 (Z.le_refl 0)) as Hpos.
  fold (digits_value ds) in Hpos.
  assert (Hm : 1 <= multiplier suffix).
  { destruct suffix as [c|]; cbn; [destruct (_ || _)|]; lia. }
  destruct (digits_value ds) as [|k|k] eqn:Hv; [| |lia].
  - destruct suffix as [c|]; [|reflexivity].
    cbn [scale]. destruct (_ || _); reflexivity.
  - assert (Hk : Zpos (digits2_pos k) <= 53)
      by (apply digits_bound; [lia|nia]).
    rewrite float_of_ratio_pos by exact Hk.
    destruct suffix as [c|]; cbn [scale multiplier] in *.
    + destruct (Ascii.eqb c "k" || Ascii.eqb c "K").
      * rewrite f1000_exact, float_of_pos_mul, py_round_float_of_pos;
          try reflexivity; try (apply digits_bound; [lia|]; lia);
          cbn; lia.
      * rewrite f1000000_exact, float_of_pos_mul, py_round_float_of_pos;
          try reflexivity; try (apply digits_bound; [lia|]; lia);
          cbn; lia.
    + rewrite py_round_float_of_pos by exact Hk. f_equal. lia.
Qed.

(** C5, amended. For a text made of space, a number of digits, dots and
    commas, space, an optional suffix letter k, K, m or M, and space, the
    parser strips the commas, reads the number as the nearest double,
    multiplies it in double arithmetic by 1000 for k and by 1,000,000 for
    m, and returns the product rounded to the nearest integer, ties to
    even; a number that is no numeral gives the default. When the number
    is whole and its product with the multiplier is below 2^53, the result
    is that product exactly. In particular 12.3k gives 12300, 2M gives
    2000000 and 450 gives 450. *)
Theorem parse_number_with_suffix_scales (ws1 num ws2 : list ascii)
    (suffix : option ascii) (ws3 : list ascii) (default : Z) :
  all_of is_space ws1 -> all_of is_space ws2 -> all_of is_space ws3 ->
  num <> [] -> all_of is_number_char num ->
  (forall c, suffix = Some c -> is_suffix_char c = true) ->
  parse_number_with_suffix (Some (popularity_text ws1 num ws2 suffix ws3)) default
  = match float_of_text (remove_commas (text num)) with
    | Some value => py_round (scale suffix value)
    | None => Ok default
    end
  /\ (let ds := List.filter (fun c => negb (is_comma c)) num in
      all_of (fun c => is_digit c || is_comma c) num -> ds <> [] ->
      digits_value ds * multiplier suffix < 2 ^ 53 ->
      parse_number_with_suffix
        (Some (popularity_text ws1 num ws2 suffix ws3)) default
      = Ok (digits_value ds * multiplier suffix))
  /\ parse_number_with_suffix (Some "12.3k") default = Ok 12300
  /\ parse_number_with_suffix (Some "2M") default = Ok 2000000
  /\ parse_number_with_suffix (Some "450") default = Ok 450.
Proof.
  intros H1 H2 H3 Hne Hnum Hs.
  split; [apply parse_popularity_text; assumption|].
  split; [|repeat split; vm_compute; reflexivity].
  intros ds Hd Hds Hb. apply parse_whole_number; assumption.
Qed.

End NumberFacts.

(** C5, as stated, fails where double precision ends: the text
    9007199254740993 is a whole number with no suffix, so the claimed
    result is the number itself, but the nearest double is one less and
    that is what the parser returns. A number with many decimals rounds
    the other way for the same reason, and a number too large for a
    double makes [round] raise [OverflowError]. *)
Lemma parse_number_with_suffix_inexact :
  UtilsFormat.parse_number_with_suffix (Some "9007199254740993") 0
  = Py.Ok 9007199254740992%Z
  /\ (UtilsFormat.digits_value (PyStr.chars "9007199254740993")
      * UtilsFormat.multiplier None = 9007199254740993)%Z
  /\ UtilsFormat.parse_number_with_suffix (Some "1.4999999999999999999") 0
     = Py.Ok 2%Z
  /\ UtilsFormat.parse_number_with_suffix
       (Some (PyStr.text ("1"%char :: repeat "0"%char 400))) 0
     = Py.Raise Py.OverflowError.
Proof. repeat split; vm_compute; reflexivity. Qed.

(** The theorem at a text with separators, spaces and an upper-case
    suffix. *)
Lemma parse_number_with_suffix_scales_witness :
  UtilsFormat.parse_number_with_suffix (Some " 1,234 K ") 7 = Py.Ok 1234000%Z.
Proof.
  refine (proj1 (proj2
            (parse_number_with_suffix_scales
               [" "%char] (PyStr.chars "1,234") [" "%char] (Some "K"%char)
               [" "%char] 7 _ _ _ _ _ _)) _ _ _).
  - repeat constructor.
  - repeat constructor.
  - repeat constructor.
  - discriminate.
  - repeat constructor.
  - intros c [= <-]. reflexivity.
  - repeat constructor.
  - discriminate.
  - vm_compute. reflexivity.
Defined.

(** ** Trimming and whitespace normalisation *)

Section TrimFacts.
Import PyStr Py UtilsFormat Urls TextShapes.

Lemma lstrip_starts_clean (l : list ascii) : starts_clean (lstrip_chars l).
Proof.
  induction l as [|c l IH]; cbn [lstrip_chars]; [exact I|].
  destruct (is_space c) eqn:Hc; [exact IH|exact Hc].
Qed.

Lemma lstrip_clean (l : list ascii) : starts_clean l -> lstrip_chars l = l.
Proof.
  destruct l as [|c l]; [reflexivity|]. cbn. intros ->. reflexivity.
Qed.

Lemma lstrip_suffix (l : list ascii) :
  exists ws, l = (ws ++ lstrip_chars l)%list.
Proof.
  induction l as [|c l [ws IH]]; [exists []; reflexivity|].
  cbn [lstrip_chars]. destruct (is_space c).
  - exists (c :: ws). cbn. f_equal. exact IH.
  - exists []. reflexivity.
Qed.

Lemma rstrip_prefix_clean (l : list ascii) :
  starts_clean l ->
  starts_clean (rstrip_chars l) /\ starts_clean (rev (rstrip_chars l)).
Proof.
  intros Hl. unfold rstrip_chars. rewrite rev_involutive.
  split; [|apply lstrip_starts_clean].
  destruct (lstrip_suffix (rev l)) as [ws Hws].
  apply (f_equal (@rev ascii)) in Hws. rewrite rev_involutive, rev_app_distr in Hws.
  destruct (rev (lstrip_chars (rev l))) as [|c t]; [exact I|].
  rewrite Hws in Hl. exact Hl.
Qed.

Lemma strip_chars_fixed (l : list ascii) :
  starts_clean l -> starts_clean (rev l) ->
  rstrip_chars (lstrip_chars l) = l.
Proof.
  intros H1 H2. rewrite (lstrip_clean l H1). unfold rstrip_chars.
  rewrite (lstrip_clean _ H2). apply rev_involutive.
Qed.

Lemma text_chars (s : string) : text (chars s) = s.
Proof. apply string_of_list_ascii_of_string. Qed.

Lemma strip_idempotent (s : string) : strip (strip s) = strip s.
Proof.
  unfold strip. rewrite chars_text. f_equal.
  destruct (rstrip_prefix_clean (lstrip_chars (chars s)) (lstrip_starts_clean _))
    as [H1 H2].
  apply strip_chars_fixed; assumption.
Qed.

Lemma first_occurrences_nodup_id (l : list string) :
  List.NoDup l -> first_occurrences l = l.
Proof.
  induction 1 as [|x l Hx _ IH]; cbn [first_occurrences]; [reflexivity|].
  rewrite IH. f_equal.
  rewrite forallb_filter_id; [reflexivity|].
  apply forallb_forall. intros y Hy.
  destruct (String.eqb_spec x y) as [->|]; [contradiction|reflexivity].
Qed.

Lemma filter_length_le {A} (p : A -> bool) (l : list A) :
  (length (List.filter p l) <= length l)%nat.
Proof.
  induction l as [|x l IH]; cbn; [lia|]. destruct (p x); cbn; lia.
Qed.

Lemma first_occurrences_length (l : list string) :
  (length (first_occurrences l) <= length l)%nat.
Proof.
  induction l as [|x l IH]; cbn [first_occurrences length]; [lia|].
  pose proof (filter_length_le (fun y => negb (String.eqb x y)) (first_occurrences l)).
  lia.
Qed.

Lemma dedupe_urls_eq_spec (urls : list string) : dedupe_urls urls = dedupe_spec urls.
Proof.
  unfold dedupe_urls. rewrite dedupe_loop_spec. cbn [app].
  apply filter_unseen_empty.
Qed.

Lemma map_id_on {A} (f : A -> A) (l : list A) :
  (forall x, In x l -> f x = x) -> List.map f l = l.
Proof.
  induction l as [|x l IH]; intros H; cbn; [reflexivity|].
  rewrite (H x (or_introl eq_refl)), IH; [reflexivity|].
  intros y Hy. apply H. right. exact Hy.
Qed.

Lemma dedupe_spec_entries (urls : list string) (u : string) :
  In u (dedupe_spec urls) -> nonempty u = true /\ strip u = u.
Proof.
  unfold dedupe_spec, trimmed_nonempty. rewrite first_occurrences_In, filter_In, in_map_iff.
  intros [(v & <- & _) Hne]. split; [exact Hne|apply strip_idempotent].
Qed.

(** X1. Deduplicating twice changes nothing; every entry kept is non-empty
    and already trimmed; and nothing is added. *)
Theorem dedupe_urls_idempotent (urls : list string) :
  dedupe_urls (dedupe_urls urls) = dedupe_urls urls
  /\ (forall u, In u (dedupe_urls urls) -> nonempty u = true /\ strip u = u)
  /\ (length (dedupe_urls urls) <= length urls)%nat.
Proof.
  rewrite !dedupe_urls_eq_spec. split; [|split].
  - unfold dedupe_spec at 1, trimmed_nonempty.
    rewrite map_id_on by (intros x Hx; apply (dedupe_spec_entries urls x Hx)).
    rewrite forallb_filter_id.
    + apply first_occurrences_nodup_id, first_occurrences_NoDup.
    + apply forallb_forall. intros x Hx. apply (dedupe_spec_entries urls x Hx).
  - apply dedupe_spec_entries.
  - unfold dedupe_spec, trimmed_nonempty.
    pose proof (first_occurrences_length (List.filter nonempty (List.map strip urls))).
    pose proof (filter_length_le nonempty (List.map strip urls)).
    rewrite length_map in *. lia.
Qed.

Lemma split_ws_words (l : list ascii) :
  forall cur, Forall (fun c => is_space c = false) cur ->
              Forall is_word (split_ws l cur).
Proof.
  induction l as [|c l IH]; intros cur Hcur; cbn [split_ws].
  - destruct cur as [|a cur']; [constructor|].
    constructor; [|constructor]. split.
    + intros H. apply (f_equal (@length ascii)) in H.
      rewrite length_rev in H. discriminate.
    + apply Forall_rev, Hcur.
  - destruct (is_space c) eqn:Hc.
    + destruct cur as [|a cur']; [apply IH; constructor|].
      constructor; [|apply IH; constructor]. split.
      * intros H. apply (f_equal (@length ascii)) in H.
        rewrite length_rev in H. discriminate.
      * apply Forall_rev, Hcur.
    + apply IH. constructor; assumption.
Qed.

Lemma split_ws_word (w rest cur : list ascii) :
  Forall (fun c => is_space c = false) w ->
  split_ws (w ++ rest) cur = split_ws rest (rev w ++ cur).
Proof.
  revert cur. induction w as [|c w IH]; intros cur Hw; [reflexivity|].
  inversion Hw as [|? ? Hc Hw']; subst. cbn [app split_ws]. rewrite Hc, IH by exact Hw'.
  cbn [rev]. rewrite <- app_assoc. reflexivity.
Qed.

Lemma split_join (ws : list (list ascii)) :
  Forall is_word ws -> split_ws (join_space ws) [] = ws.
Proof.
  induction 1 as [|w ws [Hne Hw] Hws IH]; [reflexivity|].
  destruct ws as [|w' ws'].
  - cbn [join_space]. rewrite <- (app_nil_r w) at 1.
    rewrite split_ws_word by exact Hw. cbn [split_ws]. rewrite app_nil_r.
    destruct (rev w) eqn:Hr.
    + apply (f_equal (@rev ascii)) in Hr. rewrite rev_involutive in Hr.
      cbn in Hr. contradiction.
    + rewrite <- Hr, rev_involutive. reflexivity.
  - cbn [join_space]. rewrite split_ws_word by exact Hw.
    cbn [split_ws]. change (is_space " ") with true. cbn iota.
    rewrite app_nil_r.
    destruct (rev w) eqn:Hr.
    + apply (f_equal (@rev ascii)) in Hr. rewrite rev_involutive in Hr.
      cbn in Hr. contradiction.
    + rewrite <- Hr, rev_involutive. f_equal. exact IH.
Qed.

Lemma starts_clean_app (a b : list ascii) :
  a <> [] -> starts_clean a -> starts_clean (a ++ b).
Proof. destruct a; [congruence|]. cbn. tauto. Qed.

Lemma word_clean (w : list ascii) :
  is_word w -> starts_clean w /\ starts_clean (rev w) /\ rev w <> [].
Proof.
  intros [Hne Hw]. split; [|split].
  - destruct Hw; [exact I|assumption].
  - apply Forall_rev in Hw. destruct Hw; [exact I|assumption].
  - intros H. apply (f_equal (@rev ascii)) in H. rewrite rev_involutive in H.
    contradiction.
Qed.

Lemma join_space_nonempty (w : list ascii) (ws : list (list ascii)) :
  is_word w -> join_space (w :: ws) <> [].
Proof.
  intros [Hne _]. cbn [join_space]. destruct ws; [exact Hne|].
  destruct w; [contradiction|discriminate].
Qed.

Lemma join_space_clean (ws : list (list ascii)) :
  Forall is_word ws ->
  starts_clean (join_space ws) /\ starts_clean (rev (join_space ws)).
Proof.
  induction 1 as [|w ws Hword Hws [IH1 IH2]]; [split; exact I|].
  destruct (word_clean w Hword) as (H1 & H2 & H3).
  destruct ws as [|w' ws']; [split; assumption|].
  cbn [join_space]. split.
  - apply starts_clean_app; [exact (proj1 Hword)|exact H1].
  - rewrite rev_app_distr. cbn [rev]. rewrite <- app_assoc.
    apply starts_clean_app; [|exact IH2].
    intros H. apply (f_equal (@rev ascii)) in H. rewrite rev_involutive in H.
    inversion Hws; subst. eapply join_space_nonempty; eassumption.
Qed.

(** X2. [clean_text] is idempotent, its result has no space at either
    end, and it holds the same words as the text it was given. *)
Theorem clean_text_idempotent (s : string) :
  clean_text (Some (clean_text (Some s))) = clean_text (Some s)
  /\ strip (clean_text (Some s)) = clean_text (Some s)
  /\ split_ws (chars (clean_text (Some s))) [] = split_ws (chars s) [].
Proof.
  pose proof (split_ws_words (chars s) [] ltac:(constructor)) as Hw.
  cbn [clean_text]. split; [|split].
  - rewrite chars_text, split_join by exact Hw. reflexivity.
  - unfold strip. rewrite chars_text. f_equal.
    destruct (join_space_clean _ Hw). apply strip_chars_fixed; assumption.
  - rewrite chars_text. apply split_join, Hw.
Qed.
End TrimFacts.

(** ** Popularity texts that are not numbers *)

Section MoreNumberFacts.
Import PyStr Py UtilsFormat TextShapes.

Lemma lstrip_split (l : list ascii) :
  exists ws, l = (ws ++ lstrip_chars l)%list /\ all_of is_space ws.
Proof.
  induction l as [|c l (ws & IH & Hws)]; [exists []; split; [reflexivity|constructor]|].
  cbn [lstrip_chars]. destruct (is_space c) eqn:Hc.
  - exists (c :: ws). split; [cbn; f_equal; exact IH|constructor; assumption].
  - exists []. split; [reflexivity|constructor].
Qed.

Lemma span_split (p : ascii -> bool) (l : list ascii) :
  l = (fst (span p l) ++ snd (span p l))%list /\ all_of p (fst (span p l)).
Proof.
  induction l as [|c l [IH1 IH2]]; [split; [reflexivity|constructor]|].
  cbn [span]. destruct (p c) eqn:Hc.
  - destruct (span p l) as [a b]. cbn [fst snd] in *. split.
    + cbn. f_equal. exact IH1.
    + constructor; assumption.
  - split; [reflexivity|constructor].
Qed.

Lemma all_spaces_of_lstrip_nil (l : list ascii) :
  lstrip_chars l = [] -> all_of is_space l.
Proof.
  intros H. destruct (lstrip_split l) as (ws & Hl & Hws).
  rewrite H, app_nil_r in Hl. subst. exact Hws.
Qed.

Lemma match_only_allowed (t : string) (p : string * string) :
  number_with_suffix_match t = Some p ->
  Forall (fun c => is_foreign c = false) (chars t).
Proof.
  unfold number_with_suffix_match.
  destruct (lstrip_split (chars t)) as (ws1 & Ht & Hws1).
  destruct (span_split is_number_char (lstrip_chars (chars t))) as [Hs Hnum].
  destruct (span is_number_char (lstrip_chars (chars t))) as [num l1].
  cbn [fst snd] in *.
  destruct num as [|c0 num0]; [discriminate|].
  destruct (lstrip_split l1) as (ws2 & Hl1 & Hws2).
  intros H.
  assert (Hrest : Forall (fun c => is_foreign c = false) (lstrip_chars l1)).
  { destruct (lstrip_chars l1) as [|c r]; [constructor|].
    destruct (is_suffix_char c) eqn:Hc.
    - destruct (lstrip_chars r) eqn:Hr; [|discriminate].
      constructor.
      + unfold is_foreign. rewrite Hc, orb_true_r. reflexivity.
      + apply all_spaces_of_lstrip_nil in Hr.
        eapply Forall_impl; [exact Hr|]. intros a Ha. unfold is_foreign.
        cbn beta in Ha. rewrite Ha. reflexivity.
    - destruct (lstrip_chars (c :: r)) eqn:Hr; [|discriminate].
      apply all_spaces_of_lstrip_nil in Hr.
      eapply Forall_impl; [exact Hr|]. intros a Ha. unfold is_foreign.
      cbn beta in Ha. rewrite Ha. reflexivity. }
  rewrite Ht, Hs, Hl1. repeat apply Forall_app_2; try exact Hrest.
  - eapply Forall_impl; [exact Hws1|]. intros a Ha. unfold is_foreign.
    cbn beta in Ha. rewrite Ha. reflexivity.
  - eapply Forall_impl; [exact Hnum|]. intros a Ha. unfold is_foreign.
    cbn beta in Ha. rewrite Ha, orb_true_r. reflexivity.
  - eapply Forall_impl; [exact Hws2|]. intros a Ha. unfold is_foreign.
    cbn beta in Ha. rewrite Ha. reflexivity.
Qed.

(** X3. A popularity text with any character that is neither space, nor
    digit, dot or comma, nor one of k, K, m, M is not read in part: the
    default is returned. So is it for no text and for the empty text. *)
Theorem parse_number_with_suffix_rejects (t : string) (c : ascii) (default : Z) :
  In c (chars t) -> is_foreign c = true ->
  parse_number_with_suffix (Some t) default = Ok default
  /\ parse_number_with_suffix None default = Ok default
  /\ parse_number_with_suffix (Some "") default = Ok default.
Proof.
  intros Hin Hc. split; [|split; reflexivity].
  unfold parse_number_with_suffix.
  destruct (nonempty t); [|reflexivity]. cbn [negb].
  destruct (number_with_suffix_match t) as [p|] eqn:Hm; [|reflexivity].
  apply match_only_allowed in Hm. rewrite Forall_forall in Hm.
  rewrite (Hm c) in Hc; [discriminate|]. apply list_elem_of_In, Hin.
Qed.

(** The theorem at a count followed by a word. *)
Lemma parse_number_with_suffix_rejects_witness :
  parse_number_with_suffix (Some "12 loves") 7 = Ok 7%Z.
Proof.
  refine (proj1 (parse_number_with_suffix_rejects "12 loves" "l" 7 _ _)).
  - cbn. tauto.
  - reflexivity.
Defined.
End MoreNumberFacts.

(** ** What escapes the two number parsers *)

Section ParserEscapes.
Import PyStr Py UtilsFormat.

(** X4. [parse_float] returns on every text. [parse_int] lets an
    exception out exactly when it is given an infinity, as a float or as
    a text that [float] reads as one, and the exception is
    [OverflowError]: for every other value it returns. *)
Theorem parse_int_raises_on_infinity_only (v : value) (default : Z) (e : exn) :
  (parse_int v default = Raise e <->
   e = OverflowError
   /\ exists neg,
        v = VFloat (S754_infinity neg)
        \/ exists s, v = VStr s
             /\ float_of_text (remove_commas (strip s)) = Some (S754_infinity neg))
  /\ (forall s d, is_ok (parse_float (VStr s) d) = true).
Proof.
  split; [split|].
  - destruct v as [| b | n | x | s | l | d]; cbn [parse_int]; try discriminate.
    + destruct x as [z | neg | | sg m ex]; cbn; intros [= <-].
      split; [reflexivity|]. exists neg. left. reflexivity.
    + unfold py_float_of_str.
      destruct (float_of_text (remove_commas (strip s)))
        as [[z | neg | | sg m ex]|] eqn:Hs; cbn; intros [= <-].
      split; [reflexivity|]. exists neg. right. exists s. split; [reflexivity|exact Hs].
  - intros [-> [neg [-> | (s & -> & Hs)]]]; cbn [parse_int]; [reflexivity|].
    unfold py_float_of_str. rewrite Hs. reflexivity.
  - intros s d. cbn [parse_float]. unfold py_float_of_str.
    destruct (float_of_text (remove_commas (strip s))); reflexivity.
Qed.

(** Texts that [float] reads as an infinity: the word in any case, with
    separators and spaces, and a numeral beyond the range of a double. *)
Lemma parse_int_overflow_examples :
  parse_int (VStr " -Infinity ") 0 = Raise OverflowError
  /\ parse_int (VStr "1e999") 0 = Raise OverflowError
  /\ parse_int (VStr "i,n,f") 0 = Raise OverflowError
  /\ parse_int (VStr "nan") 7 = Ok 7%Z.
Proof. repeat split; vm_compute; reflexivity. Qed.

End ParserEscapes.

(** ** Product ids in URLs *)

Section IdsFacts.
Import PyStr Py UtilsFormat Ids.

Lemma span_digits_nonempty (d : ascii) (ds l : list ascii) :
  fst (span is_digit l) = d :: ds ->
  exists post, l = (d :: ds ++ post)%list
               /\ all_of is_digit (d :: ds) /\ no_digit_ahead post.
Proof.
  intros H. exists (snd (span is_digit l)).
  destruct (span_split is_digit l) as [Hl Hall]. rewrite H in Hl, Hall.
  split; [exact Hl|split; [exact Hall|]].
  clear. induction l as [|c l IH]; [exact I|].
  cbn [span]. destruct (is_digit c) eqn:Hc; [|exact Hc].
  destruct (span is_digit l). exact IH.
Qed.

Lemma p_is_no_digit (c : ascii) : Ascii.eqb c "P" = true -> is_digit c = false.
Proof. intros H. apply Ascii.eqb_eq in H. subst. reflexivity. Qed.

Lemma search_p_digits_sound (l id : list ascii) :
  search_p_digits l = Some id ->
  exists pre ds post,
    l = (pre ++ "P"%char :: ds ++ post)%list
    /\ id = "P"%char :: ds
    /\ ds <> [] /\ all_of is_digit ds /\ no_digit_ahead post
    /\ search_p_digits pre = None.
Proof.
  induction l as [|c l IH]; [discriminate|].
  cbn [search_p_digits]. destruct (Ascii.eqb c "P") eqn:Hc.
  - apply Ascii.eqb_eq in Hc. subst c.
    destruct (fst (span is_digit l)) as [|d ds] eqn:Hs.
    + intros H. destruct (IH H) as (pre & ds & post & -> & -> & Hne & Hds & Hpost & Hpre).
      exists ("P"%char :: pre), ds, post. repeat split; try assumption.
      cbn [search_p_digits]. change (Ascii.eqb "P" "P") with true. cbn iota.
      destruct pre as [|c pre]; [reflexivity|].
      cbn [app] in Hs. cbn [span] in Hs |- *.
      destruct (is_digit c) eqn:Hd.
      * destruct (span is_digit (pre ++ "P"%char :: ds ++ post)). discriminate.
      * exact Hpre.
    + intros [= <-].
      destruct (span_digits_nonempty d ds l Hs) as (post & -> & Hall & Hpost).
      exists [], (d :: ds), post. repeat split; try assumption. discriminate.
  - intros H. destruct (IH H) as (pre & ds & post & -> & -> & Hne & Hds & Hpost & Hpre).
    exists (c :: pre), ds, post. repeat split; try assumption.
    cbn [search_p_digits]. rewrite Hc. exact Hpre.
Qed.

Lemma search_p_digits_none (l : list ascii) :
  search_p_digits l = None <->
  forall pre d post, l = (pre ++ "P"%char :: d :: post)%list -> is_digit d = false.
Proof.
  induction l as [|c l IH].
  - split; [|reflexivity]. intros _ [|? ?] d post H; discriminate.
  - cbn [search_p_digits]. split.
    + intros H pre d post Hl.
      destruct pre as [|c' pre]; cbn [app] in Hl; injection Hl as -> ->.
      * change (Ascii.eqb "P" "P") with true in H. cbn iota in H.
        cbn [span] in H. destruct (is_digit d); [|reflexivity].
        destruct (span is_digit post). discriminate.
      * assert (Hl : search_p_digits (pre ++ "P"%char :: d :: post) = None).
        { destruct (Ascii.eqb c' "P"); [|exact H].
          destruct (fst (span is_digit (pre ++ "P"%char :: d :: post)));
            [exact H|discriminate]. }
        exact (proj1 IH Hl pre d post eq_refl).
    + intros H.
      assert (Hl : search_p_digits l = None).
      { apply IH. intros pre d post ->. apply (H (c :: pre) d post). reflexivity. }
      destruct (Ascii.eqb c "P") eqn:Hc; [|exact Hl].
      apply Ascii.eqb_eq in Hc. subst c.
      destruct l as [|d l']; [exact Hl|].
      cbn [span]. rewrite (H [] d l' eq_refl). exact Hl.
Qed.

(** X5. The id inferred from a URL is the first capital P that a digit
    follows, with all the digits after it: the URL splits into a part
    where no id is found, the id, and a rest that does not go on with a
    digit. No id is inferred exactly when no capital P in the URL has a
    digit next to it. *)
Theorem infer_product_id_first_p_digits (url : string) :
  (forall id, infer_product_id_from_url url = Some id ->
     exists pre ds post,
       chars url = (pre ++ "P"%char :: ds ++ post)%list
       /\ id = text ("P"%char :: ds)
       /\ ds <> [] /\ all_of is_digit ds /\ no_digit_ahead post
       /\ infer_product_id_from_url (text pre) = None)
  /\ (infer_product_id_from_url url = None <->
      forall pre d post,
        chars url = (pre ++ "P"%char :: d :: post)%list -> is_digit d = false).
Proof.
  unfold infer_product_id_from_url. split.
  - intros id H. destruct (search_p_digits (chars url)) as [l|] eqn:Hs; [|discriminate].
    injection H as <-.
    destruct (search_p_digits_sound _ _ Hs) as (pre & ds & post & H1 & -> & H3 & H4 & H5 & H6).
    exists pre, ds, post. rewrite chars_text, H6. repeat split; assumption.
  - rewrite <- search_p_digits_none.
    destruct (search_p_digits (chars url)); cbn; split; congruence.
Qed.

End IdsFacts.

(** ** Statistics from the rating histogram *)

Section HistogramFacts.
Import PyStr Py UtilsFormat Stats Histogram.
Local Open Scope Z_scope.

Lemma histogram_loop_spec (rows : list (list string)) :
  forall (ts : list (float * Z * float)) (total : Z) (w : float),
    Forall2 (fun row t => row_reading row = Ok t)
            (List.filter has_two_cells rows) ts ->
    histogram_loop rows total w
    = Ok (total + zsum (List.map row_count ts), weighted ts w).
Proof.
  induction rows as [|row rows IH]; intros ts total w H.
  - inversion H. cbn. rewrite Z.add_0_r. reflexivity.
  - destruct row as [|c0 [|c1 row']];
      try (cbn [List.filter has_two_cells length Nat.leb] in H;
           cbn [histogram_loop]; apply IH; exact H).
    change (List.filter has_two_cells ((c0 :: c1 :: row') :: rows))
      with ((c0 :: c1 :: row') :: List.filter has_two_cells rows) in H.
    inversion H as [|? [[rv rc] fc] ? ts' Hr Hrest]; subst.
    cbn [histogram_loop]. cbn [row_reading] in Hr.
    destruct (parse_float (VStr c0) fzero) as [rv'|]; cbn [bind] in *; [|discriminate].
    destruct (parse_int (VStr c1) 0) as [rc'|]; cbn [bind] in *; [|discriminate].
    destruct (float_of_int rc') as [fc'|] eqn:Hfc; cbn [bind] in *; [|discriminate].
    injection Hr as -> -> ->. cbn [try_except]. rewrite Hfc. cbn [bind].
    rewrite (IH ts' _ _ Hrest).
    cbn [List.map zsum fold_right weighted fold_left row_count fst snd].
    fold (zsum (List.map row_count ts')). rewrite Z.add_assoc. reflexivity.
Qed.

(** X6. Without reviews, the histogram decides when its counts add up to
    a positive total: the review count is the sum of the counts of the
    rows with at least two cells, and the average rating the weighted
    sum of their ratings divided by it, rounded to two decimals; shorter
    rows and cells after the second are not read. When the total is not
    positive, the page's own summary is reported. *)
Theorem statistics_from_histogram
    (page : stats_page) (ts : list (float * Z * float))
    (average ft : float) (count : Z) :
  summary_rating page = Ok average ->
  summary_count page = Ok count ->
  Forall2 (fun row t => row_reading row = Ok t)
          (List.filter has_two_cells (histogram_rows page)) ts ->
  float_of_int (zsum (List.map row_count ts)) = Ok ft ->
  parse_statistics page []
  = Ok (if 0 <? zsum (List.map row_count ts)
        then page_statistics
               (rounded_or_zero (fdiv (weighted ts fzero) ft))
               0 0 (zsum (List.map row_count ts))
        else page_statistics (rounded_or_zero average) 0 0 count).
Proof.
  intros Ha Hc Hrows Hft. unfold parse_statistics.
  unfold summary_rating in Ha. unfold summary_count in Hc.
  rewrite Ha, Hc. cbn [bind].
  destruct (histogram_rows page) as [|row rows] eqn:Hh.
  - inversion Hrows; subst. reflexivity.
  - rewrite (histogram_loop_spec _ _ 0 fzero Hrows). cbn [bind].
    rewrite Z.add_0_l.
    destruct (0 <? zsum (List.map row_count ts)); [|reflexivity].
    rewrite Hft. reflexivity.
Qed.

(** The theorem at a page whose summary says 4.5 over 10 reviews and
    whose histogram holds 3 five-star and 1 two-star ratings: 4.25 over
    4 reviews is reported. *)
Lemma statistics_from_histogram_witness :
  parse_statistics sample_histogram_page []
  = Ok (page_statistics (float_of_decimal false 425 (-2)) 0 0 4).
Proof.
  refine (eq_trans
            (statistics_from_histogram sample_histogram_page
               [(of_Z 5, 3, of_Z 3); (of_Z 2, 1, of_Z 1)]
               (float_of_decimal false 45 (-1)) (of_Z 4) 10 _ _ _ _) _).
  - vm_compute. reflexivity.
  - vm_compute. reflexivity.
  - repeat constructor.
  - vm_compute. reflexivity.
  - vm_compute. reflexivity.
Defined.

End HistogramFacts.

(** ** Requests with retries *)

Section RequestFacts.
Import PyStr Py Request.
Local Open Scope Z_scope.

Variable respond : Z -> response.
Variable max_retries : Z.

Lemma attempts_failed (n : nat) :
  forall (attempt : Z) (log : list event) (remaining : nat),
    (forall j, attempt <= j < attempt + Z.of_nat n -> is_success (respond j) = false) ->
    attempt + Z.of_nat n <= max_retries ->
    attempts respond max_retries (n + remaining) attempt log
    = attempts respond max_retries remaining (attempt + Z.of_nat n)
        (log ++ retries attempt n).
Proof.
  induction n as [|n IH]; intros attempt log remaining Hfail Hle.
  - cbn. rewrite Z.add_0_r, app_nil_r. reflexivity.
  - cbn [Nat.add attempts retries].
    assert (Hlt : (attempt <? max_retries) = true) by (apply Z.ltb_lt; lia).
    rewrite Hlt.
    assert (Hn : attempts respond max_retries (n + remaining) (attempt + 1)
                   ((log ++ [Get attempt]) ++ [Sleep attempt])
                 = attempts respond max_retries remaining
                     (attempt + Z.of_nat (S n))
                     (log ++ Get attempt :: Sleep attempt :: retries (attempt + 1) n)).
    { rewrite IH by (try (intros j Hj; apply Hfail); lia).
      f_equal; [lia|]. rewrite <- !app_assoc. reflexivity. }
    pose proof (Hfail attempt ltac:(lia)) as Hf.
    destruct (respond attempt) as [status_code body|]; cbn [is_success] in Hf.
    + rewrite Hf. exact Hn.
    + exact Hn.
Qed.


End RequestFacts.


(** ** Link discovery *)

Section LinksFacts.
Import PyStr Py Urls Orchestrator Links.
Local Open Scope Z_scope.

Lemma unique_loop_spec (links : list string) :
  forall seen unique_links,
    unique_loop links seen unique_links
    = (unique_links ++ List.filter (unseen seen) (first_occurrences links))%list.
Proof.
  induction links as [|u links IH]; intros seen result; cbn [unique_loop first_occurrences].
  - cbn. rewrite app_nil_r. reflexivity.
  - cbn [List.filter].
    destruct (decide (u ∈ seen)) as [Hin|Hnin].
    + rewrite IH. f_equal.
      assert (Hu : unseen seen u = false)
        by (apply bool_decide_eq_false_2; intros H; apply H, Hin).
      rewrite Hu, filter_filter_and. apply filter_agree. intros y.
      unfold unseen. destruct (String.eqb_spec u y) as [<-|Hy]; cbn [negb].
      * rewrite andb_false_r. exact Hu.
      * rewrite andb_true_r. reflexivity.
    + rewrite IH. rewrite <- app_assoc. cbn [app]. f_equal.
      assert (Hu : unseen seen u = true)
        by (apply bool_decide_eq_true_2; exact Hnin).
      rewrite Hu. f_equal. rewrite filter_filter_and. apply filter_agree.
      intros y. unfold unseen.
      destruct (String.eqb_spec u y) as [<-|Hy]; cbn [negb].
      * rewrite andb_false_r. apply bool_decide_eq_false_2.
        intros H. apply H, elem_of_union_l, elem_of_singleton. reflexivity.
      * rewrite andb_true_r. apply bool_decide_ext.
        rewrite elem_of_union, elem_of_singleton. intuition congruence.
Qed.

Lemma unique_loop_first_occurrences (links : list string) :
  unique_loop links ∅ [] = first_occurrences links.
Proof. rewrite unique_loop_spec. cbn [app]. apply filter_unseen_empty. Qed.

Lemma discover_dedupe_loop_unique (urls : list string) :
  forall seen deduped,
    discover_dedupe_loop urls seen deduped
    = unique_loop (List.map normalize_url urls) seen deduped.
Proof.
  induction urls as [|u urls IH]; intros seen deduped; [reflexivity|].
  cbn [discover_dedupe_loop List.map unique_loop].
  destruct (decide (normalize_url u ∈ seen)); apply IH.
Qed.

Section WithJoin.
Variable urljoin : string -> string -> result string.
Variable base_url : string.

Lemma category_links_loop_spec (hrefs : list string) :
  forall (joined links : list string),
    Forall2 (fun href full_url => urljoin base_url href = Ok full_url)
            (List.filter nonempty hrefs) joined ->
    category_links_loop urljoin base_url hrefs links
    = Ok (links ++ List.filter (contains "/product/") joined)%list.
Proof.
  induction hrefs as [|href hrefs IH]; intros joined links H.
  - inversion H. cbn. rewrite app_nil_r. reflexivity.
  - cbn [category_links_loop]. cbn [List.filter] in H.
    destruct (nonempty href); cbn [negb]; [|apply IH; exact H].
    inversion H as [|? full_url ? joined' Hj Hrest]; subst.
    rewrite Hj. cbn [bind List.filter].
    destruct (contains "/product/" full_url).
    + rewrite (IH _ _ Hrest), <- app_assoc. reflexivity.
    + apply IH, Hrest.
Qed.

Lemma category_links_loop_raises (before : list string) :
  forall (href : string) (after joined links : list string) (e : exn),
    Forall2 (fun href full_url => urljoin base_url href = Ok full_url)
            (List.filter nonempty before) joined ->
    nonempty href = true ->
    urljoin base_url href = Raise e ->
    category_links_loop urljoin base_url (before ++ href :: after) links = Raise e.
Proof.
  induction before as [|b before IH]; intros href after joined links e H Hne Hr.
  - cbn [app category_links_loop]. rewrite Hne, Hr. reflexivity.
  - cbn [app category_links_loop]. cbn [List.filter] in H.
    destruct (nonempty b); cbn [negb]; [|eapply IH; eassumption].
    inversion H as [|? full_url ? joined' Hj Hrest]; subst.
    rewrite Hj. cbn [bind].
    destruct (contains "/product/" full_url); eapply IH; eassumption.
Qed.

Lemma section_links_loop_spec (hrefs : list string) :
  forall (joined links : list string),
    Forall2 (fun href full_url => urljoin base_url href = Ok full_url) hrefs joined ->
    section_links_loop urljoin base_url hrefs links
    = Ok (links ++ List.filter (contains "/product/") joined)%list.
Proof.
  induction hrefs as [|href hrefs IH]; intros joined links H.
  - inversion H. cbn. rewrite app_nil_r. reflexivity.
  - inversion H as [|? full_url ? joined' Hj Hrest]; subst.
    cbn [section_links_loop]. rewrite Hj. cbn [bind List.filter].
    destruct (contains "/product/" full_url).
    + rewrite (IH _ _ Hrest), <- app_assoc. reflexivity.
    + apply IH, Hrest.
Qed.

Lemma sections_loop_spec (candidates : list section) :
  forall (joined links : list string),
    Forall2 (fun href full_url => urljoin base_url href = Ok full_url)
            (flat_map section_hrefs candidates) joined ->
    sections_loop urljoin base_url candidates links
    = Ok (links ++ List.filter (contains "/product/") joined)%list.
Proof.
  induction candidates as [|s candidates IH]; intros joined links H.
  - inversion H. cbn. rewrite app_nil_r. reflexivity.
  - cbn [flat_map] in H. apply Forall2_app_inv_l in H.
    destruct H as (j1 & j2 & H1 & H2 & ->).
    cbn [sections_loop]. rewrite (section_links_loop_spec _ _ _ H1). cbn [bind].
    rewrite (IH _ _ H2), List.filter_app, <- app_assoc. reflexivity.
Qed.

(** X8. The product links of a category page are the joined addresses
    that contain "/product/", of the anchors with a non-empty [href],
    each once and in the order of first occurrence; and one address that
    [urljoin] rejects makes the whole extraction raise. *)
Theorem extract_product_links_first_occurrences
    (hrefs joined : list string) :
  Forall2 (fun href full_url => urljoin base_url href = Ok full_url)
          (List.filter nonempty hrefs) joined ->
  (exists links,
      extract_product_links urljoin hrefs base_url = Ok links
      /\ links = first_occurrences (List.filter (contains "/product/") joined)
      /\ List.NoDup links
      /\ (forall link, In link links <->
                       In link joined /\ contains "/product/" link = true))
  /\ (forall href after e,
        nonempty href = true ->
        urljoin base_url href = Raise e ->
        extract_product_links urljoin (hrefs ++ href :: after) base_url = Raise e).
Proof.
  intros H. split.
  - eexists. split; [|split; [reflexivity|split]].
    + unfold extract_product_links.
      rewrite (category_links_loop_spec _ _ _ H). cbn [bind app].
      rewrite unique_loop_first_occurrences. reflexivity.
    + apply first_occurrences_NoDup.
    + intros link. rewrite first_occurrences_In, filter_In. reflexivity.
  - intros href after e Hne Hr. unfold extract_product_links.
    rewrite (category_links_loop_raises _ _ _ _ _ _ H Hne Hr). reflexivity.
Qed.

(** X9. The similar-product links are read from the sections whose text
    holds one of the four phrases, in any letter case, and from no other:
    they are the joined addresses of the anchors of these sections that
    contain "/product/", each once and in the order of first occurrence.
    A page without such a section has no similar product. *)
Theorem extract_similar_product_links_candidates
    (sections : list section) (joined : list string) :
  Forall2 (fun href full_url => urljoin base_url href = Ok full_url)
          (flat_map section_hrefs (List.filter is_candidate sections)) joined ->
  (exists links,
      extract_similar_product_links urljoin sections base_url = Ok links
      /\ links = first_occurrences (List.filter (contains "/product/") joined)
      /\ List.NoDup links
      /\ (forall link, In link links <->
                       In link joined /\ contains "/product/" link = true))
  /\ (List.filter is_candidate sections = [] ->
      extract_similar_product_links urljoin sections base_url = Ok []).
Proof.
  intros H.
  assert (Hrun : extract_similar_product_links urljoin sections base_url
                 = Ok (first_occurrences (List.filter (contains "/product/") joined))).
  { unfold extract_similar_product_links.
    rewrite (sections_loop_spec _ _ _ H). cbn [bind app].
    rewrite unique_loop_first_occurrences. reflexivity. }
  split.
  - eexists. split; [exact Hrun|split; [reflexivity|split]].
    + apply first_occurrences_NoDup.
    + intros link. rewrite first_occurrences_In, filter_In. reflexivity.
  - intros Hnone. rewrite Hrun. rewrite Hnone in H. inversion H. reflexivity.
Qed.

End WithJoin.

Lemma discover_loop_length (hrefs : list string) (max_products : Z) :
  forall urls,
    Z.of_nat (length urls) < Z.max 1 max_products ->
    Z.of_nat (length (discover_loop hrefs max_products urls)) <= Z.max 1 max_products.
Proof.
  induction hrefs as [|href hrefs IH]; intros urls H; cbn [discover_loop]; [lia|].
  set (urls1 := if contains "/product/" href then _ else urls).
  assert (H1 : Z.of_nat (length urls1) <= Z.max 1 max_products).
  { subst urls1. destruct (contains "/product/" href); [|lia].
    rewrite length_app. cbn [length]. lia. }
  destruct (max_products <=? Z.of_nat (length urls1)) eqn:Hb; [exact H1|].
  apply Z.leb_gt in Hb. apply IH. lia.
Qed.

Section WithNetwork.
Variable fetch_html : string -> option string.
Variable anchors : string -> list string.


End WithNetwork.
End LinksFacts.

(** The theorem on a listing page: the product met twice is kept once,
    under the address met first. *)
Lemma extract_product_links_first_occurrences_witness :
  Links.extract_product_links Links.sample_urljoin Links.sample_hrefs
    "https://www.sephora.com/shop/x"
  = Py.Ok ["https://www.sephora.com/product/a-P1";
           "https://www.sephora.com/product/b-P2"].
Proof.
  destruct (proj1 (extract_product_links_first_occurrences
                     Links.sample_urljoin "https://www.sephora.com/shop/x"
                     Links.sample_hrefs
                     ["https://www.sephora.com/product/a-P1";
                      "https://www.sephora.com/help";
                      "https://www.sephora.com/product/a-P1";
                      "https://www.sephora.com/product/b-P2"]
                     ltac:(repeat constructor)))
    as (links & Hrun & -> & _).
  exact Hrun.
Defined.

(** The theorem on a page with one section of recommendations. *)
Lemma extract_similar_product_links_candidates_witness :
  Links.extract_similar_product_links Links.sample_urljoin Links.sample_sections
    "https://www.sephora.com/product/a-P1"
  = Py.Ok ["https://www.sephora.com/product/b-P2";
           "https://www.sephora.com/product/c-P3"].
Proof.
  destruct (proj1 (extract_similar_product_links_candidates
                     Links.sample_urljoin "https://www.sephora.com/product/a-P1"
                     Links.sample_sections
                     ["https://www.sephora.com/product/b-P2";
                      "https://www.sephora.com/product/c-P3";
                      "https://www.sephora.com/product/b-P2"]
                     ltac:(repeat constructor)))
    as (links & Hrun & -> & _).
  exact Hrun.
Defined.

(** ** Reviews of the parser pipeline *)

Section ReviewsFacts.
Import PyStr Py UtilsFormat Stats Orchestrator Reviews.

Lemma safe_float_shape (v w : value) :
  _safe_float v = Ok w -> float_or_none w = true.
Proof.
  unfold _safe_float. destruct v; try (intros [= <-]; reflexivity);
    cbn [py_float bind try_except]; try (intros [= <-]; reflexivity).
  - destruct (float_of_int _); cbn; [intros [= <-]; reflexivity|].
    destruct (caught_type_or_value e); [intros [= <-]; reflexivity|discriminate].
  - destruct (float_of_int _); cbn; [intros [= <-]; reflexivity|].
    destruct (caught_type_or_value e); [intros [= <-]; reflexivity|discriminate].
  - unfold py_float_of_str. destruct (float_of_text s); cbn; intros [= <-]; reflexivity.
Qed.

Lemma safe_float_text (t : string) : exists w, _safe_float (VStr t) = Ok w.
Proof.
  unfold _safe_float. cbn [py_float]. unfold py_float_of_str.
  destruct (float_of_text t); cbn; eauto.
Qed.

Lemma rating_of_record (a b c d e : value) :
  dict_get (review_record a b c d e) "rating" = a.
Proof. reflexivity. Qed.

Lemma json_reviews_loop_shape (entries : list value) :
  forall acc out,
    json_reviews_loop entries acc = Ok out ->
    Forall (fun r => float_or_none (dict_get r "rating") = true) acc ->
    Forall (fun r => float_or_none (dict_get r "rating") = true) out.
Proof.
  induction entries as [|v entries IH]; intros acc out H Hacc.
  - injection H as <-. exact Hacc.
  - destruct v; cbn [json_reviews_loop] in H; try (eapply IH; eassumption).
    destruct (_safe_float _) as [w|] eqn:Hw; cbn [bind] in H; [|discriminate].
    eapply IH; [exact H|]. apply Forall_app_2; [exact Hacc|].
    constructor; [|constructor]. rewrite rating_of_record.
    eapply safe_float_shape, Hw.
Qed.

Lemma dom_reviews_loop_shape (containers : list review_container) :
  forall acc,
    Forall (fun r => float_or_none (dict_get r "rating") = true) acc ->
    exists out,
      dom_reviews_loop containers acc = Ok out
      /\ Forall (fun r => float_or_none (dict_get r "rating") = true) out.
Proof.
  induction containers as [|c containers IH]; intros acc Hacc.
  - exists acc. split; [reflexivity|exact Hacc].
  - cbn [dom_reviews_loop].
    assert (Hr : exists w,
               match rating_el c with
               | Some t => _safe_float (VStr t)
               | None => Ok VNone
               end = Ok w /\ float_or_none w = true).
    { destruct (rating_el c) as [t|].
      - destruct (safe_float_text t) as [w Hw]. exists w.
        split; [exact Hw|eapply safe_float_shape, Hw].
      - exists VNone. split; reflexivity. }
    destruct Hr as (w & -> & Hw). cbn [bind].
    destruct (truthy _); [|apply IH, Hacc].
    apply IH. apply Forall_app_2; [exact Hacc|].
    constructor; [|constructor]. rewrite rating_of_record. exact Hw.
Qed.

Lemma float_ratings_collected (reviews : list dict) :
  Forall (fun r => float_or_none (dict_get r "rating") = true) reviews ->
  Forall2 (fun r x => py_float (dict_get r "rating") = Ok x)
          (List.filter has_numeric_rating reviews) (float_ratings reviews).
Proof.
  induction 1 as [|r reviews Hr _ IH]; [constructor|].
  cbn [List.filter float_ratings flat_map]. unfold has_numeric_rating.
  destruct (dict_get r "rating") eqn:Hg; try discriminate; cbn [is_number app].
  - exact IH.
  - constructor; [rewrite Hg; reflexivity|exact IH].
Qed.

Lemma extract_reviews_shape (containers : list review_container)
    (product_json : option dict) :
  exists reviews,
    extract_reviews containers product_json = Ok reviews
    /\ Forall (fun r => float_or_none (dict_get r "rating") = true) reviews.
Proof.
  unfold extract_reviews.
  assert (Hjson : exists found,
             match product_json with
             | Some pj =>
                 if truthy (VDict pj)
                 then try_except
                        (bind (_parse_reviews_from_json pj) (fun found =>
                           Ok ([] ++ found)%list))
                        caught_exception (Ok [])
                 else Ok []
             | None => Ok []
             end = Ok found
             /\ Forall (fun r => float_or_none (dict_get r "rating") = true) found).
  { destruct product_json as [pj|]; [|exists []; split; [reflexivity|constructor]].
    destruct (truthy (VDict pj)); [|exists []; split; [reflexivity|constructor]].
    destruct (_parse_reviews_from_json pj) as [found|e] eqn:Hj; cbn.
    - exists found. split; [reflexivity|].
      unfold _parse_reviews_from_json in Hj.
      destruct (py_or _ _) as [| | | | |l|d]; try (injection Hj as <-; constructor).
      + eapply json_reviews_loop_shape; [exact Hj|constructor].
      + eapply json_reviews_loop_shape; [exact Hj|constructor].
    - exists []. split; [reflexivity|constructor]. }
  destruct Hjson as (found & -> & Hfound). cbn [bind].
  destruct found as [|r rs]; [|exists (r :: rs); split; [reflexivity|exact Hfound]].
  destruct (dom_reviews_loop_shape containers [] ltac:(constructor)) as (out & Hout & Hshape).
  unfold _parse_reviews_from_dom. rewrite Hout. cbn.
  exists out. split; [reflexivity|exact Hshape].
Qed.

(** X11. [extract_reviews] always returns, every rating in what it
    returns is [None] or a float, and the statistics of the record follow
    without failure: the review count is the number of reviews returned,
    the average the mean of the ratings that are floats. *)
Theorem extract_reviews_feeds_statistics
    (containers : list review_container) (product_json : option dict) :
  exists reviews,
    extract_reviews containers product_json = Ok reviews
    /\ Forall (fun r => float_or_none (dict_get r "rating") = true) reviews
    /\ build_statistics_from_reviews reviews
       = Ok (review_statistics (mean (float_ratings reviews))
               (Z.of_nat (length reviews))).
Proof.
  destruct (extract_reviews_shape containers product_json) as (reviews & Hrun & Hshape).
  exists reviews. split; [exact Hrun|split; [exact Hshape|]].
  unfold build_statistics_from_reviews.
  destruct reviews as [|r rs]; [reflexivity|].
  cbn [length Nat.eqb].
  rewrite (collect_ratings_spec _ _ [] (float_ratings_collected _ Hshape)).
  reflexivity.
Qed.

Lemma json_reviews_need_object (pj : dict) (r : dict) (rs : list dict) :
  _parse_reviews_from_json pj = Ok (r :: rs) -> truthy (VDict pj) = true.
Proof. destruct pj; [discriminate|reflexivity]. Qed.

(** X12. The reviews of the structured data are taken whole or not at
    all. When the JSON tier returns at least one review, these are the
    reviews, whatever the page shows. When it raises at any entry, the
    reviews it had read before are dropped with it, and the reviews are
    those of the page. *)
Theorem json_reviews_whole_or_none
    (containers : list review_container) (pj : dict) :
  (forall r rs,
      _parse_reviews_from_json pj = Ok (r :: rs) ->
      extract_reviews containers (Some pj) = Ok (r :: rs))
  /\ (forall e,
        _parse_reviews_from_json pj = Raise e ->
        extract_reviews containers (Some pj) = _parse_reviews_from_dom containers).
Proof.
  split.
  - intros r rs H. unfold extract_reviews.
    rewrite (json_reviews_need_object _ _ _ H), H. reflexivity.
  - intros e H. unfold extract_reviews. rewrite H.
    destruct (dom_reviews_loop_shape containers [] ltac:(constructor)) as (out & Hout & _).
    unfold _parse_reviews_from_dom. rewrite Hout.
    destruct (truthy (VDict pj)); reflexivity.
Qed.

(** The theorem at a Product object whose second review has a rating
    beyond the doubles: the first review is lost with it, and the one
    review of the page is reported. *)
Lemma json_reviews_whole_or_none_witness :
  _parse_reviews_from_json overflowing_reviews = Raise OverflowError
  /\ extract_reviews one_container (Some overflowing_reviews)
     = Ok [review_record (VFloat (of_Z 4)) VNone (VStr "Nice") VNone VNone].
Proof.
  assert (H : _parse_reviews_from_json overflowing_reviews = Raise OverflowError)
    by (vm_compute; reflexivity).
  split; [exact H|].
  rewrite (proj2 (json_reviews_whole_or_none one_container overflowing_reviews)
             OverflowError H).
  vm_compute. reflexivity.
Defined.

End ReviewsFacts.

(** ** The product record *)

Section ProductRecordFacts.
Import PyStr Py JsonLd Variants Info Stats Reviews ProductRecord.

Variable json_loads : string -> option value.
Variable py_repr : value -> string.

Lemma offers_loop_outcome (offers : list value) :
  forall acc,
    if existsb (fun offer => negb (is_dict offer)) offers
    then offers_loop py_repr offers acc = Raise AttributeError
    else exists variants, offers_loop py_repr offers acc = Ok variants.
Proof.
  induction offers as [|offer offers IH]; intros acc; cbn [existsb offers_loop].
  - eauto.
  - destruct offer; cbn [is_dict negb orb variant_of_offer bind]; try reflexivity.
    apply IH.
Qed.

Lemma build_variants_outcome (product_json : option dict) :
  if has_malformed_offer product_json
  then _build_variants py_repr product_json = Raise AttributeError
  else exists variants, _build_variants py_repr product_json = Ok variants.
Proof.
  unfold has_malformed_offer, _build_variants.
  destruct product_json as [pj|]; [|eauto].
  destruct (truthy (VDict pj)); cbn [negb andb]; [|eauto].
  destruct (dict_get pj "offers"); eauto.
  apply offers_loop_outcome.
Qed.

Lemma statistics_of_extracted (reviews : list dict) :
  Forall (fun r => float_or_none (dict_get r "rating") = true) reviews ->
  build_statistics_from_reviews reviews
  = Ok (review_statistics (mean (float_ratings reviews)) (Z.of_nat (length reviews))).
Proof.
  intros Hshape. unfold build_statistics_from_reviews.
  destruct reviews as [|r rs]; [reflexivity|].
  cbn [length Nat.eqb].
  rewrite (collect_ratings_spec _ _ [] (float_ratings_collected _ Hshape)).
  reflexivity.
Qed.


End ProductRecordFacts.


(** ** Reviews of the runner pipeline *)

Section ReviewsParserFacts.
Import PyStr Py UtilsFormat Dates Stats Histogram ReviewsParser.
Local Open Scope Z_scope.

Lemma starts_with_app (a b l : list ascii) :
  starts_with (a ++ b) l = true -> exists rest, l = (a ++ rest)%list /\ starts_with b rest = true.
Proof.
  revert l. induction a as [|x a IH]; intros l H.
  - exists l. split; [reflexivity|exact H].
  - destruct l as [|y l]; [discriminate|]. cbn [app starts_with] in H.
    apply andb_true_iff in H. destruct H as [Hxy H].
    apply Ascii.eqb_eq in Hxy. subst y.
    destruct (IH l H) as (rest & -> & Hb). exists rest. split; [reflexivity|exact Hb].
Qed.

Lemma contains_chars_skip (a p rest : list ascii) :
  contains_chars p rest = true -> contains_chars p (a ++ rest) = true.
Proof.
  induction a as [|x a IH]; intros H; [exact H|].
  cbn [app contains_chars]. rewrite (IH H). apply orb_true_r.
Qed.

Lemma contains_chars_starts (p l : list ascii) :
  starts_with p l = true -> contains_chars p l = true.
Proof. intros H. destruct l; cbn [contains_chars]; rewrite H; reflexivity. Qed.

Lemma contains_chars_suffix (a b l : list ascii) :
  contains_chars (a ++ b) l = true -> contains_chars b l = true.
Proof.
  induction l as [|c l IH]; cbn [contains_chars].
  - rewrite orb_false_r. intros H.
    destruct (starts_with_app a b [] H) as (rest & Hl & Hb).
    destruct a; [|discriminate]. cbn in Hl. subst rest. rewrite Hb. reflexivity.
  - intros H. apply orb_true_iff in H. destruct H as [H|H].
    + destruct (starts_with_app a b _ H) as (rest & Hl & Hb).
      change (contains_chars b (c :: l) = true). rewrite Hl.
      apply contains_chars_skip, contains_chars_starts, Hb.
    + rewrite (IH H). apply orb_true_r.
Qed.

Lemma starts_with_prefix (a b l : list ascii) :
  starts_with (a ++ b) l = true -> starts_with a l = true.
Proof.
  revert l. induction a as [|x a IH]; intros l H; [reflexivity|].
  destruct l as [|y l]; [discriminate|]. cbn [app starts_with] in *.
  apply andb_true_iff in H. destruct H as [Hxy H].
  rewrite Hxy, (IH l H). reflexivity.
Qed.

Lemma contains_chars_prefix (a b l : list ascii) :
  contains_chars (a ++ b) l = true -> contains_chars a l = true.
Proof.
  induction l as [|c l IH]; cbn [contains_chars].
  - rewrite !orb_false_r. apply starts_with_prefix.
  - intros H. apply orb_true_iff in H. destruct H as [H|H].
    + rewrite (starts_with_prefix _ _ _ H). reflexivity.
    + rewrite (IH H). apply orb_true_r.
Qed.



Lemma parse_review_container_shape (c : container) (review : dict) :
  _parse_review_container c = Ok review ->
  exists rating is_recommended submitted_at helpful not_helpful,
    review = parsed_review rating (cleaned (review_body c)) (cleaned (review_title c))
               is_recommended submitted_at helpful not_helpful.
Proof.
  unfold _parse_review_container.
  destruct (container_rating c) as [rating|]; cbn [bind]; [|discriminate].
  destruct (match review_date c with Some _ => _ | None => _ end) as [d|];
    cbn [bind]; [|discriminate].
  destruct (count_of (review_helpful_count c)) as [h|]; cbn [bind]; [|discriminate].
  destruct (count_of (review_not_helpful_count c)) as [n|]; cbn [bind]; [|discriminate].
  intros [= <-]. eauto 10.
Qed.

Lemma parsed_review_kept (x : float) (txt ti : string) (rec d : value) (h n : Z) :
  truthy (py_or (dict_get (parsed_review x txt ti rec d h n) "review_text")
                (dict_get (parsed_review x txt ti rec d h n) "review_title"))
  = nonempty txt || nonempty ti.
Proof.
  change (dict_get (parsed_review x txt ti rec d h n) "review_text") with (VStr txt).
  change (dict_get (parsed_review x txt ti rec d h n) "review_title") with (VStr ti).
  unfold py_or. cbn [truthy]. destruct (nonempty txt) eqn:Ht; cbn [truthy orb].
  - exact Ht.
  - reflexivity.
Qed.

Lemma containers_loop_spec (candidates : list container) (max_reviews : option Z) :
  forall reviews out,
    containers_loop candidates max_reviews reviews = Ok out ->
    Forall is_parsed_review reviews ->
    (forall m, max_reviews = Some m -> Z.of_nat (length reviews) < Z.max 1 m) ->
    Forall is_parsed_review out
    /\ (forall m, max_reviews = Some m -> Z.of_nat (length out) <= Z.max 1 m).
Proof.
  induction candidates as [|c candidates IH]; intros reviews out H Hshape Hlen.
  - injection H as <-. split; [exact Hshape|]. intros m Hm. specialize (Hlen m Hm). lia.
  - cbn [containers_loop] in H.
    destruct (has_rating_mark c); cbn [negb] in H; [|eapply IH; eassumption].
    destruct (_parse_review_container c) as [review|] eqn:Hc; cbn [bind] in H;
      [|discriminate].
    destruct (parse_review_container_shape c review Hc) as (x & rec & d & h & n & ->).
    rewrite parsed_review_kept in H.
    destruct (nonempty (cleaned (review_body c)) || nonempty (cleaned (review_title c)))
      eqn:Hkeep.
    + assert (Hshape1 : Forall is_parsed_review
                          (reviews ++ [parsed_review x (cleaned (review_body c))
                                         (cleaned (review_title c)) rec d h n])%list).
      { apply Forall_app_2; [exact Hshape|]. constructor; [|constructor].
        do 7 eexists. split; [reflexivity|exact Hkeep]. }
      assert (Hlen1 : forall m, max_reviews = Some m ->
                Z.of_nat (length (reviews ++ [parsed_review x (cleaned (review_body c))
                                                (cleaned (review_title c)) rec d h n])%list)
                <= Z.max 1 m).
      { intros m Hm. specialize (Hlen m Hm). rewrite length_app. cbn [length]. lia. }
      destruct (reached max_reviews _) eqn:Hr.
      * injection H as <-. split; assumption.
      * eapply IH; [exact H|exact Hshape1|].
        intros m Hm. unfold reached in Hr. rewrite Hm in Hr.
        apply Z.leb_gt in Hr. lia.
    + destruct (reached max_reviews reviews) eqn:Hr.
      * injection H as <-. split; [exact Hshape|].
        intros m Hm. specialize (Hlen m Hm). lia.
      * eapply IH; eassumption.
Qed.

Lemma parsed_review_reading (r : dict) :
  is_parsed_review r -> exists t, review_reading r = Ok t.
Proof.
  intros (x & txt & ti & rec & d & h & n & -> & _).
  unfold review_reading, rating_or_zero.
  cbn [parsed_review dict_get dict_lookup String.eqb Ascii.eqb Bool.eqb py_or truthy
       parse_int bind].
  unfold py_or. cbn [truthy].
  destruct (float_truthy x); cbn [py_float bind]; [eauto|].
  change (float_of_int 0) with (Ok fzero). cbn [bind]. eauto.
Qed.

Lemma parsed_reviews_readings (reviews : list dict) :
  Forall is_parsed_review reviews ->
  exists ts, Forall2 (fun r t => review_reading r = Ok t) reviews ts.
Proof.
  induction 1 as [|r reviews Hr _ [ts IH]]; [exists []; constructor|].
  destruct (parsed_review_reading r Hr) as [t Ht].
  exists (t :: ts). constructor; assumption.
Qed.

Lemma parse_reviews_shape_only
    (page : reviews_page) (max_reviews : option Z) (reviews : list dict) :
  parse_reviews page max_reviews = Ok reviews ->
  exists ts, Forall2 (fun r t => review_reading r = Ok t) reviews ts.
Proof.
  intros H. apply parsed_reviews_readings.
  eapply containers_loop_spec; [exact H|constructor|].
  intros m _. cbn. lia.
Qed.

(** X15. What [parse_reviews] returns holds only records with a text or
    a title, and under a limit never more than [max_reviews] of them, or
    than one when the limit is below 1: the limit is tested after a
    review has been added. *)
Theorem parse_reviews_capped
    (page : reviews_page) (max_reviews : option Z) (reviews : list dict) :
  parse_reviews page max_reviews = Ok reviews ->
  Forall is_parsed_review reviews
  /\ (forall m, max_reviews = Some m ->
                Z.of_nat (length reviews) <= Z.max 1 m).
Proof.
  intros H. eapply containers_loop_spec; [exact H|constructor|].
  intros m _. cbn. lia.
Qed.

(** The theorem at a page with two reviews and a limit of 0: one review
    is returned. *)
Lemma parse_reviews_capped_witness :
  exists r, parse_reviews two_reviews_page (Some 0) = Ok [r]
            /\ Forall is_parsed_review [r]
            /\ (forall m, Some 0 = Some m -> Z.of_nat (length [r]) <= Z.max 1 m).
Proof.
  eexists. split; [vm_compute; reflexivity|].
  apply (parse_reviews_capped two_reviews_page (Some 0)). vm_compute. reflexivity.
Defined.

(** X16. The statistics of the reviews that [parse_reviews] returned, at
    least one, fail only on the review count of the page: when that
    reads as an integer, [parse_statistics] returns, with the number of
    reviews as review count, the sums of their votes, and as average
    their ratings added up and divided by their number. *)
Theorem statistics_of_parsed_reviews
    (page : reviews_page) (max_reviews : option Z) (reviews : list dict)
    (summary : stats_page) (count : Z) :
  parse_reviews page max_reviews = Ok reviews ->
  reviews <> [] ->
  summary_count summary = Ok count ->
  exists ts,
    Forall2 (fun r t => review_reading r = Ok t) reviews ts
    /\ parse_statistics summary reviews
       = Ok (page_statistics
               (rounded_or_zero
                  (fdiv (fsum (List.map (fun t => fst (fst t)) ts))
                        (float_of_len (length reviews))))
               (zsum (List.map (fun t => snd (fst t)) ts))
               (zsum (List.map snd ts))
               (Z.of_nat (length reviews))).
Proof.
  intros Hrun Hne Hcount.
  destruct (parse_reviews_shape_only page max_reviews reviews Hrun) as [ts Hts].
  exists ts. split; [exact Hts|].
  unfold parse_statistics. unfold summary_count in Hcount. rewrite Hcount.
  assert (Hav : exists average,
             match overall_rating summary with
             | Some t => parse_float (VStr t) fzero
             | None => Ok fzero
             end = Ok average).
  { destruct (overall_rating summary) as [t|]; [|eauto].
    cbn [parse_float]. unfold py_float_of_str.
    destruct (float_of_text _); cbn; eauto. }
  destruct Hav as [average ->]. cbn [bind].
  destruct reviews as [|r rs]; [contradiction|].
  rewrite (reviews_loop_spec _ _ fzero 0 0 Hts). cbn [bind].
  cbn [length Nat.ltb Nat.leb]. rewrite !Z.add_0_l. reflexivity.
Qed.

(** The theorem at a page with two reviews. *)
Lemma statistics_of_parsed_reviews_witness :
  exists ts,
    Forall2 (fun r t => review_reading r = Ok t) two_reviews ts
    /\ parse_statistics empty_page two_reviews
       = Ok (page_statistics
               (rounded_or_zero
                  (fdiv (fsum (List.map (fun t => fst (fst t)) ts))
                        (float_of_len (length two_reviews))))
               (zsum (List.map (fun t => snd (fst t)) ts))
               (zsum (List.map snd ts))
               (Z.of_nat (length two_reviews))).
Proof.
  apply (statistics_of_parsed_reviews two_reviews_page None two_reviews empty_page 0).
  - vm_compute. reflexivity.
  - discriminate.
  - reflexivity.
Defined.

End ReviewsParserFacts.

(** ** What the two loops keep in order *)

Section BookkeepingFacts.
Import PyStr Py Urls Orchestrator Bookkeeping.

Variable fetch_html : nat -> string -> option string.
Variable parse_product : string -> string -> result dict.
Variable extract_similar_product_links : string -> string -> result (list string).

Lemma consistent_start (urls : list string) : consistent (start urls).
Proof.
  unfold consistent, books_in_order, start. cbn. repeat split.
  - intros u Hu. exfalso. revert Hu. apply not_elem_of_empty.
  - lia.
  - lia.
Qed.

Lemma books_recorded (st : main_state) (url : string) (r : dict) :
  url ∉ processed_product_urls st ->
  In url (product_urls st) ->
  books_in_order st ->
  books_in_order (record_product (count_request st) url r).
Proof.
  intros Hnew Hin (Hsize & Hsub). unfold books_in_order.
  cbn [record_product count_request processed_product_urls all_products product_urls].
  split.
  - rewrite size_union by (apply disjoint_singleton_l; exact Hnew).
    rewrite size_singleton, length_app, Hsize. cbn [length]. lia.
  - intros u Hu. apply elem_of_union in Hu. destruct Hu as [Hu|Hu].
    + apply elem_of_singleton in Hu. subst u. exact Hin.
    + apply Hsub, Hu.
Qed.

Lemma books_queued (st : main_state) (links : list string) :
  books_in_order st -> books_in_order (queue_similar st links).
Proof.
  intros (Hsize & Hsub). unfold books_in_order.
  cbn [queue_similar processed_product_urls all_products product_urls].
  split; [exact Hsize|].
  intros u Hu. apply in_or_app. left. apply Hsub, Hu.
Qed.

(** One turn: the books stay in order, the position moves on by one, at
    most one request is made, and the work-list does not shrink. *)
Lemma loop_body_books (similar : bool) (st st' : main_state) (url : string) :
  books_in_order st ->
  In url (product_urls st) ->
  loop_body fetch_html parse_product extract_similar_product_links similar st url
  = Ok st' ->
  books_in_order st'
  /\ position st' = S (position st)
  /\ (requests st' <= S (requests st))%nat
  /\ (length (product_urls st) <= length (product_urls st'))%nat.
Proof.
  intros Hb Hin H.
  unfold loop_body in H.
  destruct (decide (url ∈ processed_product_urls st)) as [Hdone|Hnew].
  - injection H as <-. cbn [next_url position requests product_urls].
    repeat split; try apply Hb; lia.
  - destruct (got_html (fetch_html (requests st) url)) as [html|].
    2:{ injection H as <-.
        cbn [next_url count_request position requests product_urls].
        repeat split; try apply Hb; lia. }
    unfold try_parse in H.
    destruct (parse_product html url) as [r|e];
      cbn [bind try_except caught_exception] in H.
    2:{ injection H as <-.
        cbn [next_url count_request position requests product_urls].
        repeat split; try apply Hb; lia. }
    assert (Hstep : forall st2,
               books_in_order st2 ->
               position st2 = position st ->
               requests st2 = S (requests st) ->
               product_urls st2 = product_urls st ->
               (if similar
                then bind (try_similar extract_similar_product_links st2 html url)
                       (fun st3 => Ok (next_url st3))
                else Ok (next_url st2)) = Ok st' ->
               books_in_order st'
               /\ position st' = S (position st)
               /\ (requests st' <= S (requests st))%nat
               /\ (length (product_urls st) <= length (product_urls st'))%nat).
    { intros st2 Hb2 Hp2 Hr2 Hu2 Hrun. destruct similar.
      - unfold try_similar in Hrun.
        destruct (extract_similar_product_links html url) as [links|e];
          cbn [bind try_except caught_exception] in Hrun; injection Hrun as <-.
        + cbn [next_url queue_similar position requests product_urls].
          split; [apply (books_queued st2 links Hb2)|].
          rewrite length_app, Hp2, Hr2, Hu2. repeat split; lia.
        + cbn [next_url position requests product_urls].
          split; [exact Hb2|]. rewrite Hp2, Hr2, Hu2. repeat split; lia.
      - injection Hrun as <-. cbn [next_url position requests product_urls].
        split; [exact Hb2|]. rewrite Hp2, Hr2, Hu2. repeat split; lia. }
    destruct (truthy (VDict r)); cbn [bind] in H.
    + apply (Hstep (record_product (count_request st) url r));
        [apply books_recorded; assumption|reflexivity|reflexivity|reflexivity|exact H].
    + apply (Hstep (count_request st));
        [exact Hb|reflexivity|reflexivity|reflexivity|exact H].
Qed.

Lemma loop_body_consistent (similar : bool) (st st' : main_state) (url : string) :
  consistent st ->
  product_urls st !! position st = Some url ->
  loop_body fetch_html parse_product extract_similar_product_links similar st url
  = Ok st' ->
  consistent st'.
Proof.
  intros (Hb & Hreq & Hle) Hu H.
  pose proof (lookup_lt_Some _ _ _ Hu) as Hpos.
  assert (Hin : In url (product_urls st)).
  { apply list_elem_of_In. eapply list_elem_of_lookup_2, Hu. }
  destruct (loop_body_books similar st st' url Hb Hin H) as (Hb' & Hp' & Hr' & Hl').
  split; [exact Hb'|]. lia.
Qed.

Lemma main_loop_consistent (similar : bool) (fuel : nat) :
  forall st st',
    consistent st ->
    main_loop fetch_html parse_product extract_similar_product_links similar fuel st
    = Ok (Some st') ->
    consistent st' /\ position st' = length (product_urls st').
Proof.
  induction fuel as [|fuel IH]; intros st st' Hc H; [discriminate|].
  cbn [main_loop] in H.
  destruct (product_urls st !! position st) as [url|] eqn:Hu.
  - destruct (loop_body fetch_html parse_product extract_similar_product_links
                similar st url) as [st1|e] eqn:Hb; cbn [bind] in H; [|discriminate].
    apply (IH st1 st'); [|exact H].
    eapply loop_body_consistent; eassumption.
  - injection H as <-. split; [exact Hc|].
    apply lookup_ge_None in Hu. destruct Hc as (_ & _ & Hle). lia.
Qed.

(** X17. When the loop of [main.py] has gone through its work-list, the
    records collected are as many as the URLs marked as processed, one
    for each; every such URL stands in the work-list; and the requests
    made are at most as many as the entries of the work-list, similar
    products included. *)
Theorem main_loop_one_record_per_url
    (similar : bool) (fuel : nat) (urls : list string) (st' : main_state) :
  main_loop fetch_html parse_product extract_similar_product_links similar fuel
    (start urls) = Ok (Some st') ->
  size (processed_product_urls st') = length (all_products st')
  /\ (forall u, u ∈ processed_product_urls st' -> In u (product_urls st'))
  /\ (requests st' <= length (product_urls st'))%nat
  /\ position st' = length (product_urls st').
Proof.
  intros H.
  destruct (main_loop_consistent similar fuel _ _ (consistent_start urls) H)
    as (((Hsize & Hsub) & Hreq & _) & Hpos).
  repeat split; try assumption. lia.
Qed.

Section RunnerLoop.
Variable parse_product_info : string -> string -> result dict.
Variable parse_product_variants : string -> result (list value).
Variable parse_reviews : string -> result (list dict).
Variable parse_questions : string -> value -> result (list dict).
Variable parse_statistics : string -> list dict -> result dict.


End RunnerLoop.
End BookkeepingFacts.

(** The theorem on the sample run of [main.py], where the parser raises
    on the second of three pages. *)
Lemma main_loop_one_record_per_url_witness :
  exists st',
    Orchestrator.sample_main_run = Py.Ok (Some st')
    /\ size (Orchestrator.processed_product_urls st')
       = length (Orchestrator.all_products st')
    /\ (Orchestrator.requests st' <= length (Orchestrator.product_urls st'))%nat.
Proof.
  destruct (main_loop_terminates Orchestrator.sample_fetch
              Orchestrator.sample_parse_product (fun _ _ => Py.Ok []) 4
              (Orchestrator.start
                 [Orchestrator.url_a; Orchestrator.url_b; Orchestrator.url_c])
              ltac:(cbn; lia)) as [st' H].
  exists st'. split; [exact H|].
  destruct (main_loop_one_record_per_url _ _ _ _ _ _ _ H) as (H1 & _ & H3 & _).
  split; assumption.
Defined.


(** ** Dates: what the ISO format accepts, and normalising twice *)

Section MoreDatesFacts.
Import PyStr Py UtilsFormat Dates.
Local Open Scope Z_scope.

(** Case analysis on an integer known to lie between two numerals. *)
Ltac each_value x lo hi :=
  let H := fresh in
  assert (H : lo <= x <= hi) by lia;
  repeat match type of H with
         | ?a <= x <= ?b =>
             first
               [ assert (x = a) by lia; subst x; clear H
               | let H' := fresh in
                 assert (H' : x = a \/ a + 1 <= x <= b) by lia;
                 clear H; destruct H' as [->|H]; [|ring_simplify (a + 1) in H] ]
         end.

(** A text that begins with a digit begins with no month name. *)
Lemma no_month_name (k : Z) (rest : list ascii) :
  0 <= k <= 9 ->
  match_name abbr_months (digit_of k :: rest) = []
  /\ match_name full_months (digit_of k :: rest) = [].
Proof.
  intros Hk. each_value k 0 9; split; vm_compute; reflexivity.
Qed.

Lemma strptime_month_first_rejects_digit (fmt : list piece) (t : string)
    (k : Z) (rest : list ascii) :
  0 <= k <= 9 ->
  chars t = digit_of k :: rest ->
  strptime t (AbbrMonth :: fmt) = Raise ValueError
  /\ strptime t (FullMonth :: fmt) = Raise ValueError.
Proof.
  intros Hk Ht. unfold strptime. rewrite Ht. cbn [match_pieces match_piece].
  destruct (no_month_name k rest Hk) as [-> ->]. split; reflexivity.
Qed.

Lemma match_month_day_rest (y m d : Z) (c : ascii) (rest : list ascii) :
  1 <= m <= 12 -> 1 <= d <= 31 ->
  exists others,
    match_pieces [Lit "-"; Month; Lit "-"; Day]
      {| year := y; month := 1; day := 1 |}
      ("-"%char :: digit_of (m / 10) :: digit_of (m mod 10) :: "-"%char
       :: digit_of (d / 10) :: digit_of (d mod 10) :: c :: rest)
    = ({| year := y; month := m; day := d |}, c :: rest) :: others.
Proof.
  intros Hm Hd.
  each_value m 1 12; each_value d 1 31; eexists; vm_compute; reflexivity.
Qed.

Lemma valid_date_ranges (y m d : Z) :
  valid_date {| year := y; month := m; day := d |} = true ->
  1 <= y <= 9999 /\ 1 <= m <= 12 /\ 1 <= d <= 31.
Proof.
  intros Hv. unfold valid_date in Hv. cbn [year month day] in Hv.
  pose proof (days_in_month_le y m). lia.
Qed.

Lemma normalize_loop_output (fmts : list (list piece)) (t iso : string) :
  normalize_loop fmts t = Ok (Some iso) ->
  exists dt, valid_date dt = true /\ iso = isoformat dt.
Proof.
  induction fmts as [|fmt fmts IH]; [discriminate|].
  cbn [normalize_loop]. destruct (strptime t fmt) as [dt|e] eqn:E.
  - cbn. intros [= <-]. exists dt. split; [exact (strptime_valid _ _ _ E)|reflexivity].
  - rewrite (strptime_raises_value_error _ _ _ E). cbn. exact IH.
Qed.

Lemma normalize_isoformat (dt : date) :
  valid_date dt = true -> _normalize_date (isoformat dt) = Ok None.
Proof.
  destruct dt as [y m d]. intros Hv.
  destruct (valid_date_ranges y m d Hv) as (Hy & Hm & Hd).
  assert (Hk : 0 <= y / 1000 <= 9) by (Z.div_mod_to_equations; lia).
  unfold _normalize_date, formats. cbn [normalize_loop].
  destruct (strptime_month_first_rejects_digit
              [Spaces; Day; Lit ","; Spaces; Year]
              (isoformat {| year := y; month := m; day := d |})
              (y / 1000) _ Hk eq_refl) as [E1 E2].
  change (AbbrMonth :: [Spaces; Day; Lit ","; Spaces; Year]) with fmt_abbr in E1.
  change (FullMonth :: [Spaces; Day; Lit ","; Spaces; Year]) with fmt_full in E2.
  rewrite E1, E2. cbn [bind try_except caught_value].
  assert (E3 : strptime (isoformat {| year := y; month := m; day := d |}) fmt_iso
               = Raise ValueError).
  { unfold strptime.
    change (chars (isoformat {| year := y; month := m; day := d |}))
      with (iso_date_chars {| year := y; month := m; day := d |}
            ++ chars "T00:00:00")%list.
    unfold iso_date_chars, fmt_iso. cbn [year month day app].
    cbn [match_pieces match_piece].
    rewrite match_year_digits by (Z.div_mod_to_equations; lia).
    cbn [List.map flat_map year month day].
    destruct (match_month_day_rest
                (1000 * (y / 1000) + 100 * (y / 100 mod 10)
                 + 10 * (y / 10 mod 10) + y mod 10) m d
                "T"%char (chars "00:00:00") Hm Hd) as [others E].
    cbn [match_pieces match_piece] in E.
    change (chars "T00:00:00") with ("T"%char :: chars "00:00:00").
    rewrite E. reflexivity. }
  rewrite E3. reflexivity.
Qed.

(** X19. Every calendar date that [datetime] accepts, written as
    zero-padded [YYYY-MM-DD], is normalised, and to that date at
    midnight: the two month-name formats fail on it and the ISO format
    reads it. *)
Theorem normalize_date_accepts_iso_dates (dt : date) :
  valid_date dt = true ->
  _normalize_date (text (iso_date_chars dt)) = Ok (Some (isoformat dt))
  /\ _normalize_question_date (text (iso_date_chars dt)) = Ok (Some (isoformat dt)).
Proof.
  destruct dt as [y m d]. intros Hv.
  destruct (valid_date_ranges y m d Hv) as (Hy & Hm & Hd).
  assert (Hk : 0 <= y / 1000 <= 9) by (Z.div_mod_to_equations; lia).
  unfold _normalize_question_date, _normalize_date, formats. cbn [normalize_loop].
  destruct (strptime_month_first_rejects_digit
              [Spaces; Day; Lit ","; Spaces; Year]
              (text (iso_date_chars {| year := y; month := m; day := d |}))
              (y / 1000) _ Hk eq_refl) as [E1 E2].
  change (AbbrMonth :: [Spaces; Day; Lit ","; Spaces; Year]) with fmt_abbr in E1.
  change (FullMonth :: [Spaces; Day; Lit ","; Spaces; Year]) with fmt_full in E2.
  rewrite E1, E2. cbn [bind try_except caught_value].
  assert (E3 : strptime (text (iso_date_chars {| year := y; month := m; day := d |}))
                 fmt_iso
               = Ok {| year := y; month := m; day := d |}).
  { unfold strptime. rewrite chars_text.
    unfold iso_date_chars, fmt_iso. cbn [year month day].
    cbn [match_pieces match_piece].
    rewrite match_year_digits by (Z.div_mod_to_equations; lia).
    cbn [List.map flat_map year month day].
    destruct (match_month_day
                (1000 * (y / 1000) + 100 * (y / 100 mod 10)
                 + 10 * (y / 10 mod 10) + y mod 10) m d Hm Hd) as [others E].
    cbn [match_pieces match_piece] in E. rewrite E. cbn [app].
    replace (1000 * (y / 1000) + 100 * (y / 100 mod 10)
             + 10 * (y / 10 mod 10) + y mod 10) with y
      by (Z.div_mod_to_equations; lia).
    rewrite Hv. reflexivity. }
  rewrite E3. split; reflexivity.
Qed.

(** The theorem at the leap day of 2024. *)
Lemma normalize_date_accepts_iso_dates_witness :
  _normalize_date "2024-02-29" = Ok (Some "2024-02-29T00:00:00").
Proof.
  exact (proj1 (normalize_date_accepts_iso_dates
                  {| year := 2024; month := 2; day := 29 |} eq_refl)).
Defined.

(** X20. Normalisation does not accept what it produces: the text of a
    date at midnight, with its time part, matches none of the three
    formats, so that normalising a date a second time gives [None]. *)
Theorem normalize_date_rejects_its_output (t iso : string) :
  _normalize_date t = Ok (Some iso) ->
  _normalize_date iso = Ok None
  /\ _normalize_question_date iso = Ok None.
Proof.
  intros H. destruct (normalize_loop_output _ _ _ H) as (dt & Hv & ->).
  split; apply normalize_isoformat, Hv.
Qed.

(** The theorem at a date in the first format. *)
Lemma normalize_date_rejects_its_output_witness :
  _normalize_date "Jan 5, 2024" = Ok (Some "2024-01-05T00:00:00")
  /\ _normalize_date "2024-01-05T00:00:00" = Ok None.
Proof.
  assert (H : _normalize_date "Jan 5, 2024" = Ok (Some "2024-01-05T00:00:00"))
    by (vm_compute; reflexivity).
  split; [exact H|].
  exact (proj1 (normalize_date_rejects_its_output _ _ H)).
Defined.

End MoreDatesFacts.

(** ** The two locators on the same data *)

Section MoreLocatorFacts.
Import PyStr Py JsonLd.

Lemma find_weaker {A} (p q : A -> bool) (l : list A) (x : A) :
  (forall a, p a = true -> q a = true) ->
  List.find p l = Some x -> exists y, List.find q l = Some y.
Proof.
  intros Hpq. induction l as [|a l IH]; cbn [List.find]; [discriminate|].
  destruct (q a) eqn:Hq; [eauto|].
  destruct (p a) eqn:Hp; [rewrite (Hpq a Hp) in Hq; discriminate|exact IH].
Qed.

Lemma find_same {A} (p q : A -> bool) (l : list A) :
  (forall a, In a l -> p a = q a) -> List.find p l = List.find q l.
Proof.
  induction l as [|a l IH]; intros H; cbn [List.find]; [reflexivity|].
  rewrite (H a (or_introl eq_refl)), IH; [reflexivity|].
  intros b Hb. apply H. right. exact Hb.
Qed.

Lemma type_is_product_matches (o : dict) :
  type_is_product o = true -> type_matches o = true.
Proof.
  unfold type_is_product, type_matches.
  destruct (dict_get o "@type"); cbn [eq_str]; try discriminate. tauto.
Qed.

(** X21. On the same decoded blocks, whenever the locator of the runner
    pipeline finds a Product object, so does the locator of the parser
    pipeline; and the two return the same object when no object is
    tagged with a type-list that holds Product. *)
Theorem locators_agree_without_type_lists (blocks : list value) :
  (forall d, _find_product_ld blocks = Some d ->
     exists d', _find_product_json (flat_map dict_items blocks) = Some d')
  /\ ((forall o l, In o (flat_map dict_items blocks) ->
         dict_get o "@type" = VList l -> str_in_list "Product" l = false) ->
      _find_product_json (flat_map dict_items blocks) = _find_product_ld blocks).
Proof.
  rewrite find_product_json_locate, find_product_ld_find. unfold locate_spec.
  split.
  - intros d. apply find_weaker, type_is_product_matches.
  - intros H. apply find_same. intros o Ho.
    unfold type_matches, type_is_product.
    destruct (dict_get o "@type") eqn:Ht; cbn [eq_str]; try reflexivity.
    apply (H o _ Ho Ht).
Qed.

End MoreLocatorFacts.

(** ** Variants: what makes the extraction fail, and the tile ids *)

Section MoreVariantsFacts.
Import PyStr Py UtilsFormat JsonLd Variants ProductRecord VariantEntries.

Variable py_repr : value -> string.

Lemma variant_of_entry_outcome (idx : nat) (v : value) :
  if has_unreadable_name v
  then variant_of_entry py_repr idx v = Raise AttributeError
  else exists o, variant_of_entry py_repr idx v = Ok o
                 /\ (is_dict v = true <-> exists r, o = Some r).
Proof.
  destruct v; cbn [has_unreadable_name variant_of_entry is_dict];
    try (exists None; split; [reflexivity|split; [discriminate|intros [r Hr]; discriminate]]).
  unfold clean_text_value.
  destruct (truthy (py_or (py_or (dict_get items "name") (dict_get items "description"))
                          (VStr ""))) eqn:Ht; cbn [negb andb].
  - destruct (py_or (py_or (dict_get items "name") (dict_get items "description"))
                    (VStr "")); cbn [bind]; try reflexivity.
    eexists. split; [reflexivity|]. split; eauto.
  - eexists. split; [reflexivity|]. split; eauto.
Qed.

Lemma variants_loop_outcome (entries : list value) :
  forall (k : nat) (acc : list variant),
    if existsb has_unreadable_name entries
    then variants_loop py_repr k entries acc = Raise AttributeError
    else exists vs,
        variants_loop py_repr k entries acc = Ok (acc ++ vs)%list
        /\ length vs = length (List.filter is_dict entries).
Proof.
  induction entries as [|v entries IH]; intros k acc; cbn [existsb variants_loop].
  - exists []. rewrite app_nil_r. split; reflexivity.
  - pose proof (variant_of_entry_outcome k v) as Hv.
    destruct (has_unreadable_name v); cbn [orb].
    + rewrite Hv. reflexivity.
    + destruct Hv as (o & -> & Ho). cbn [bind List.filter].
      specialize (IH (S k) (match o with Some r => (acc ++ [r])%list | None => acc end)).
      destruct (existsb has_unreadable_name entries); [exact IH|].
      destruct IH as (vs & -> & Hlen).
      destruct o as [r|].
      * assert (Hd : is_dict v = true) by (apply Ho; eauto). rewrite Hd.
        exists (r :: vs). rewrite <- app_assoc. split; [reflexivity|].
        cbn [length]. rewrite Hlen. reflexivity.
      * assert (Hd : is_dict v = false).
        { destruct (is_dict v) eqn:Hd; [|reflexivity].
          destruct (proj1 Ho eq_refl) as [r Hr]. discriminate. }
        rewrite Hd. exists vs. split; [reflexivity|exact Hlen].
Qed.


Lemma digit_char_value (d : nat) : (d < 10)%nat -> (nat_of_ascii (digit_char d) - 48 = d)%nat.
Proof.
  intros Hd. unfold digit_char. rewrite nat_ascii_embedding by lia. lia.
Qed.

Lemma decimal_chars_value (fuel : nat) :
  forall (n : nat) (acc : list ascii),
    (n < fuel)%nat ->
    digits_value (decimal_chars fuel n acc)
    = (n * 10 ^ length acc + digits_value acc)%nat.
Proof.
  induction fuel as [|fuel IH]; intros n acc Hn; [lia|].
  cbn [decimal_chars].
  destruct (n <? 10)%nat eqn:Hs.
  - apply Nat.ltb_lt in Hs. cbn [digits_value].
    rewrite digit_char_value by (apply Nat.mod_upper_bound; lia).
    rewrite Nat.mod_small by exact Hs. reflexivity.
  - apply Nat.ltb_ge in Hs.
    assert (Hdiv : (n / 10 < fuel)%nat).
    { pose proof (Nat.div_lt n 10 ltac:(lia) ltac:(lia)). lia. }
    rewrite (IH _ _ Hdiv). cbn [digits_value length].
    rewrite digit_char_value by (apply Nat.mod_upper_bound; lia).
    rewrite Nat.pow_succ_r'.
    pose proof (Nat.div_mod_eq n 10) as Hn10.
    set (q := (n / 10)%nat) in *. set (r := (n mod 10)%nat) in *.
    set (p := (10 ^ length acc)%nat). nia.
Qed.

Lemma str_of_nat_injective (a b : nat) : str_of_nat a = str_of_nat b -> a = b.
Proof.
  unfold str_of_nat. intros H.
  apply (f_equal chars) in H. rewrite !chars_text in H.
  apply (f_equal digits_value) in H.
  rewrite !decimal_chars_value in H by lia. cbn in H. lia.
Qed.

Lemma tiles_loop_ids_from (tiles : list tile) :
  forall k,
    List.map variant_id (tiles_loop k tiles)
    = List.map (fun i => VStr ("variant-" ++ str_of_nat i)) (seq k (length tiles)).
Proof.
  induction tiles as [|t tiles IH]; intros k; [reflexivity|].
  cbn [tiles_loop List.map length seq]. rewrite IH. reflexivity.
Qed.

(** X23. The variants read from the tiles of a page carry ids that are
    pairwise different: the id of the tile at position [i] is
    [variant-i]. *)
Theorem tile_variant_ids_unique (tiles : list tile) :
  List.map variant_id (tiles_loop 0 tiles)
  = List.map (fun i => VStr ("variant-" ++ str_of_nat i)) (seq 0 (length tiles))
  /\ List.NoDup (List.map variant_id (tiles_loop 0 tiles)).
Proof.
  split; [apply tiles_loop_ids_from|].
  rewrite tiles_loop_ids_from.
  apply Finite.Injective_map_NoDup; [|apply seq_NoDup].
  intros a b H. injection H as H. apply str_of_nat_injective, H.
Qed.

End MoreVariantsFacts.


(** ** The input file *)

Section InputsFacts.
Import PyStr Py Urls Variants Inputs.

Lemma dict_lookup_app (d e : dict) (k : string) :
  dict_lookup (d ++ e)%list k
  = match dict_lookup d k with Some v => Some v | None => dict_lookup e k end.
Proof.
  induction d as [|[k' v] d IH]; [reflexivity|].
  cbn [app dict_lookup]. destruct (String.eqb k' k); [reflexivity|exact IH].
Qed.

Lemma setdefault_keeps (d : dict) (k k' : string) (v v' : value) :
  dict_lookup d k' = Some v' -> dict_lookup (setdefault d k v) k' = Some v'.
Proof.
  intros H. unfold setdefault. destruct (dict_lookup d k); [exact H|].
  rewrite dict_lookup_app, H. reflexivity.
Qed.

Lemma dedupe_values_loop_texts (urls : list string) :
  forall seen acc,
    dedupe_values_loop (List.map VStr urls) seen acc
    = Ok (dedupe_loop urls seen acc).
Proof.
  induction urls as [|u urls IH]; intros seen acc; [reflexivity|].
  cbn [List.map dedupe_values_loop dedupe_loop].
  destruct (negb (nonempty (strip u))); [apply IH|].
  destruct (decide (strip u ∈ seen)); apply IH.
Qed.

Lemma dedupe_values_loop_raises (urls : list value) :
  forall seen acc,
    existsb (fun v => negb (is_text v)) urls = true ->
    dedupe_values_loop urls seen acc = Raise AttributeError.
Proof.
  induction urls as [|v urls IH]; intros seen acc H; [discriminate|].
  destruct v; cbn [dedupe_values_loop]; try reflexivity.
  cbn [existsb is_text negb orb] in H.
  destruct (negb (nonempty (strip s))); [apply IH, H|].
  destruct (decide (strip s ∈ seen)); apply IH, H.
Qed.

Lemma texts_of_texts (urls : list value) :
  existsb (fun v => negb (is_text v)) urls = false ->
  urls = List.map VStr (List.map text_of urls).
Proof.
  induction urls as [|v urls IH]; intros H; [reflexivity|].
  cbn [existsb] in H. apply orb_false_iff in H. destruct H as [Hv H].
  cbn [List.map]. rewrite <- (IH H). destruct v; try discriminate. reflexivity.
Qed.


(** An input that lists a number among its product URLs passes the
    validation and fails in the deduplication. *)
Lemma numbered_input_passes_validation :
  exists d, load_input_payload numbered_input = Ok d
            /\ product_urls_of d = Raise AttributeError.
Proof. eexists. split; vm_compute; reflexivity. Qed.

Variable py_repr : value -> string.

(** X25. [load_inputs] of [runner.py] raises, with [ValueError], exactly
    when the root is not an object or when one of the two URL fields,
    read under its long name, else under its short name, is neither an
    array nor a value that counts as false. When it returns, every URL of
    both lists is a text, whatever the file held in its place. *)
Theorem load_inputs_coerces_urls (raw : value) :
  match load_inputs py_repr raw with
  | Raise e =>
      e = ValueError
      /\ match raw with
         | VDict d =>
             is_list (field_or d "product_urls" "products")
             && is_list (field_or d "category_urls" "categories") = false
         | _ => True
         end
  | Ok inputs =>
      exists d product_urls category_urls,
        raw = VDict d
        /\ field_or d "product_urls" "products" = VList product_urls
        /\ field_or d "category_urls" "categories" = VList category_urls
        /\ dict_get inputs "product_urls"
           = VList (List.map (fun u => VStr (py_str py_repr u)) product_urls)
        /\ dict_get inputs "category_urls"
           = VList (List.map (fun u => VStr (py_str py_repr u)) category_urls)
  end.
Proof.
  destruct raw as [| | | | | |d]; cbn [load_inputs]; try (split; [reflexivity|exact I]).
  fold (field_or d "product_urls" "products").
  fold (field_or d "category_urls" "categories").
  destruct (field_or d "product_urls" "products") as [| | | | |ps|] eqn:Hp;
    try (split; reflexivity).
  destruct (field_or d "category_urls" "categories") as [| | | | |cs|] eqn:Hc;
    try (split; reflexivity).
  cbn beta iota. exists d, ps, cs.
  split; [reflexivity|split; [exact Hp|split; [exact Hc|split; reflexivity]]].
Qed.

End InputsFacts.

(** ** Product info of the runner pipeline *)

Section InfoParserFacts.
Import PyStr Py UtilsFormat JsonLd Variants Info Ids InfoParser.

Variable py_repr : value -> string.

Lemma clean_text_value_raises (v : value) (e : exn) :
  clean_text_value v = Raise e -> e = AttributeError.
Proof.
  unfold clean_text_value. destruct (truthy v); cbn [negb]; [|discriminate].
  destruct v; try discriminate; intros [= <-]; reflexivity.
Qed.

Lemma ld_price_raises (d : dict) (e : exn) :
  ld_price d = Raise e -> e = AttributeError.
Proof.
  unfold ld_price, offer_price.
  destruct (dict_get d "offers") as [| | | | |[|[] ?]|offers]; try discriminate.
  destruct (truthy (dict_get offers "price")); [discriminate|].
  destruct (dict_lookup offers "priceSpecification") as [[]|];
    try discriminate; intros [= <-]; reflexivity.
Qed.

Lemma clean_text_stripped (s : string) :
  strip (clean_text (Some s)) = clean_text (Some s).
Proof.
  pose proof (split_ws_words (chars s) [] ltac:(constructor)) as Hw.
  cbn [clean_text]. unfold strip. rewrite chars_text. f_equal.
  destruct (join_space_clean _ Hw). apply strip_chars_fixed; assumption.
Qed.

Lemma py_or_text_not_none (v : value) (s : string) : py_or v (VStr s) <> VNone.
Proof.
  unfold py_or. destruct (truthy v) eqn:Ht; [|discriminate].
  intros ->. discriminate Ht.
Qed.


End InfoParserFacts.

(** The record of a page without JSON-LD: the title cleaned, the id
    taken from the address, and 12.3K loves counted as 12300. *)
Lemma sold_out_page_info :
  InfoParser.parse_product_info Variants.repr_unused [] InfoParser.sold_out_page
    InfoParser.sold_out_url
  = Py.Ok [ ("id", Py.VStr "P455369");
            ("name", Py.VStr "Velvet Lipstick");
            ("image", Py.VStr "");
            ("description", Py.VStr "");
            ("is_available", Py.VBool false);
            ("brand", Py.VStr "Acme");
            ("price", Py.VStr "$24.00");
            ("love_count", Py.VInt 12300);
            ("url", Py.VStr InfoParser.sold_out_url) ].
Proof. vm_compute. reflexivity. Qed.

(** ** Product info of the parser pipeline: what the record always has *)

Section InfoShapeFacts.
Import PyStr Py UtilsFormat Variants Info.

Variable py_repr : value -> string.

Lemma first_number_run_shape (l r : list ascii) :
  first_number_run l = Some r -> r <> [] /\ all_of is_number_char r.
Proof.
  induction l as [|c l IH]; [discriminate|].
  cbn [first_number_run]. destruct (is_number_char c) eqn:Hc; [|exact IH].
  intros [= <-]. split.
  - cbn [span]. rewrite Hc. destruct (span is_number_char l). discriminate.
  - apply (proj2 (span_split is_number_char (c :: l))).
Qed.

(** X27. Whatever the page and the structured data, the product info of
    the parser pipeline says whether the product is available: the field
    is a boolean, never [None]. Its love count is [None] or a non-empty
    text of digits, dots and commas, the first such run of the
    [twitter:data2] content, a suffix such as K being left out. And its
    image does not depend on the structured data: it is read from the
    [og:image] tag only. *)
Theorem build_product_info_shape
    (page : info_page) (product_json : option dict) (source_url : string) :
  let info := _build_product_info py_repr page product_json source_url in
  (exists available, is_available info = VBool available)
  /\ (love_count info = VNone
      \/ exists run, love_count info = VStr (text run)
                     /\ run <> [] /\ all_of is_number_char run)
  /\ image info = image (_build_product_info py_repr page None source_url).
Proof.
  cbv zeta. unfold _build_product_info. cbn [is_available love_count image].
  split; [|split; [|reflexivity]].
  - repeat match goal with
           | |- context [match ?x with Some _ => _ | None => _ end] => destruct x
           | |- context [match dict_get ?d ?k with VNone => _ | _ => _ end] =>
               destruct (dict_get d k)
           | |- context [if ?b then _ else _] => destruct b
           end; eauto.
  - destruct (extract_numeric_from_text _) as [n|] eqn:Hn; [|left; reflexivity].
    destruct (nonempty n); [|left; reflexivity].
    right. unfold extract_numeric_from_text in Hn.
    destruct (match py_or _ _ with VStr s => Some s | _ => None end) as [s|];
      [|discriminate].
    destruct (negb (nonempty s)); [discriminate|].
    destruct (first_number_run (chars s)) as [run|] eqn:Hrun; [|discriminate].
    injection Hn as <-. exists run. split; [reflexivity|].
    apply (first_number_run_shape _ _ Hrun).
Qed.

End InfoShapeFacts.

(** ** Questions of the runner pipeline *)

Section QuestionsParserFacts.
Import PyStr Py UtilsFormat Dates QuestionsParser.
Local Open Scope Z_scope.

Lemma parse_question_block_shape (b : block) (product_id : value) (q : dict) :
  _parse_question_block b product_id = Ok q ->
  exists question submitted_at answers helpful not_helpful,
    q = question_payload (py_or product_id (VStr "")) question submitted_at
          answers helpful not_helpful.
Proof.
  unfold _parse_question_block.
  destruct (normalized (question_date b)) as [d|]; cbn [bind]; [|discriminate].
  destruct (answers_loop (answers_in_components b) []) as [a1|]; cbn [bind];
    [|discriminate].
  destruct (match a1 with [] => _ | _ :: _ => _ end) as [a2|]; cbn [bind];
    [|discriminate].
  destruct (count_of (question_helpful_count b)) as [h|]; cbn [bind]; [|discriminate].
  destruct (count_of (question_not_helpful_count b)) as [n|]; cbn [bind];
    [|discriminate].
  intros [= <-]. eauto 10.
Qed.

Lemma product_id_or_empty (product_id : value) : py_or product_id (VStr "") <> VNone.
Proof.
  unfold py_or. destruct (truthy product_id) eqn:Ht; [|discriminate].
  intros ->. discriminate Ht.
Qed.

Lemma blocks_loop_spec (blocks : list block) (product_id : value)
    (max_questions : option Z) :
  forall questions out,
    blocks_loop blocks product_id max_questions questions = Ok out ->
    Forall is_parsed_question questions ->
    (forall m, max_questions = Some m -> Z.of_nat (length questions) < Z.max 1 m) ->
    Forall is_parsed_question out
    /\ (forall m, max_questions = Some m -> Z.of_nat (length out) <= Z.max 1 m).
Proof.
  induction blocks as [|b blocks IH]; intros questions out H Hshape Hlen.
  - injection H as <-. split; [exact Hshape|]. intros m Hm. specialize (Hlen m Hm). lia.
  - cbn [blocks_loop] in H.
    destruct (is_question_block b); cbn [negb] in H; [|eapply IH; eassumption].
    destruct (_parse_question_block b product_id) as [q|] eqn:Hq; cbn [bind] in H;
      [|discriminate].
    destruct (parse_question_block_shape b product_id q Hq)
      as (question & d & answers & h & n & ->).
    change (dict_get (question_payload (py_or product_id (VStr "")) question d
                        answers h n) "question")
      with (VStr question) in H.
    cbn [truthy] in H.
    destruct (nonempty question) eqn:Hne.
    + assert (Hshape1 : Forall is_parsed_question
                          (questions ++ [question_payload (py_or product_id (VStr ""))
                                           question d answers h n])%list).
      { apply Forall_app_2; [exact Hshape|]. constructor; [|constructor].
        do 6 eexists. split; [reflexivity|]. split; [exact Hne|].
        apply product_id_or_empty. }
      destruct (reached max_questions _) eqn:Hr.
      * injection H as <-. split; [exact Hshape1|].
        intros m Hm. specialize (Hlen m Hm). rewrite length_app. cbn [length]. lia.
      * eapply IH; [exact H|exact Hshape1|].
        intros m Hm. unfold reached in Hr. rewrite Hm in Hr.
        apply Z.leb_gt in Hr. lia.
    + destruct (reached max_questions questions) eqn:Hr.
      * injection H as <-. split; [exact Hshape|].
        intros m Hm. specialize (Hlen m Hm). lia.
      * eapply IH; eassumption.
Qed.

(** X28. Every question that [parse_questions] returns has a non-empty
    text and a product id that is not [None], the empty text standing
    for a missing one; under a limit it returns at most [max_questions]
    questions, or one when the limit is below 1. *)
Theorem parse_questions_capped
    (page : questions_page) (product_id : value) (max_questions : option Z)
    (questions : list dict) :
  parse_questions page product_id max_questions = Ok questions ->
  Forall is_parsed_question questions
  /\ (forall m, max_questions = Some m ->
                Z.of_nat (length questions) <= Z.max 1 m).
Proof.
  intros H. eapply blocks_loop_spec; [exact H|constructor|].
  intros m _. cbn. lia.
Qed.

(** The theorem at a page with two questions, for a product without id
    and with a limit of 1. *)
Lemma parse_questions_capped_witness :
  exists q, parse_questions two_questions_page VNone (Some 1) = Ok [q]
            /\ Forall is_parsed_question [q]
            /\ (forall m, Some 1 = Some m -> Z.of_nat (length [q]) <= Z.max 1 m).
Proof.
  eexists. split; [vm_compute; reflexivity|].
  apply (parse_questions_capped two_questions_page VNone (Some 1)).
  vm_compute. reflexivity.
Defined.

End QuestionsParserFacts.

(** ** No NaN from a numeral, and what [parse_number_with_suffix] raises *)

Section NanFacts.
Import PyStr Py UtilsFormat.
Local Open Scope Z_scope.

Lemma shr_1_nonneg (mrs : shr_record) : 0 <= shr_m mrs -> 0 <= shr_m (shr_1 mrs).
Proof.
  destruct mrs as [m r s]. destruct m as [|[p|p|]|p]; cbn; lia.
Qed.

Lemma iter_shr_1_nonneg (p : positive) :
  forall mrs, 0 <= shr_m mrs -> 0 <= shr_m (SpecFloat.iter_pos shr_1 p mrs).
Proof.
  induction p as [p IH|p IH|]; intros mrs H; cbn [SpecFloat.iter_pos].
  - apply IH, IH, shr_1_nonneg, H.
  - apply IH, IH, H.
  - apply shr_1_nonneg, H.
Qed.

Lemma shr_fexp_nonneg (m e : Z) (l : location) :
  0 <= m -> 0 <= shr_m (fst (shr_fexp prec emax m e l)).
Proof.
  intros Hm. unfold shr_fexp, shr.
  assert (H0 : 0 <= shr_m (shr_record_of_loc m l)) by (destruct l as [|[]]; exact Hm).
  destruct (fexp prec emax (Zdigits2 m + e) - e); cbn [fst]; try exact H0.
  apply iter_shr_1_nonneg, H0.
Qed.

Lemma round_nearest_even_nonneg (m : Z) (l : location) :
  0 <= m -> 0 <= round_nearest_even m l.
Proof.
  intros Hm. destruct l as [|[]]; cbn [round_nearest_even]; try lia.
  destruct (Z.even m); lia.
Qed.

Lemma binary_round_aux_not_nan (s : bool) (m e : Z) (l : location) :
  0 <= m -> binary_round_aux prec emax s m e l <> S754_nan.
Proof.
  intros Hm. unfold binary_round_aux.
  pose proof (shr_fexp_nonneg m e l Hm) as H1.
  destruct (shr_fexp prec emax m e l) as [mrs1 e1]. cbn [fst] in H1.
  pose proof (shr_fexp_nonneg
                (round_nearest_even (shr_m mrs1) (loc_of_shr_record mrs1)) e1 loc_Exact
                (round_nearest_even_nonneg _ _ H1)) as H2.
  destruct (shr_fexp prec emax _ e1 loc_Exact) as [mrs2 e2]. cbn [fst] in H2.
  destruct (shr_m mrs2); [discriminate| |lia].
  destruct (e2 <=? emax - prec); discriminate.
Qed.

Lemma float_of_ratio_not_nan (neg : bool) (num den : Z) :
  0 <= num -> 0 < den -> float_of_ratio neg num den <> S754_nan.
Proof.
  intros Hn Hd. unfold float_of_ratio.
  destruct num as [|p|p]; [discriminate| |lia].
  unfold SFdiv_core_binary.
  set (s := 0 - 0 - _).
  set (m' := match s with Z0 => Zpos p | Zpos _ => Z.shiftl (Zpos p) s | Zneg _ => 0 end).
  assert (Hm : 0 <= m').
  { subst m'. destruct s; try lia. apply Z.shiftl_nonneg. lia. }
  pose proof (Z.div_pos m' den Hm Hd) as Hq.
  unfold Z.div in Hq. destruct (Z.div_eucl m' den) as [q r]. cbn [fst] in Hq.
  apply binary_round_aux_not_nan, Hq.
Qed.

Lemma float_of_decimal_not_nan (neg : bool) (n e10 : Z) :
  0 <= n -> float_of_decimal neg n e10 <> S754_nan.
Proof.
  intros Hn. unfold float_of_decimal. destruct (0 <=? e10) eqn:He.
  - apply float_of_ratio_not_nan; [|lia].
    apply Z.leb_le in He. apply Z.mul_nonneg_nonneg; [exact Hn|].
    apply Z.pow_nonneg. lia.
  - apply float_of_ratio_not_nan; [exact Hn|]. apply Z.pow_pos_nonneg; lia.
Qed.

Lemma read_digits_nonneg_upto (k : nat) :
  forall l n cnt,
    (length l <= k)%nat -> 0 <= n -> 0 <= fst (fst (read_digits l n cnt)).
Proof.
  induction k as [|k IH]; intros l n cnt Hk Hn.
  - destruct l; [exact Hn|cbn in Hk; lia].
  - destruct l as [|c l]; [exact Hn|]. cbn [length] in Hk.
    cbn [read_digits]. destruct (is_digit c) eqn:Hc.
    + apply IH; [lia|]. pose proof (digit_val_nonneg c Hc). lia.
    + destruct (Ascii.eqb c "_" && (0 <? cnt)); [|exact Hn].
      destruct l as [|d l]; [exact Hn|].
      destruct (is_digit d) eqn:Hd; [|exact Hn].
      apply IH; [cbn [length] in Hk; lia|].
      pose proof (digit_val_nonneg d Hd). lia.
Qed.

Lemma read_digits_nonneg (l : list ascii) (n cnt : Z) :
  0 <= n -> 0 <= fst (fst (read_digits l n cnt)).
Proof. apply (read_digits_nonneg_upto (length l)). lia. Qed.

(** [float] reads a NaN from the word only. *)
Lemma float_of_text_nan (s : string) :
  float_of_text s = Some S754_nan ->
  String.eqb (text (List.map lower_char
                      (snd (read_sign (c_strip_chars (chars s)))))) "nan" = true.
Proof.
  unfold float_of_text.
  destruct (read_sign (c_strip_chars (chars s))) as [neg r]. cbn [snd].
  destruct (String.eqb _ "inf" || String.eqb _ "infinity"); [discriminate|].
  destruct (String.eqb _ "nan"); [reflexivity|].
  pose proof (read_digits_nonneg r 0 0 ltac:(lia)) as H1.
  destruct (read_digits r 0 0) as [[n1 c1] r1]. cbn [fst] in H1.
  assert (H2 : 0 <= fst (fst (match r1 with
                              | "."%char :: r' => read_digits r' n1 0
                              | _ => (n1, 0, r1)
                              end))).
  { destruct r1 as [|c r1]; [exact H1|].
    destruct (Ascii.eqb_spec c "."%char) as [->|Hne].
    - apply read_digits_nonneg, H1.
    - destruct c as [[] [] [] [] [] [] [] []]; try exact H1. congruence. }
  destruct (match r1 with "."%char :: r' => _ | _ => _ end) as [[n2 c2] r2].
  cbn [fst] in H2.
  destruct (c1 + c2 =? 0); [discriminate|].
  destruct r2 as [|c r3].
  - intros [= H]. exfalso. revert H. apply float_of_decimal_not_nan, H2.
  - destruct (Ascii.eqb c "e" || Ascii.eqb c "E"); [|discriminate].
    destruct (read_exponent r3); [|discriminate].
    intros [= H]. exfalso. revert H. apply float_of_decimal_not_nan, H2.
Qed.

Lemma drop_while_all (P : ascii -> Prop) (p : ascii -> bool) (l : list ascii) :
  Forall P l -> Forall P (drop_while p l).
Proof.
  induction 1 as [|c l Hc Hl IH]; cbn [drop_while]; [constructor|].
  destruct (p c); [exact IH|constructor; assumption].
Qed.

Lemma read_sign_all (P : ascii -> Prop) (l : list ascii) :
  Forall P l -> Forall P (snd (read_sign l)).
Proof.
  intros H. destruct H as [|c l Hc Hl]; [constructor|].
  unfold read_sign.
  destruct c as [[] [] [] [] [] [] [] []]; cbn [snd];
    try exact Hl; constructor; assumption.
Qed.

Lemma number_chars_no_nan (r : list ascii) :
  all_of is_number_char r ->
  String.eqb (text (List.map lower_char r)) "nan" = false.
Proof.
  intros [|c r' Hc _]; [reflexivity|].
  destruct c as [[] [] [] [] [] [] [] []]; try discriminate Hc; reflexivity.
Qed.

Lemma number_text_not_nan (num : list ascii) (x : float) :
  all_of is_number_char num ->
  float_of_text (remove_commas (text num)) = Some x -> x <> S754_nan.
Proof.
  intros Hnum Hx ->. apply float_of_text_nan in Hx.
  rewrite number_chars_no_nan in Hx; [discriminate|].
  unfold all_of in *. apply read_sign_all. unfold c_strip_chars.
  apply Forall_rev, drop_while_all, Forall_rev, drop_while_all.
  unfold remove_commas. rewrite !chars_text.
  apply Forall_forall. intros c Hc.
  apply list_elem_of_In, filter_In in Hc. destruct Hc as [Hc _].
  rewrite Forall_forall in Hnum. apply Hnum, list_elem_of_In, Hc.
Qed.

Lemma fmul_finite_not_nan (x : float) (s : bool) (m : positive) (e : Z) :
  x <> S754_nan -> fmul x (S754_finite s m e) <> S754_nan.
Proof.
  intros Hx. unfold fmul. destruct x; cbn [SFmul]; try discriminate; [congruence|].
  apply binary_round_aux_not_nan. lia.
Qed.

Lemma match_number_chars (t number_str suffix : string) :
  number_with_suffix_match t = Some (number_str, suffix) ->
  exists num, number_str = text num /\ all_of is_number_char num.
Proof.
  unfold number_with_suffix_match.
  pose proof (proj2 (span_split is_number_char (lstrip_chars (chars t)))) as Hnum.
  destruct (span is_number_char (lstrip_chars (chars t))) as [num l1].
  cbn [fst] in Hnum. destruct num as [|c num]; [discriminate|].
  destruct (match lstrip_chars l1 with [] => _ | _ :: _ => _ end) as [suf l3].
  destruct (lstrip_chars l3); [|discriminate].
  intros [= <- _]. exists (c :: num). split; [reflexivity|exact Hnum].
Qed.

(** X29. The one exception [parse_number_with_suffix] can raise is
    [OverflowError]: the number read from the text is never a NaN, so
    that [round] fails on an infinity only, that is, on a number beyond
    the range of a double. *)
Theorem parse_number_with_suffix_raises_overflow_only
    (t : option string) (default : Z) (e : exn) :
  parse_number_with_suffix t default = Raise e -> e = OverflowError.
Proof.
  unfold parse_number_with_suffix.
  destruct t as [txt|]; [|discriminate].
  destruct (negb (nonempty txt)); [discriminate|].
  destruct (number_with_suffix_match txt) as [[number_str suffix]|] eqn:Hm;
    [|discriminate].
  destruct (match_number_chars _ _ _ Hm) as (num & -> & Hnum).
  destruct (float_of_text (remove_commas (text num))) as [x|] eqn:Hx; [|discriminate].
  pose proof (number_text_not_nan num x Hnum Hx) as Hnan.
  assert (Hscaled : forall y, y <> S754_nan -> py_round y = Raise e -> e = OverflowError).
  { intros y Hy. destruct y; cbn [py_round]; try discriminate.
    - intros [= <-]. reflexivity.
    - congruence. }
  destruct (String.eqb (lower suffix) "k").
  - apply Hscaled. apply (fmul_finite_not_nan x false 8796093022208000 (-43) Hnan).
  - destruct (String.eqb (lower suffix) "m").
    + apply Hscaled.
      apply (fmul_finite_not_nan x false 8589934592000000 (-33) Hnan).
    + apply Hscaled, Hnan.
Qed.

(** The theorem at a popularity count of 400 digits. *)
Lemma parse_number_with_suffix_raises_overflow_only_witness :
  parse_number_with_suffix (Some (text ("1"%char :: repeat "0"%char 400))) 0
  = Raise OverflowError.
Proof.
  destruct (parse_number_with_suffix
              (Some (text ("1"%char :: repeat "0"%char 400))) 0) as [n|e] eqn:H.
  - vm_compute in H. discriminate H.
  - rewrite (parse_number_with_suffix_raises_overflow_only _ _ _ H). reflexivity.
Defined.

End NanFacts.

(** ** One request per URL of a deduplicated work-list *)

Section OneRequestFacts.
Import PyStr Py Urls Orchestrator.

Variable fetch_html : nat -> string -> option string.
Variable parse_product : string -> string -> result dict.
Variable extract_similar_product_links : string -> string -> result (list string).

Lemma loop_body_requests_once (st st' : main_state) (url : string) :
  url ∉ processed_product_urls st ->
  loop_body fetch_html parse_product extract_similar_product_links false st url
  = Ok st' ->
  requests st' = S (requests st)
  /\ position st' = S (position st)
  /\ product_urls st' = product_urls st
  /\ (forall u, u ∈ processed_product_urls st' ->
                u = url \/ u ∈ processed_product_urls st).
Proof.
  intros Hnew H. unfold loop_body in H.
  destruct (decide (url ∈ processed_product_urls st)) as [Hin|_]; [contradiction|].
  destruct (got_html (fetch_html (requests st) url)) as [html|].
  2:{ injection H as <-. cbn. repeat split. intros u Hu. right. exact Hu. }
  unfold try_parse in H.
  destruct (parse_product html url) as [r|e];
    cbn [bind try_except caught_exception] in H.
  2:{ injection H as <-. cbn. repeat split. intros u Hu. right. exact Hu. }
  destruct (truthy (VDict r)); cbn [bind] in H; injection H as <-; cbn;
    repeat split; intros u Hu.
  - apply elem_of_union in Hu. destruct Hu as [Hu|Hu]; [left|right; exact Hu].
    apply elem_of_singleton in Hu. exact Hu.
  - right. exact Hu.
Qed.

Lemma main_loop_requests_once (urls : list string) (fuel : nat) :
  List.NoDup urls ->
  forall st st',
    product_urls st = urls ->
    requests st = position st ->
    (position st <= length urls)%nat ->
    (forall u, u ∈ processed_product_urls st -> In u (firstn (position st) urls)) ->
    main_loop fetch_html parse_product extract_similar_product_links false fuel st
    = Ok (Some st') ->
    requests st' = length urls /\ product_urls st' = urls.
Proof.
  intros Hnd. induction fuel as [|fuel IH]; intros st st' Hu Hr Hle Hsub H; [discriminate|].
  cbn [main_loop] in H. rewrite Hu in H.
  destruct (urls !! position st) as [url|] eqn:Hl.
  - assert (Hnew : url ∉ processed_product_urls st).
    { intros Hin. apply Hsub in Hin.
      apply list_elem_of_In, list_elem_of_lookup in Hin. destruct Hin as [i Hi].
      pose proof (lookup_lt_Some _ _ _ Hi) as Hlt. rewrite length_take in Hlt.
      assert (Hi' : (i < position st)%nat) by (clear - Hlt; lia).
      rewrite lookup_take_lt in Hi by exact Hi'.
      apply NoDup_ListNoDup in Hnd.
      pose proof (NoDup_lookup _ _ _ _ Hnd Hi Hl). lia. }
    destruct (loop_body fetch_html parse_product extract_similar_product_links
                false st url) as [st1|e] eqn:Hb; cbn [bind] in H; [|discriminate].
    destruct (loop_body_requests_once st st1 url Hnew Hb) as (Hr1 & Hp1 & Hu1 & Hs1).
    pose proof (lookup_lt_Some _ _ _ Hl) as Hlt.
    apply (IH st1 st');
      [rewrite Hu1; exact Hu|rewrite Hr1, Hp1, Hr; reflexivity|rewrite Hp1; lia| |exact H].
    intros u Hin. rewrite Hp1. apply list_elem_of_In.
    rewrite (take_S_r _ _ _ Hl). apply elem_of_app.
    destruct (Hs1 u Hin) as [->|Hold].
    + right. apply list_elem_of_singleton. reflexivity.
    + left. apply list_elem_of_In, Hsub, Hold.
  - injection H as <-. split; [|exact Hu].
    apply lookup_ge_None in Hl. lia.
Qed.

(** X30. When similar products are not followed, the loop of [main.py]
    over a work-list without duplicates, such as [dedupe_urls] returns,
    requests every URL of the list exactly once, whatever the network
    and the parser do: it ends with as many requests made as the list has
    URLs, and with the list unchanged. *)
Theorem main_loop_requests_each_url_once (urls : list string) (fuel : nat)
    (st' : main_state) :
  main_loop fetch_html parse_product extract_similar_product_links false fuel
    (start (dedupe_urls urls)) = Ok (Some st') ->
  requests st' = length (dedupe_urls urls)
  /\ product_urls st' = dedupe_urls urls.
Proof.
  intros H.
  apply (main_loop_requests_once (dedupe_urls urls) fuel
           ltac:(rewrite dedupe_urls_eq_spec; apply first_occurrences_NoDup)
           (start (dedupe_urls urls)) st'); try reflexivity; [cbn; lia| |exact H].
  intros u Hu. exfalso. revert Hu. apply not_elem_of_empty.
Qed.

End OneRequestFacts.

(** The theorem on a work-list in which one URL is written twice: two
    requests. *)
Lemma main_loop_requests_each_url_once_witness :
  exists st',
    Orchestrator.main_loop Orchestrator.sample_fetch
      Orchestrator.sample_parse_product (fun _ _ => Py.Ok []) false 4
      (Orchestrator.start
         (Urls.dedupe_urls
            [Orchestrator.url_a; " " ++ Orchestrator.url_a; Orchestrator.url_c]))
    = Py.Ok (Some st')
    /\ Orchestrator.requests st' = 2%nat.
Proof.
  destruct (main_loop_terminates Orchestrator.sample_fetch
              Orchestrator.sample_parse_product (fun _ _ => Py.Ok []) 4
              (Orchestrator.start
                 (Urls.dedupe_urls
                    [Orchestrator.url_a; " " ++ Orchestrator.url_a;
                     Orchestrator.url_c]))
              ltac:(vm_compute; lia)) as [st' H].
  exists st'. split; [exact H|].
  rewrite (proj1 (main_loop_requests_each_url_once _ _ _ _ _ _ H)).
  vm_compute. reflexivity.
Defined.

(** ** The theorems above at sample inputs *)

(** X4 at a numeral beyond the range of a double. *)
Lemma parse_int_raises_on_infinity_only_witness :
  UtilsFormat.parse_int (Py.VStr "1e999") 0 = Py.Raise Py.OverflowError.
Proof.
  apply (proj2 (proj1 (parse_int_raises_on_infinity_only
                         (Py.VStr "1e999") 0 Py.OverflowError))).
  split; [reflexivity|]. exists false. right. exists "1e999".
  split; [reflexivity|vm_compute; reflexivity].
Defined.

(** X5 at the address of a product page with a query. *)
Lemma infer_product_id_first_p_digits_witness :
  exists pre ds post,
    PyStr.chars "https://www.sephora.com/product/velvet-P455369?skuId=1"
    = (pre ++ "P"%char :: ds ++ post)%list
    /\ "P455369" = PyStr.text ("P"%char :: ds)
    /\ ds <> [] /\ UtilsFormat.all_of PyStr.is_digit ds
    /\ Ids.no_digit_ahead post
    /\ Ids.infer_product_id_from_url (PyStr.text pre) = None.
Proof.
  exact (proj1 (infer_product_id_first_p_digits
                  "https://www.sephora.com/product/velvet-P455369?skuId=1")
           "P455369" eq_refl).
Defined.

(** X21 at an Organization block followed by a list that holds a
    Product tagged by a text. *)
Lemma locators_agree_without_type_lists_witness :
  exists d',
    JsonLd._find_product_json
      (flat_map JsonLd.dict_items
         [Py.VDict JsonLd.organization; Py.VList [Py.VDict Info.brandless]])
    = Some d'.
Proof.
  exact (proj1 (locators_agree_without_type_lists
                  [Py.VDict JsonLd.organization; Py.VList [Py.VDict Info.brandless]])
           Info.brandless eq_refl).
Defined.
